(** * ScrapX: listings, negotiations, row-level security and image upload

    A shallow embedding of the parts of the ScrapX marketplace that carry
    its data flow: the [scrap_listings] and [negotiations] tables with the
    stored SQL functions and row-level security policies that guard them,
    the React handlers that issue the remote reads and writes, and the
    GitHub image uploader.

    Conventions.
    - A UUID is the string the client sees ([id: string]).
    - SQL [double precision] and the JS numbers that carry prices, offers
      and coordinates are exact rationals ([Q]); the code only stores,
      compares with zero and projects them.  The [NUMERIC(10, 2)] columns
      of [negotiations] hold hundredths: a value written to them is rounded
      to two decimals and refused from 10^8 on; the [geography] column of
      [scrap_listings] keeps a point of [-180, 180] x [-90, 90] as given.
    - A timestamp is an integer number of milliseconds.
    - A remote call answers with a result or with the error object the
      Supabase client returns ([error.code], [error.message]).  Every
      remote call can also fail before the statement runs (transport,
      session, ...); the handlers receive that as the [fault] of the call. *)

From Stdlib Require Import List String Ascii Bool ZArith NArith QArith Qabs Lia.
From Stdlib Require Import DecimalString.
From Stdlib Require Import Permutation Sorted Eqdep_dec.
Import ListNotations.
Open Scope string_scope.

Definition uuid := string.

(** The error object of the Supabase client. *)
Record PostgrestError := mkError { code : string; message : string }.

Inductive result (A : Type) : Type :=
| Ok (a : A)
| Err (e : PostgrestError).
Arguments Ok {A} a.
Arguments Err {A} e.

(** JS [s || d] on strings: the empty string is falsy. *)
Definition or_default (s d : string) : string :=
  if String.eqb s "" then d else s.

(** A toast notification: [variant: "destructive"] marks an error. *)
Record Toast := mkToast {
  title : string;
  description : string;
  destructive : bool
}.

(** What the outside world contributes to one handler run: the clock, the
    value [gen_random_uuid()] draws, and, for the [k]-th remote call of the
    handler, an optional failure that prevents the statement from running.
    The session user ([auth.uid()] on the server, [user] in the client) is
    an argument of the handlers. *)
Record Remote := mkRemote {
  now : Z;
  gen_random_uuid : uuid;
  fault : nat -> option PostgrestError
}.

(** SQL [auth.uid() = x]: NULL (no session) compares to nothing. *)
Definition uid_is (a : option uuid) (x : uuid) : bool :=
  match a with
  | Some u => String.eqb u x
  | None => false
  end.

(** JS [user?.id === x] as used in the [.eq('seller_id', user?.id)] filters. *)
Definition user_is (user : option uuid) (x : uuid) : bool := uid_is user x.

(** Integer to text, as SQL [||] and JS template strings render it. *)
Definition show_nat (n : nat) : string :=
  NilEmpty.string_of_uint (Nat.to_uint n).

(** [.order('created_at', { ascending: false })]: largest key first; rows with
    equal keys come in no promised order, as in SQL. *)
Fixpoint insert_desc {A : Type} (key : A -> Z) (x : A) (l : list A) : list A :=
  match l with
  | [] => [x]
  | y :: t => if Z.ltb (key y) (key x) then x :: y :: t
              else y :: insert_desc key x t
  end.

Definition order_desc {A : Type} (key : A -> Z) (l : list A) : list A :=
  fold_right (insert_desc key) [] l.

(** A conditional row update is a [map]: rows keep their position. *)
Definition update_where {A : Type} (where_ : A -> bool) (set_ : A -> A)
    (tbl : list A) : list A :=
  map (fun r => if where_ r then set_ r else r) tbl.

(** ** NUMERIC(10, 2)

    The type of [negotiations.initial_offer] and [negotiations.counter_offer]
    (migration.sql, rls_policies.sql, fix_negotiations.sql). *)

Module Numeric.

(** Ten digits, two of them after the point: a stored value is a number of
    hundredths of absolute value below 10^10. *)
Definition limit : Z := 10 ^ 10.

Record numeric_10_2 := mkNumeric {
  hundredths : Z;
  in_precision : (Z.abs hundredths <? limit)%Z = true
}.

(** The number a client reads from the column. *)
Definition value (n : numeric_10_2) : Q := hundredths n # 100.

(** Rounding to an integer, a tie away from zero (the rounding of NUMERIC). *)
Definition round_half_away (q : Q) : Z :=
  let n := Qnum q in
  let d := Zpos (Qden q) in
  if (0 <=? n)%Z then (2 * n + d) / (2 * d) else - ((2 * - n + d) / (2 * d)).

Definition numeric_field_overflow : PostgrestError :=
  mkError "22003" "numeric field overflow".

Definition of_hundredths (h : Z) : result numeric_10_2 :=
  match bool_dec (Z.abs h <? limit)%Z true with
  | left H => Ok (mkNumeric h H)
  | right _ => Err numeric_field_overflow
  end.

(** The assignment cast to the column: round to two decimals, then check
    the precision. *)
Definition to_numeric (q : Q) : result numeric_10_2 :=
  of_hundredths (round_half_away (q * 100)).

Definition to_numeric_opt (o : option Q) : result (option numeric_10_2) :=
  match o with
  | None => Ok None
  | Some q => match to_numeric q with
              | Ok v => Ok (Some v)
              | Err e => Err e
              end
  end.

End Numeric.

Coercion Numeric.value : Numeric.numeric_10_2 >-> Q.

(** ** Listings *)

Module Listing.

(** A PostGIS point: [ST_MakePoint(x, y)] with its SRID. *)
Record geometry := mkPoint { px : Q; py : Q; srid : Z }.

Definition ST_MakePoint (x y : Q) : geometry := mkPoint x y 0.
Definition ST_SetSRID (g : geometry) (s : Z) : geometry := mkPoint (px g) (py g) s.
(** [ST_X] and [ST_Y] of a point; SQL functions return a nullable value. *)
Definition ST_X (g : geometry) : option Q := Some (px g).
Definition ST_Y (g : geometry) : option Q := Some (py g).

(** A row of [scrap_listings] (database.types.ts, migration.sql). *)
Record scrap_listing := mkListing {
  id : uuid;
  seller_id : uuid;
  material_type_id : uuid;
  title : string;
  description : option string;
  quantity : Q;
  unit : string;
  listed_price : Q;
  image_url : option string;
  classification : option string;
  confidence : option Q;
  weight_estimation : option Q;
  geolocation : option geometry;
  address : option string;
  status : string;
  created_at : Z;
  updated_at : Z;
  is_donation : option bool;
  ngo_id : option uuid
}.

Record material_type := mkMaterial {
  mt_id : uuid;
  mt_name : string;
  mt_category : string;
  mt_description : option string
}.

Definition set_geolocation (g : option geometry) (l : scrap_listing) : scrap_listing :=
  mkListing (id l) (seller_id l) (material_type_id l) (title l) (description l)
    (quantity l) (unit l) (listed_price l) (image_url l) (classification l)
    (confidence l) (weight_estimation l) g (address l) (status l)
    (created_at l) (updated_at l) (is_donation l) (ngo_id l).

Definition set_status (s : string) (l : scrap_listing) : scrap_listing :=
  mkListing (id l) (seller_id l) (material_type_id l) (title l) (description l)
    (quantity l) (unit l) (listed_price l) (image_url l) (classification l)
    (confidence l) (weight_estimation l) (geolocation l) (address l) s
    (created_at l) (updated_at l) (is_donation l) (ngo_id l).

(** SQL [status != 'deleted'] on the NOT NULL text column. *)
Definition not_deleted (l : scrap_listing) : bool :=
  negb (String.eqb (status l) "deleted").

(** *** update_geolocation (SQL): how a point is stored from (lat, lng) *)

(** [ST_SetSRID(ST_MakePoint(lng, lat), 4326)]: x is the longitude. *)
Definition stored_point (lat lng : Q) : geometry :=
  ST_SetSRID (ST_MakePoint lng lat) 4326.

(** The column [geolocation] is a [geography]: assigning the geometry above
    casts it.  A point of [-180, 180] x [-90, 90] is stored as it is; any
    other point is first forced into that range by the extension, and
    [force_geodetic] stands for that function of PostGIS, which is not part
    of the repository. *)
Definition in_geodetic_range (g : geometry) : bool :=
  Qle_bool (-180) (px g) && Qle_bool (px g) 180
  && Qle_bool (-90) (py g) && Qle_bool (py g) 90.

Definition to_geography (force_geodetic : geometry -> geometry) (g : geometry)
    : geometry :=
  if in_geodetic_range g then g else force_geodetic g.

Definition update_geolocation (force_geodetic : geometry -> geometry)
    (listing_id : uuid) (lat lng : Q) (tbl : list scrap_listing)
    : list scrap_listing * bool :=
  (map (fun l => if String.eqb (id l) listing_id
                 then set_geolocation
                        (Some (to_geography force_geodetic (stored_point lat lng))) l
                 else l) tbl,
   existsb (fun l => String.eqb (id l) listing_id) tbl).

(** *** get_listings_with_coordinates (fix_geolocation.sql) *)

Record listing_with_coordinates := mkLWC {
  r_id : uuid;
  r_title : string;
  r_description : option string;
  r_material_type_id : uuid;
  r_quantity : Q;
  r_unit : string;
  r_listed_price : Q;
  r_address : option string;
  latitude : option Q;
  longitude : option Q;
  r_status : string;
  r_created_at : Z;
  r_seller_id : uuid;
  r_material_type : option (uuid * string * string)
}.

(** [CASE WHEN g IS NOT NULL AND f(g) IS NOT NULL THEN f(g) ELSE NULL END]. *)
Definition case_coordinate (f : geometry -> option Q) (g : option geometry) : option Q :=
  match g with
  | Some p => match f p with Some v => Some v | None => None end
  | None => None
  end.

(** The scalar subquery on [material_types]. *)
Definition material_json (mts : list material_type) (k : uuid)
    : option (uuid * string * string) :=
  match find (fun m => String.eqb (mt_id m) k) mts with
  | Some m => Some (mt_id m, mt_name m, mt_category m)
  | None => None
  end.

Definition coordinates_row (mts : list material_type) (l : scrap_listing)
    : listing_with_coordinates :=
  mkLWC (id l) (title l) (description l) (material_type_id l) (quantity l)
    (unit l) (listed_price l) (address l)
    (case_coordinate ST_X (geolocation l))   (* AS latitude *)
    (case_coordinate ST_Y (geolocation l))   (* AS longitude *)
    (status l) (created_at l) (seller_id l)
    (material_json mts (material_type_id l)).

Definition get_listings_with_coordinates (mts : list material_type)
    (tbl : list scrap_listing) : list listing_with_coordinates :=
  map (coordinates_row mts) (filter not_deleted tbl).

(** *** get_listing_coordinates (migration 20240101000003)

    The JSON object built for the row with the given id; only the fields
    the properties below speak about are kept; the rest are copies of
    columns and of the joined rows. *)

Record listing_json := mkLJ {
  j_id : uuid;
  j_title : string;
  j_status : string;
  j_seller_id : uuid;
  j_latitude : option Q;
  j_longitude : option Q;
  j_geolocation : option (Q * Q)     (* coordinates: [ST_X, ST_Y] *)
}.

(** [CASE WHEN g IS NOT NULL THEN f(g) ELSE NULL END]. *)
Definition case_not_null (f : geometry -> option Q) (g : option geometry) : option Q :=
  match g with
  | Some p => f p
  | None => None
  end.

Definition get_listing_coordinates (listing_id : uuid) (tbl : list scrap_listing)
    : option listing_json :=
  match find (fun l => String.eqb (id l) listing_id) tbl with
  | Some l =>
      Some (mkLJ (id l) (title l) (status l) (seller_id l)
              (case_not_null ST_Y (geolocation l))    (* 'latitude' *)
              (case_not_null ST_X (geolocation l))    (* 'longitude' *)
              (match geolocation l with
               | Some p => Some (px p, py p)
               | None => None
               end))
  | None => None
  end.

(** *** update_test_geolocation (fix_geolocation.sql) *)

Definition default_location : geometry :=
  ST_SetSRID (ST_MakePoint (802707 # 10000) (130827 # 10000)) 4326.

(** [WHERE geolocation IS NULL AND status != 'deleted']. *)
Definition needs_default (l : scrap_listing) : bool :=
  match geolocation l with
  | None => not_deleted l
  | Some _ => false
  end.

Definition update_test_geolocation (tbl : list scrap_listing)
    : list scrap_listing * string :=
  let count_updated := List.length (filter needs_default tbl) in
  (map (fun l => if needs_default l
                 then set_geolocation (Some default_location) l else l) tbl,
   "Updated " ++ show_nat count_updated ++ " listings with default location").

(** *** Table access from the client

    No policy on [scrap_listings] is part of the repository, so a
    statement on that table runs as written unless the call itself fails. *)

Definition table := list scrap_listing.

Definition select (srv : Remote) (k : nat) (where_ : scrap_listing -> bool)
    (tbl : table) : result (list scrap_listing) :=
  match fault srv k with
  | Some e => Err e
  | None => Ok (filter where_ tbl)
  end.

Definition update (srv : Remote) (k : nat) (set_ : scrap_listing -> scrap_listing)
    (where_ : scrap_listing -> bool) (tbl : table) : result table :=
  match fault srv k with
  | Some e => Err e
  | None => Ok (update_where where_ set_ tbl)
  end.

Definition eq_id (i : uuid) (l : scrap_listing) : bool := String.eqb (id l) i.

(** *** Listings page (browse): fetchData, handleMarkAsSold, handleWalletSuccess *)

Record ListingsPage := mkPage {
  listings : list scrap_listing;
  page_error : option string;
  selectedListingId : option uuid;
  showWalletDialog : bool;
  toasts : list Toast
}.

Definition set_listings (ls : list scrap_listing) (p : ListingsPage) : ListingsPage :=
  mkPage ls (page_error p) (selectedListingId p) (showWalletDialog p) (toasts p).

Definition add_toast (t : Toast) (p : ListingsPage) : ListingsPage :=
  mkPage (listings p) (page_error p) (selectedListingId p) (showWalletDialog p)
    (toasts p ++ [t])%list.

Definition fetch_failed (e : PostgrestError) (p : ListingsPage) : ListingsPage :=
  mkPage (listings p) (Some (or_default (message e) "Failed to load listings"))
    (selectedListingId p) (showWalletDialog p)
    (toasts p ++ [mkToast "Error" "Failed to load listings. Please try again." true])%list.

(** Remote calls: 0 material types, 1 all listings (the status filter is
    commented out in the source), 2 the ten-row check, 3 the second full
    read. *)
Definition fetchData (srv : Remote) (tbl : table) (p : ListingsPage) : ListingsPage :=
  let p0 := mkPage (listings p) None (selectedListingId p) (showWalletDialog p) (toasts p) in
  match fault srv 0%nat with
  | Some e => fetch_failed e p0
  | None =>
    match select srv 1%nat (fun _ => true) tbl with
    | Err e => fetch_failed e p0
    | Ok rows =>
      let data := order_desc created_at rows in
      match data with
      | [] =>
        match select srv 2%nat (fun _ => true) tbl with
        | Ok (_ :: _) =>
          match select srv 3%nat (fun _ => true) tbl with
          | Ok allRows => set_listings (order_desc created_at allRows) p0
          | Err _ => set_listings data p0
          end
        | _ => set_listings data p0
        end
      | _ => set_listings data p0
      end
    end
  end.

Definition handleMarkAsSold (i : uuid) (p : ListingsPage) : ListingsPage :=
  mkPage (listings p) (page_error p) (Some i) true (toasts p).

(** The "Mark Sold" button of a card: the viewer is the seller and the
    card's copy of the listing is active. *)
Definition mark_sold_shown (user : option uuid) (l : scrap_listing) : bool :=
  match user with
  | Some u => String.eqb (seller_id l) u && String.eqb (status l) "active"
  | None => false
  end.

Definition handleWalletSuccess (srv : Remote) (user : option uuid)
    (w : table * ListingsPage) : table * ListingsPage :=
  let (tbl, p) := w in
  match selectedListingId p with
  | None => (tbl, p)
  | Some sel =>
    match update srv 0%nat (set_status "sold")
            (fun l => eq_id sel l && user_is user (seller_id l)) tbl with
    | Err _ =>
        (tbl, add_toast (mkToast "Error" "Failed to update the listing status" true) p)
    | Ok tbl' =>
        (tbl',
         add_toast (mkToast "Success"
             "Listing has been marked as sold and you've received your reward!" false)
           (set_listings (update_where (eq_id sel) (set_status "sold") (listings p)) p))
    end
  end.

(** *** My listings: handleDeleteListing (the soft delete) *)

Definition handleDeleteListing (srv : Remote) (user : option uuid) (confirmed : bool)
    (i : uuid) (w : table * ListingsPage) : table * ListingsPage :=
  let (tbl, p) := w in
  if negb confirmed then (tbl, p) else
  match update srv 0%nat (set_status "deleted")
          (fun l => eq_id i l && user_is user (seller_id l)) tbl with
  | Err _ => (tbl, add_toast (mkToast "Error" "Failed to delete the listing" true) p)
  | Ok tbl' =>
      (tbl',
       add_toast (mkToast "Success" "Listing has been deleted successfully" false)
         (set_listings (filter (fun l => negb (eq_id i l)) (listings p)) p))
  end.

(** *** Edit listing: handleSubmit *)

Record FormData := mkForm {
  f_title : string;
  f_description : option string;
  f_listed_price : Q;
  f_quantity : Q;
  f_unit : string;
  f_material_type_id : uuid;
  f_image_url : string
}.

(** [{ ...formData, updated_at: new Date().toISOString() }]. *)
Definition apply_form (fd : FormData) (t : Z) (l : scrap_listing) : scrap_listing :=
  mkListing (id l) (seller_id l) (f_material_type_id fd) (f_title fd)
    (f_description fd) (f_quantity fd) (f_unit fd) (f_listed_price fd)
    (Some (f_image_url fd)) (classification l) (confidence l)
    (weight_estimation l) (geolocation l) (address l) (status l)
    (created_at l) t (is_donation l) (ngo_id l).

Definition EditListing_handleSubmit (srv : Remote) (user : option uuid) (i : uuid)
    (fd : FormData) (tbl : table) : table * Toast :=
  match update srv 0%nat (apply_form fd (now srv))
          (fun l => eq_id i l && user_is user (seller_id l)) tbl with
  | Err _ => (tbl, mkToast "Error" "Failed to update listing" true)
  | Ok tbl' => (tbl', mkToast "Success" "Listing updated successfully" false)
  end.

(** *** Pickup request page: handleRequestPickup *)

Record transaction := mkTransaction {
  t_buyer_id : uuid;
  t_seller_id : uuid;
  t_listing_id : uuid;
  t_amount : Q;
  t_status : string
}.

Record PickupDb := mkPickupDb {
  scrap_listings : table;
  transactions : list transaction
}.

(** [listing] is the page's copy, loaded by [fetchListing] through
    [get_listing_coordinates]; remote call 0 inserts the transaction, remote
    call 1 updates the listing. *)
Definition handleRequestPickup (srv : Remote) (user : option uuid)
    (listing : option scrap_listing) (db : PickupDb) : PickupDb * list Toast :=
  match user with
  | None =>
      (db, [mkToast "Authentication Required" "Please log in to request a pickup" true])
  | Some u =>
    match listing with
    | None => (db, [])
    | Some l =>
      let failed := mkToast "Error" "Failed to request pickup. Please try again." true in
      match fault srv 0%nat with
      | Some _ => (db, [failed])
      | None =>
        let txs := (transactions db ++
                     [mkTransaction u (seller_id l) (id l) (listed_price l) "pending"])%list in
        match update srv 1%nat (set_status "pending_pickup") (eq_id (id l))
                (scrap_listings db) with
        | Err _ => (mkPickupDb (scrap_listings db) txs, [failed])
        | Ok tbl' =>
            (mkPickupDb tbl' txs,
             [mkToast "Pickup Requested"
                "Your pickup request has been submitted successfully" false])
        end
      end
    end
  end.

(** *** Comparing a table before and after an update *)

Definition is_null {T : Type} (o : option T) : bool :=
  match o with None => true | Some _ => false end.

(** Rows whose geolocation went from NULL to a value, position by position. *)
Definition rows_updated (before after : table) : nat :=
  List.length (filter (fun p => is_null (geolocation (fst p))
                                && negb (is_null (geolocation (snd p))))
                 (combine before after)).

(** Every column except [geolocation] is the same in both rows. *)
Definition same_other_columns (l l' : scrap_listing) : Prop :=
  id l' = id l /\ seller_id l' = seller_id l /\ material_type_id l' = material_type_id l
  /\ title l' = title l /\ description l' = description l /\ quantity l' = quantity l
  /\ unit l' = unit l /\ listed_price l' = listed_price l /\ image_url l' = image_url l
  /\ classification l' = classification l /\ confidence l' = confidence l
  /\ weight_estimation l' = weight_estimation l /\ address l' = address l
  /\ status l' = status l /\ created_at l' = created_at l /\ updated_at l' = updated_at l
  /\ is_donation l' = is_donation l /\ ngo_id l' = ngo_id l.

End Listing.

(** ** Negotiations: table, row-level security, table access *)

Module Negotiation.
Import Numeric.

Inductive NegotiationStatus := pending | accepted | rejected | countered.

Definition status_eqb (a b : NegotiationStatus) : bool :=
  match a, b with
  | pending, pending | accepted, accepted
  | rejected, rejected | countered, countered => true
  | _, _ => false
  end.

(** A row of [negotiations] (migration.sql, rls_policies.sql). *)
Record negotiation := mkNegotiation {
  id : uuid;
  listing_id : uuid;
  dealer_id : uuid;
  seller_id : uuid;
  initial_offer : numeric_10_2;
  counter_offer : option numeric_10_2;
  status : NegotiationStatus;
  created_at : Z;
  updated_at : Z
}.

Definition table := list negotiation.

(** The columns an update names.  [Patch Q] is the payload of a client
    [.update({...})], with the amounts as the JS numbers of the JSON body;
    [Patch numeric_10_2] is that payload converted to the types of the
    columns. *)
Record Patch (A : Type) := mkPatch {
  set_initial_offer : option A;
  set_counter_offer : option A;
  set_status : option NegotiationStatus
}.
Arguments mkPatch {A} _ _ _.
Arguments set_initial_offer {A} _.
Arguments set_counter_offer {A} _.
Arguments set_status {A} _.

(** The conversion of the body to the column types; an amount that does
    not fit its column fails the statement with code 22003. *)
Definition to_columns (p : Patch Q) : result (Patch numeric_10_2) :=
  match to_numeric_opt (set_initial_offer p) with
  | Err e => Err e
  | Ok i =>
    match to_numeric_opt (set_counter_offer p) with
    | Err e => Err e
    | Ok c => Ok (mkPatch i c (set_status p))
    end
  end.

Definition apply_patch (p : Patch numeric_10_2) (r : negotiation) : negotiation :=
  mkNegotiation (id r) (listing_id r) (dealer_id r) (seller_id r)
    (match set_initial_offer p with Some v => v | None => initial_offer r end)
    (match set_counter_offer p with Some v => Some v | None => counter_offer r end)
    (match set_status p with Some s => s | None => status r end)
    (created_at r) (updated_at r).

(** Trigger [update_negotiations_modtime]: BEFORE UPDATE, [NEW.updated_at = now()]. *)
Definition update_modified_column (t : Z) (r : negotiation) : negotiation :=
  mkNegotiation (id r) (listing_id r) (dealer_id r) (seller_id r)
    (initial_offer r) (counter_offer r) (status r) (created_at r) t.

(** *** Policies

    A policy is permissive: for one command, the USING expressions of its
    policies are OR-ed over the existing row and the WITH CHECK expressions
    are OR-ed over the proposed row. *)

Definition predicate := option uuid -> negotiation -> bool.

Inductive policy :=
| ForSelect (name : string) (USING : predicate)
| ForInsert (name : string) (WITH_CHECK : predicate)
| ForUpdate (name : string) (USING : predicate) (WITH_CHECK : predicate).

Definition is_dealer : predicate := fun a r => uid_is a (dealer_id r).
Definition is_seller : predicate := fun a r => uid_is a (seller_id r).

(** rls_policies.sql *)
Definition rls_policies : list policy :=
  [ ForSelect "Users can view their negotiations"
      (fun a r => is_dealer a r || is_seller a r);
    ForInsert "Users can create negotiations" is_dealer;
    ForUpdate "Dealers can update their own negotiations" is_dealer
      (fun a r => is_dealer a r
                  && negb (status_eqb (status r) accepted)
                  && negb (status_eqb (status r) rejected));
    ForUpdate "Sellers can update negotiations" is_seller is_seller ].

(** fix_negotiations.sql: the same four policies without the status test. *)
Definition fix_negotiations_policies : list policy :=
  [ ForSelect "Allow users to view their own negotiations"
      (fun a r => is_dealer a r || is_seller a r);
    ForInsert "Allow dealers to insert negotiations" is_dealer;
    ForUpdate "Allow dealers to update their negotiations" is_dealer is_dealer;
    ForUpdate "Allow sellers to update negotiations for their listings"
      is_seller is_seller ].

Definition select_using (pols : list policy) : predicate := fun a r =>
  existsb (fun p => match p with ForSelect _ u => u a r | _ => false end) pols.

Definition insert_check (pols : list policy) : predicate := fun a r =>
  existsb (fun p => match p with ForInsert _ c => c a r | _ => false end) pols.

Definition update_using (pols : list policy) : predicate := fun a r =>
  existsb (fun p => match p with ForUpdate _ u _ => u a r | _ => false end) pols.

Definition update_check (pols : list policy) : predicate := fun a r =>
  existsb (fun p => match p with ForUpdate _ _ c => c a r | _ => false end) pols.

Definition rls_violation : PostgrestError :=
  mkError "42501" "new row violates row-level security policy for table negotiations".
Definition unique_violation : PostgrestError :=
  mkError "23505" "duplicate key value violates unique constraint negotiations_pkey".
Definition foreign_key_violation : PostgrestError :=
  mkError "23503" "insert or update on table negotiations violates foreign key constraint".

(** *** Statements through the table API

    [k] is the index of the remote call inside the running handler. *)

Definition select (pols : list policy) (srv : Remote) (k : nat) (a : option uuid)
    (where_ : negotiation -> bool) (tbl : table) : result (list negotiation) :=
  match fault srv k with
  | Some e => Err e
  | None => Ok (filter (fun r => select_using pols a r && where_ r) tbl)
  end.

(** The columns the client sends with an insert; the table fills in [id],
    [counter_offer], [created_at] and [updated_at] from their defaults.
    [NegotiationInsert Q] is the JSON body, [NegotiationInsert numeric_10_2]
    the body converted to the types of the columns. *)
Record NegotiationInsert (A : Type) := mkInsert {
  new_listing_id : uuid;
  new_dealer_id : uuid;
  new_seller_id : uuid;
  new_initial_offer : A;
  new_status : NegotiationStatus
}.
Arguments mkInsert {A} _ _ _ _ _.
Arguments new_listing_id {A} _.
Arguments new_dealer_id {A} _.
Arguments new_seller_id {A} _.
Arguments new_initial_offer {A} _.
Arguments new_status {A} _.

Definition to_insert_columns (d : NegotiationInsert Q)
    : result (NegotiationInsert numeric_10_2) :=
  match to_numeric (new_initial_offer d) with
  | Err e => Err e
  | Ok v => Ok (mkInsert (new_listing_id d) (new_dealer_id d) (new_seller_id d) v
                  (new_status d))
  end.

Definition new_row (srv : Remote) (d : NegotiationInsert numeric_10_2) : negotiation :=
  mkNegotiation (gen_random_uuid srv) (new_listing_id d) (new_dealer_id d)
    (new_seller_id d) (new_initial_offer d) None (new_status d) (now srv) (now srv).

(** The rows the foreign keys of [negotiations] point to: the ids of
    [scrap_listings] and of [auth.users]. *)
Record References := mkReferences {
  listing_ids : list uuid;
  user_ids : list uuid
}.

(** The constraints of the table: the primary key on [id] (there is no other
    uniqueness constraint) and the foreign keys of [listing_id] to
    [scrap_listings] and of [dealer_id] and [seller_id] to [auth.users]. *)
Definition constraints (refs : References) (r : negotiation) (tbl : table)
    : option PostgrestError :=
  if existsb (fun x => String.eqb (id x) (id r)) tbl then Some unique_violation
  else if negb (existsb (String.eqb (listing_id r)) (listing_ids refs))
       then Some foreign_key_violation
  else if negb (existsb (String.eqb (dealer_id r)) (user_ids refs))
       then Some foreign_key_violation
  else if negb (existsb (String.eqb (seller_id r)) (user_ids refs))
       then Some foreign_key_violation
  else None.

(** The body is converted to the column types when the new row is formed,
    before the policy and the constraints see it. *)
Definition insert (pols : list policy) (srv : Remote) (k : nat) (a : option uuid)
    (refs : References) (d : NegotiationInsert Q) (tbl : table) : result table :=
  match fault srv k with
  | Some e => Err e
  | None =>
    match to_insert_columns d with
    | Err e => Err e
    | Ok columns =>
      let r := new_row srv columns in
      if negb (insert_check pols a r) then Err rls_violation
      else match constraints refs r tbl with
           | Some e => Err e
           | None => Ok (tbl ++ [r])%list
           end
    end
  end.

(** The rows an UPDATE reaches: visible to the caller, passing an UPDATE
    policy's USING, and matching the filters of the request. *)
Definition update_target (pols : list policy) (a : option uuid)
    (where_ : negotiation -> bool) (r : negotiation) : bool :=
  select_using pols a r && update_using pols a r && where_ r.

(** The body of the request is converted to the column types for the
    statement as a whole, whatever rows the filter reaches. *)
Definition update (pols : list policy) (srv : Remote) (k : nat) (a : option uuid)
    (p : Patch Q) (where_ : negotiation -> bool) (tbl : table) : result table :=
  match fault srv k with
  | Some e => Err e
  | None =>
    match to_columns p with
    | Err e => Err e
    | Ok columns =>
      let proposed r := update_modified_column (now srv) (apply_patch columns r) in
      if forallb (fun r => negb (update_target pols a where_ r)
                           || update_check pols a (proposed r)) tbl
      then Ok (update_where (update_target pols a where_) proposed tbl)
      else Err rls_violation
    end
  end.

(** insert_negotiation (insert_negotiation.sql, fix_negotiations.sql):
    SECURITY DEFINER, so the body runs as the owner of the function: no
    policy is consulted and [caller], the user of the request, plays no part
    (EXECUTE is granted to every authenticated user).  Any error of the
    INSERT, the overflow of the amount included, is re-raised as a plain
    exception. *)
Definition raised (e : PostgrestError) : PostgrestError :=
  mkError "P0001" ("Error inserting negotiation: " ++ message e).

Definition insert_negotiation (srv : Remote) (k : nat) (caller : option uuid)
    (refs : References) (p_listing_id p_dealer_id : uuid) (p_initial_offer : Q)
    (p_seller_id : uuid) (tbl : table) : result table :=
  match fault srv k with
  | Some e => Err e
  | None =>
    match to_insert_columns (mkInsert p_listing_id p_dealer_id p_seller_id
                               p_initial_offer pending) with
    | Err e => Err (raised e)
    | Ok columns =>
      let r := new_row srv columns in
      match constraints refs r tbl with
      | Some e => Err (raised e)
      | None => Ok (tbl ++ [r])%list
      end
    end
  end.

(** The row an update writes: the patch, then the [updated_at] trigger. *)
Definition written (srv : Remote) (p : Patch numeric_10_2) (r : negotiation)
    : negotiation :=
  update_modified_column (now srv) (apply_patch p r).

Definition eq_id (i : uuid) (r : negotiation) : bool := String.eqb (id r) i.

Definition eq_pair (l d : uuid) (r : negotiation) : bool :=
  String.eqb (listing_id r) l && String.eqb (dealer_id r) d.

End Negotiation.

(** ** NegotiationsManager.tsx: the seller's list of offers *)

Module NegotiationsManager.
Import Numeric Negotiation.

Record State := mkState {
  negotiations : list negotiation;
  counterOffer : uuid -> option Q;      (* undefined and NaN are [None] *)
  processingId : option uuid;
  error : option string;
  toasts : list Toast
}.

Definition setNegotiations (f : list negotiation -> list negotiation) (s : State) : State :=
  mkState (f (negotiations s)) (counterOffer s) (processingId s) (error s) (toasts s).
Definition setCounterOffer (c : uuid -> option Q) (s : State) : State :=
  mkState (negotiations s) c (processingId s) (error s) (toasts s).
Definition setProcessingId (i : option uuid) (s : State) : State :=
  mkState (negotiations s) (counterOffer s) i (error s) (toasts s).
Definition setError (e : option string) (s : State) : State :=
  mkState (negotiations s) (counterOffer s) (processingId s) e (toasts s).
Definition toast (t : Toast) (s : State) : State :=
  mkState (negotiations s) (counterOffer s) (processingId s) (error s)
    (toasts s ++ [t])%list.

(** The toast of a [catch] block: [error.message || fallback], destructive. *)
Definition error_toast (e : PostgrestError) (fallback : string) : Toast :=
  mkToast "Error" (or_default (message e) fallback) true.

(** [data.reduce((acc, n) => ({ ...acc, [n.id]: n.initial_offer }), {})]. *)
Definition offerDefaults (data : list negotiation) : uuid -> option Q :=
  fold_left (fun acc n => fun i => if String.eqb i (id n)
                                   then Some (value (initial_offer n)) else acc i)
    data (fun _ => None).

(** The query of [fetchNegotiations]: by listing when [listingId] is given,
    otherwise the user's own rows that are still pending. *)
Definition fetch_filter (user : uuid) (listingId : option uuid) (r : negotiation) : bool :=
  match listingId with
  | Some l => String.eqb (listing_id r) l
  | None => (String.eqb (dealer_id r) user || String.eqb (seller_id r) user)
            && status_eqb (status r) pending
  end.

Definition table_error_message (e : PostgrestError) : string :=
  if String.eqb (code e) "42P01"
  then "The negotiations table doesn't exist. Please check your database schema."
  else if String.eqb (code e) "PGRST301"
  then "You don't have permission to access negotiations. Check RLS policies."
  else message e.

(** Remote calls: 0 the access check, 1 the query. *)
Definition fetchNegotiations (pols : list policy) (srv : Remote) (user : option uuid)
    (listingId : option uuid) (tbl : table) (s : State) : State :=
  match user with
  | None => s
  | Some u =>
    let s0 := setError None s in
    match fault srv 0%nat with
    | Some e =>
        setError (Some (or_default (table_error_message e)
                          "Failed to access negotiations table")) s0
    | None =>
      match select pols srv 1%nat user (fetch_filter u listingId) tbl with
      | Err _ =>
          toast (mkToast "Error" "Failed to load negotiations data" true)
            (setError (Some "Failed to load negotiations data") s0)
      | Ok rows =>
          let data := order_desc created_at rows in
          match data with
          | [] => setNegotiations (fun _ => []) s0
          | _ => setNegotiations (fun _ => data) (setCounterOffer (offerDefaults data) s0)
          end
      end
    end
  end.

(** The counter-offer input: [{ ...counterOffer, [id]: parseFloat(value) }]. *)
Definition onCounterOfferChange (i : uuid) (v : option Q) (s : State) : State :=
  setCounterOffer (fun j => if String.eqb j i then v else counterOffer s j) s.

Definition remove_row (i : uuid) (l : list negotiation) : list negotiation :=
  filter (fun n => negb (String.eqb (id n) i)) l.

Definition accept_patch {A : Type} : Patch A := mkPatch None None (Some accepted).
Definition reject_patch {A : Type} : Patch A := mkPatch None None (Some rejected).
Definition counter_patch {A : Type} (amount : A) : Patch A :=
  mkPatch None (Some amount) (Some countered).

(** The common tail of the three handlers: the awaited update, then either
    the success toast and the local removal, or the [catch] toast; the
    [finally] block resets [processingId]. *)
Definition after_update (r : result table) (tbl : table) (negotiationId : uuid)
    (ok : Toast) (fallback : string) (s : State) : table * State :=
  match r with
  | Err e => (tbl, setProcessingId None (toast (error_toast e fallback) s))
  | Ok tbl' =>
      (tbl', setProcessingId None
               (setNegotiations (remove_row negotiationId) (toast ok s)))
  end.

Definition handleAcceptOffer (pols : list policy) (srv : Remote) (user : option uuid)
    (negotiationId : uuid) (w : table * State) : table * State :=
  let (tbl, s) := w in
  let s1 := setProcessingId (Some negotiationId) s in
  match find (eq_id negotiationId) (negotiations s1) with
  | None => (tbl, setProcessingId None s1)
  | Some _ =>
      after_update
        (update pols srv 0%nat user accept_patch (eq_id negotiationId) tbl)
        tbl negotiationId
        (mkToast "Offer Accepted" "You have accepted the dealer's offer" false)
        "Failed to accept the offer" s1
  end.

Definition handleRejectOffer (pols : list policy) (srv : Remote) (user : option uuid)
    (negotiationId : uuid) (w : table * State) : table * State :=
  let (tbl, s) := w in
  let s1 := setProcessingId (Some negotiationId) s in
  after_update
    (update pols srv 0%nat user reject_patch (eq_id negotiationId) tbl)
    tbl negotiationId
    (mkToast "Offer Rejected" "You have rejected the dealer's offer" false)
    "Failed to reject the offer" s1.

(** [!offerAmount || offerAmount <= 0]. *)
Definition valid_amount (v : option Q) : option Q :=
  match v with
  | Some q => if Qle_bool q 0 then None else Some q
  | None => None
  end.

Definition handleCounterOffer (pols : list policy) (srv : Remote) (user : option uuid)
    (negotiationId : uuid) (w : table * State) : table * State :=
  let (tbl, s) := w in
  let s1 := setProcessingId (Some negotiationId) s in
  match valid_amount (counterOffer s1 negotiationId) with
  | None =>
      (tbl, setProcessingId None
              (toast (mkToast "Invalid Amount"
                        "Please enter a valid counter offer amount" true) s1))
  | Some offerAmount =>
      after_update
        (update pols srv 0%nat user (counter_patch offerAmount)
           (eq_id negotiationId) tbl)
        tbl negotiationId
        (mkToast "Counter Offer Sent" "Your counter offer has been sent to the dealer" false)
        "Failed to send counter offer" s1
  end.

(** The three mutations of the manager, and the request each one sends once
    its local checks pass. *)
Inductive Mutation := AcceptOffer | RejectOffer | CounterOffer.

Definition handle (m : Mutation) :=
  match m with
  | AcceptOffer => handleAcceptOffer
  | RejectOffer => handleRejectOffer
  | CounterOffer => handleCounterOffer
  end.

Definition request (m : Mutation) (negotiationId : uuid) (s : State)
    : option (Patch Q) :=
  match m with
  | AcceptOffer =>
      match find (eq_id negotiationId) (negotiations s) with
      | Some _ => Some accept_patch
      | None => None
      end
  | RejectOffer => Some reject_patch
  | CounterOffer =>
      match valid_amount (counterOffer s negotiationId) with
      | Some q => Some (counter_patch q)
      | None => None
      end
  end.

Definition fallback_message (m : Mutation) : string :=
  match m with
  | AcceptOffer => "Failed to accept the offer"
  | RejectOffer => "Failed to reject the offer"
  | CounterOffer => "Failed to send counter offer"
  end.

(** A card with its three buttons is rendered for every loaded negotiation,
    unless the component shows its error panel. *)
Definition card_shown (negotiationId : uuid) (s : State) : bool :=
  match error s with
  | None => existsb (eq_id negotiationId) (negotiations s)
  | Some _ => false
  end.

End NegotiationsManager.

(** ** NegotiationDialog.tsx: the buyer's offer dialog *)

Module NegotiationDialog.
Import Negotiation.

Record State := mkState {
  open : bool;
  loading : bool;
  checkingExisting : bool;
  existingNegotiation : option negotiation;
  initialOffer : Q;
  toasts : list Toast
}.

(** [useState] initial values: the check is pending, the offer starts at
    90% of the asking price. *)
Definition initial (askingPrice : Q) : State :=
  mkState false false true None (askingPrice * (9 # 10)) [].

Definition setOpen (b : bool) (s : State) : State :=
  mkState b (loading s) (checkingExisting s) (existingNegotiation s) (initialOffer s) (toasts s).
Definition setLoading (b : bool) (s : State) : State :=
  mkState (open s) b (checkingExisting s) (existingNegotiation s) (initialOffer s) (toasts s).
Definition setCheckingExisting (b : bool) (s : State) : State :=
  mkState (open s) (loading s) b (existingNegotiation s) (initialOffer s) (toasts s).
Definition setExistingNegotiation (n : option negotiation) (s : State) : State :=
  mkState (open s) (loading s) (checkingExisting s) n (initialOffer s) (toasts s).
Definition setInitialOffer (q : Q) (s : State) : State :=
  mkState (open s) (loading s) (checkingExisting s) (existingNegotiation s) q (toasts s).
Definition toast (t : Toast) (s : State) : State :=
  mkState (open s) (loading s) (checkingExisting s) (existingNegotiation s) (initialOffer s)
    (toasts s ++ [t])%list.

(** The latest negotiation of the pair the caller can see:
    [.eq(listing_id).eq(dealer_id).order(created_at desc).limit(1)].
    A failed read is only logged; the state keeps its previous value. *)
Definition checkExistingNegotiation (pols : list policy) (srv : Remote)
    (user : option uuid) (listingId : uuid) (tbl : table) (s : State) : State :=
  match user with
  | None => s
  | Some u =>
    let s1 := setCheckingExisting true s in
    match select pols srv 0%nat user (eq_pair listingId u) tbl with
    | Err _ => setCheckingExisting false s1
    | Ok rows =>
        setCheckingExisting false
          (setExistingNegotiation (hd_error (order_desc created_at rows)) s1)
    end
  end.

(** Opening the dialog runs the effect [if (user && open) checkExistingNegotiation()]. *)
Definition onOpen (pols : list policy) (srv : Remote) (user : option uuid)
    (listingId : uuid) (tbl : table) (s : State) : State :=
  checkExistingNegotiation pols srv user listingId tbl (setOpen true s).

(** What the body of the dialog renders. *)
Definition form_shown (s : State) : bool :=
  open s && negb (checkingExisting s)
  && match existingNegotiation s with None => true | Some _ => false end.

Definition counter_buttons_shown (s : State) : bool :=
  open s && negb (checkingExisting s) && negb (loading s)
  && match existingNegotiation s with
     | Some n => status_eqb (status n) countered
     | None => false
     end.

(** [.from('scrap_listings').select('id, title, seller_id').eq('id', listingId).single()] *)
Definition verify_listing (srv : Remote) (listingId : uuid)
    (listings : list Listing.scrap_listing) : result Listing.scrap_listing :=
  match Listing.select srv 0%nat (Listing.eq_id listingId) listings with
  | Err e => Err e
  | Ok [l] => Ok l
  | Ok _ => Err (mkError "PGRST116" "JSON object requested, multiple (or no) rows returned")
  end.

Definition submit_failed (msg : string) (s : State) : State :=
  setLoading false
    (toast (mkToast "Error"
              (or_default msg "Failed to send your offer. Please try again.") true) s).

Definition submit_done (descr : string) (s : State) : State :=
  setLoading false (setOpen false (toast (mkToast "Offer Sent" descr false) s)).

(** Remote calls: 0 the listing, 1 [auth.getUser()], 2 the insert, 3 the
    fallback (the update after a unique violation, or the stored procedure).
    The procedure the client names, [insert_negotiation_with_seller], is not
    defined by the repository's SQL; [rpc_defined] says whether the database
    has it, and its body is taken to be that of [insert_negotiation], which
    has the same four parameters. *)
Definition handleSubmit (pols : list policy) (rpc_defined : bool) (srv : Remote)
    (user : option uuid) (listingId : uuid) (listings : list Listing.scrap_listing)
    (users : list uuid) (w : table * State) : table * State :=
  let (tbl, s) := w in
  match user with
  | None =>
      (tbl, toast (mkToast "Authentication Required"
                     "Please sign in to make an offer" true) s)
  | Some u =>
    if Qle_bool (initialOffer s) 0 then
      (tbl, toast (mkToast "Invalid Offer" "Please enter a valid offer amount" true) s)
    else
    let s1 := setLoading true s in
    match verify_listing srv listingId listings with
    | Err _ =>
        (tbl, submit_failed "Could not verify listing existence. Please try again." s1)
    | Ok listingData =>
      match fault srv 1%nat with
      | Some _ => (tbl, submit_failed "Authentication error. Please sign in again." s1)
      | None =>
        let negotiationData :=
          mkInsert listingId u (Listing.seller_id listingData) (initialOffer s) pending in
        let refs := mkReferences (map Listing.id listings) users in
        match insert pols srv 2%nat user refs negotiationData tbl with
        | Ok tbl' => (tbl', submit_done "Your offer has been sent to the seller" s1)
        | Err e =>
          if String.eqb (code e) "23503" then
            (tbl, submit_failed
                    "There was a reference error. Make sure the listing still exists." s1)
          else if String.eqb (code e) "23505" then
            match update pols srv 3%nat user
                    (mkPatch (Some (initialOffer s)) None (Some pending))
                    (eq_pair listingId u) tbl with
            | Err updateError => (tbl, submit_failed (message updateError) s1)
            | Ok tbl' => (tbl', submit_done "Your offer has been sent to the seller" s1)
            end
          else
            if rpc_defined then
              match insert_negotiation srv 3%nat user refs listingId u
                      (initialOffer s) (Listing.seller_id listingData) tbl with
              | Ok tbl' =>
                  (tbl', submit_done
                           "Your offer has been sent to the seller (via fallback method)" s1)
              | Err _ => (tbl, submit_failed (message e) s1)
              end
            else (tbl, submit_failed (message e) s1)
        end
      end
    end
  end.

(** The two buttons under "Accept Counter Offer?": an update of the loaded
    negotiation by id. *)
Definition answer_counter (pols : list policy) (srv : Remote) (user : option uuid)
    (new_status : NegotiationStatus) (ok : Toast) (fallback : string)
    (w : table * State) : table * State :=
  let (tbl, s) := w in
  match existingNegotiation s with
  | None => (tbl, s)
  | Some n =>
    let s1 := setLoading true s in
    match update pols srv 0%nat user (mkPatch None None (Some new_status))
            (eq_id (id n)) tbl with
    | Err e =>
        (tbl, setLoading false
                (toast (mkToast "Error" (or_default (message e) fallback) true) s1))
    | Ok tbl' => (tbl', setLoading false (setOpen false (toast ok s1)))
    end
  end.

Definition onAcceptCounterOffer (pols : list policy) (srv : Remote) (user : option uuid)
    : table * State -> table * State :=
  answer_counter pols srv user accepted
    (mkToast "Counter Offer Accepted" "You have accepted the seller's counter offer" false)
    "Failed to accept the counter offer".

Definition onDeclineCounterOffer (pols : list policy) (srv : Remote) (user : option uuid)
    : table * State -> table * State :=
  answer_counter pols srv user rejected
    (mkToast "Counter Offer Declined" "You have declined the seller's counter offer" false)
    "Failed to decline the counter offer".

End NegotiationDialog.

(** ** The negotiation workflow as a transition system

    One buyer dialog and one manager panel work on the shared table.  An
    action is a click or an input; it runs its handler when the control is
    rendered and does nothing otherwise. *)

Module Workflow.
Import Numeric Negotiation.

Record Config := mkConfig {
  policies : list policy;
  rpc_defined : bool;
  listings : list Listing.scrap_listing;
  users : list uuid;                 (* the ids of [auth.users] *)
  dialog_user : option uuid;         (* the buyer looking at the listing *)
  dialog_listing : uuid;             (* prop [listingId] of the dialog *)
  manager_user : option uuid;        (* the user in front of the manager *)
  manager_listing : option uuid      (* prop [listingId] of the manager *)
}.

Record World := mkWorld {
  table : Negotiation.table;
  dialog : NegotiationDialog.State;
  manager : NegotiationsManager.State
}.

Inductive Action :=
| OpenDialog
| CloseDialog
| EnterOffer (q : Q)
| SubmitOffer
| AcceptCounter
| DeclineCounter
| Refresh
| EnterCounter (i : uuid) (v : option Q)
| Accept (i : uuid)
| Reject (i : uuid)
| Counter (i : uuid).

Definition enabled (a : Action) (w : World) : bool :=
  match a with
  | OpenDialog => negb (NegotiationDialog.open (dialog w))
  | CloseDialog => NegotiationDialog.open (dialog w)
  | EnterOffer _ | SubmitOffer => NegotiationDialog.form_shown (dialog w)
  | AcceptCounter | DeclineCounter => NegotiationDialog.counter_buttons_shown (dialog w)
  | Refresh => true
  | EnterCounter i _ | Accept i | Reject i | Counter i =>
      NegotiationsManager.card_shown i (manager w)
  end.

Definition with_dialog (w : World) (r : Negotiation.table * NegotiationDialog.State) : World :=
  mkWorld (fst r) (snd r) (manager w).

Definition with_manager (w : World) (r : Negotiation.table * NegotiationsManager.State) : World :=
  mkWorld (fst r) (dialog w) (snd r).

Definition perform (c : Config) (srv : Remote) (a : Action) (w : World) : World :=
  match a with
  | OpenDialog =>
      mkWorld (table w)
        (NegotiationDialog.onOpen (policies c) srv (dialog_user c) (dialog_listing c)
           (table w) (dialog w))
        (manager w)
  | CloseDialog =>
      mkWorld (table w) (NegotiationDialog.setOpen false (dialog w)) (manager w)
  | EnterOffer q =>
      mkWorld (table w) (NegotiationDialog.setInitialOffer q (dialog w)) (manager w)
  | SubmitOffer =>
      with_dialog w
        (NegotiationDialog.handleSubmit (policies c) (rpc_defined c) srv (dialog_user c)
           (dialog_listing c) (listings c) (users c) (table w, dialog w))
  | AcceptCounter =>
      with_dialog w
        (NegotiationDialog.onAcceptCounterOffer (policies c) srv (dialog_user c)
           (table w, dialog w))
  | DeclineCounter =>
      with_dialog w
        (NegotiationDialog.onDeclineCounterOffer (policies c) srv (dialog_user c)
           (table w, dialog w))
  | Refresh =>
      mkWorld (table w) (dialog w)
        (NegotiationsManager.fetchNegotiations (policies c) srv (manager_user c)
           (manager_listing c) (table w) (manager w))
  | EnterCounter i v =>
      mkWorld (table w) (dialog w) (NegotiationsManager.onCounterOfferChange i v (manager w))
  | Accept i =>
      with_manager w
        (NegotiationsManager.handleAcceptOffer (policies c) srv (manager_user c) i
           (table w, manager w))
  | Reject i =>
      with_manager w
        (NegotiationsManager.handleRejectOffer (policies c) srv (manager_user c) i
           (table w, manager w))
  | Counter i =>
      with_manager w
        (NegotiationsManager.handleCounterOffer (policies c) srv (manager_user c) i
           (table w, manager w))
  end.

Definition run (c : Config) (srv : Remote) (a : Action) (w : World) : World :=
  if enabled a w then perform c srv a w else w.

Definition step (c : Config) (w w' : World) : Prop :=
  exists srv a, w' = run c srv a w.

Fixpoint run_trace (c : Config) (tr : list (Remote * Action)) (w : World) : World :=
  match tr with
  | [] => w
  | (srv, a) :: rest => run_trace c rest (run c srv a w)
  end.

Inductive reachable (c : Config) (w0 : World) : World -> Prop :=
| reach_here : reachable c w0 w0
| reach_step : forall w w', reachable c w0 w -> step c w w' -> reachable c w0 w'.

(** The state of the two components when the page loads. *)
Definition start (askingPrice : Q) (tbl : Negotiation.table) : World :=
  mkWorld tbl (NegotiationDialog.initial askingPrice)
    (NegotiationsManager.mkState [] (fun _ => None) None None []).

(** How a table changed: rows keep their position and are related by [R];
    new rows are appended. *)
Definition evolves (R : negotiation -> negotiation -> Prop)
    (t t' : Negotiation.table) : Prop :=
  exists kept added, t' = (kept ++ added)%list /\ Forall2 R t kept.

(** The number of pending negotiations of a (listing, dealer) pair. *)
Definition pending_of (l d : uuid) (t : Negotiation.table) : nat :=
  List.length (filter (fun r => eq_pair l d r && status_eqb (status r) pending) t).

Definition terminal (s : NegotiationStatus) : bool :=
  status_eqb s accepted || status_eqb s rejected.

(** The insert of the running submission was refused with code 23505. *)
Definition insert_refused_as_duplicate (c : Config) (srv : Remote) (w : World) : Prop :=
  exists u l e,
    dialog_user c = Some u
    /\ NegotiationDialog.verify_listing srv (dialog_listing c) (listings c) = Ok l
    /\ insert (policies c) srv 2%nat (dialog_user c)
         (mkReferences (map Listing.id (listings c)) (users c))
         (mkInsert (dialog_listing c) u (Listing.seller_id l)
            (NegotiationDialog.initialOffer (dialog w)) pending) (table w) = Err e
    /\ code e = "23505".

(** The way action [a], run in world [w], rewrites a row [r] into [r'] when
    it touches it. *)
Definition row_effect (c : Config) (srv : Remote) (a : Action) (w : World)
    (r r' : negotiation) : Prop :=
  match a with
  | Accept i => id r = i /\ r' = written srv NegotiationsManager.accept_patch r
  | Reject i => id r = i /\ r' = written srv NegotiationsManager.reject_patch r
  | Counter i =>
      id r = i
      /\ exists q v, NegotiationsManager.counterOffer (manager w) i = Some q
                     /\ (0 < q)%Q
                     /\ to_numeric q = Ok v
                     /\ r' = written srv (NegotiationsManager.counter_patch v) r
  | AcceptCounter =>
      exists n, NegotiationDialog.existingNegotiation (dialog w) = Some n
                /\ status n = countered /\ id r = id n
                /\ r' = written srv (mkPatch None None (Some accepted)) r
  | DeclineCounter =>
      exists n, NegotiationDialog.existingNegotiation (dialog w) = Some n
                /\ status n = countered /\ id r = id n
                /\ r' = written srv (mkPatch None None (Some rejected)) r
  | SubmitOffer =>
      insert_refused_as_duplicate c srv w
      /\ (exists u, dialog_user c = Some u /\ eq_pair (dialog_listing c) u r = true)
      /\ exists v, to_numeric (NegotiationDialog.initialOffer (dialog w)) = Ok v
                   /\ r' = written srv (mkPatch (Some v) None (Some pending)) r
  | OpenDialog | CloseDialog | EnterOffer _ | Refresh | EnterCounter _ _ => False
  end.

(** The rows an action appends: none, or the one pending row of a submitted
    offer, for the dialog's listing and user. *)
Definition appended (c : Config) (srv : Remote) (a : Action) (w : World)
    (added : list negotiation) : Prop :=
  added = []
  \/ (a = SubmitOffer
      /\ exists d, added = [new_row srv d]
                   /\ new_status d = pending
                   /\ new_listing_id d = dialog_listing c
                   /\ dialog_user c = Some (new_dealer_id d)
                   /\ to_numeric (NegotiationDialog.initialOffer (dialog w))
                      = Ok (new_initial_offer d)).

Definition changes (c : Config) (srv : Remote) (a : Action) (w : World)
    (t t' : Negotiation.table) : Prop :=
  exists kept added,
    t' = (kept ++ added)%list
    /\ Forall2 (fun r r' => r' = r \/ row_effect c srv a w r r') t kept
    /\ appended c srv a w added.

(** The status a touched row ends in, by action. *)
Definition target_status (a : Action) : option NegotiationStatus :=
  match a with
  | Accept _ | AcceptCounter => Some accepted
  | Reject _ | DeclineCounter => Some rejected
  | Counter _ => Some countered
  | SubmitOffer => Some pending
  | OpenDialog | CloseDialog | EnterOffer _ | Refresh | EnterCounter _ _ => None
  end.

End Workflow.

(** ** imageUploader.ts: upload to GitHub, URL on jsDelivr *)

Module ImageUploader.

(** A JS string is its sequence of UTF-16 code units; the regular
    expression of the uploader (no [u] flag) works on code units. *)
Definition jsstring := list N.

Definition lit (s : string) : jsstring := map N_of_ascii (list_ascii_of_string s).

(** JS truthiness of [import.meta.env.X]: undefined and "" are falsy. *)
Definition truthy (o : option jsstring) : bool :=
  match o with
  | Some (_ :: _) => true
  | _ => false
  end.

Record Env := mkEnv {
  VITE_GITHUB_TOKEN : option jsstring;
  VITE_GITHUB_USERNAME : option jsstring;
  VITE_GITHUB_REPO : option jsstring
}.

(** [response.json()] either parses or throws with a message. *)
Record Response := mkResponse {
  ok : bool;
  statusText : jsstring;
  json : option jsstring        (* [Some m]: parsing throws with message [m] *)
}.

Inductive FetchResult :=
| NetworkError (msg : jsstring)
| Responded (r : Response).

(** What one call reads from outside: the environment, the clock, the text
    of [Math.random().toString(36)], whether the FileReader delivered the
    data URL, and the answer of the GitHub API. *)
Record World := mkWorld {
  env : Env;
  getTime : N;
  random36 : jsstring;
  readAsDataURL : bool;
  fetch : FetchResult
}.

(** A thrown value and its [message] (undefined for the reader's event). *)
Inductive Outcome :=
| Return (url : jsstring)
| Throw (msg : option jsstring).

Record UploadToast := mkUploadToast {
  toast_title : jsstring;
  toast_description : jsstring
}.

(** [/[^a-zA-Z0-9.-]/]: the code units the expression leaves alone. *)
Definition in_class (c : N) : bool :=
  ((97 <=? c) && (c <=? 122) || (65 <=? c) && (c <=? 90)
   || (48 <=? c) && (c <=? 57) || (c =? 46) || (c =? 45))%N.

Definition underscore : N := 95.

(** [name.replace(/[^a-zA-Z0-9.-]/g, '_')] *)
Definition sanitize (name : jsstring) : jsstring :=
  map (fun c => if in_class c then c else underscore) name.

(** [s.substring(a, b)] for [a <= b]. *)
Definition substring (a b : nat) (s : jsstring) : jsstring :=
  firstn (b - a) (skipn a s).

(** A non-negative integer in a template string. *)
Definition show_number (n : N) : jsstring :=
  lit (NilEmpty.string_of_uint (N.to_uint n)).

Definition fileName_of (w : World) (name : jsstring) : jsstring :=
  (show_number (getTime w) ++ lit "_" ++ substring 2 8 (random36 w) ++ lit "_"
   ++ sanitize name)%list.

Definition jsdelivrUrl (username repo fileName : jsstring) : jsstring :=
  (lit "https://cdn.jsdelivr.net/gh/" ++ username ++ lit "/" ++ repo ++ lit "@main/"
   ++ (lit "images/" ++ fileName))%list.

(** The body of the [try] block. *)
Definition try_upload (w : World) (name : jsstring) : Outcome :=
  if negb (truthy (VITE_GITHUB_TOKEN (env w)))
     || negb (truthy (VITE_GITHUB_USERNAME (env w)))
     || negb (truthy (VITE_GITHUB_REPO (env w)))
  then Throw (Some (lit "GitHub configuration is incomplete. Check your environment variables."))
  else
    match VITE_GITHUB_USERNAME (env w), VITE_GITHUB_REPO (env w) with
    | Some username, Some repo =>
      let fileName := fileName_of w name in
      if negb (readAsDataURL w) then Throw None
      else
        match fetch w with
        | NetworkError msg => Throw (Some msg)
        | Responded r =>
          if negb (ok r) then
            match json r with
            | Some m => Throw (Some m)
            | None => Throw (Some (lit "Failed to upload to GitHub: " ++ statusText r)%list)
            end
          else
            match json r with
            | Some m => Throw (Some m)
            | None => Return (jsdelivrUrl username repo fileName)
            end
        end
    | _, _ => Throw None
    end.

(** The [catch] block: a toast with [error.message || ...], then rethrow. *)
Definition uploadImageToGitHub (w : World) (name : jsstring) : Outcome * list UploadToast :=
  match try_upload w name with
  | Return url => (Return url, [])
  | Throw msg =>
      (Throw msg,
       [mkUploadToast (lit "Upload Error")
          (match msg with
           | Some (c :: m) => c :: m
           | _ => lit "Failed to upload image to GitHub"
           end)])
  end.

Definition config_missing (e : Env) : Prop :=
  truthy (VITE_GITHUB_TOKEN e) = false \/ truthy (VITE_GITHUB_USERNAME e) = false
  \/ truthy (VITE_GITHUB_REPO e) = false.

Definition upload_failed (f : FetchResult) : Prop :=
  match f with
  | NetworkError _ => True
  | Responded r => ok r = false
  end.

End ImageUploader.

(** ** fix_geolocation.sql: verify_listing_coordinates *)

Module VerifyCoordinates.
Import Listing.

Record verified := mkVerified {
  v_id : uuid;
  has_valid_coordinates : bool;
  v_latitude : option Q;
  v_longitude : option Q
}.

(** [geolocation IS NOT NULL AND ST_X(...) IS NOT NULL AND ST_Y(...) IS NOT NULL] *)
Definition coordinates_present (g : option geometry) : bool :=
  match g with
  | Some p =>
      match ST_X p, ST_Y p with
      | Some _, Some _ => true
      | _, _ => false
      end
  | None => false
  end.

Definition verify_row (l : scrap_listing) : verified :=
  mkVerified (id l) (coordinates_present (geolocation l))
    (case_not_null ST_X (geolocation l))     (* AS latitude *)
    (case_not_null ST_Y (geolocation l)).    (* AS longitude *)

Definition verify_listing_coordinates (tbl : list scrap_listing) : list verified :=
  map verify_row (filter not_deleted tbl).

End VerifyCoordinates.

(** ** Listings page: the filter panel *)

Module ListingFilters.

(** A listing as the page holds it, with the joined
    [material_type:material_type_id (id, name, category)]. *)
Record Shown := mkShown {
  row : Listing.scrap_listing;
  material_type : option Listing.material_type
}.

Definition includes (l : list string) (x : string) : bool := existsb (String.eqb x) l.

(** [prev.includes(x) ? prev.filter(y => y !== x) : [...prev, x]] *)
Definition toggle (x : string) (prev : list string) : list string :=
  if includes prev x then filter (fun y => negb (String.eqb y x)) prev
  else (prev ++ [x])%list.

Definition toggleMaterialType := toggle.
Definition toggleCategory := toggle.

(** The effect that recomputes [filteredListings]. *)
Definition applyFilters (listings : list Shown)
    (selectedMaterialTypes selectedCategories : list string) : list Shown :=
  let filtered :=
    match selectedMaterialTypes with
    | [] => listings
    | _ => filter (fun s => includes selectedMaterialTypes
                              (Listing.material_type_id (row s))) listings
    end in
  match selectedCategories with
  | [] => filtered
  | _ => filter (fun s => match material_type s with
                          | Some mt => includes selectedCategories (Listing.mt_category mt)
                          | None => false
                          end) filtered
  end.

End ListingFilters.

(** ** Edit listing: loading the form *)

Module EditListing.
Import Listing.


End EditListing.

(** ** My listings: loading the cards *)

Module MyListings.
Import Listing.

(** The columns [fetchListings] selects, with the material type joined in
    the client (['Unknown'] when none is found). *)
Record Card := mkCard {
  c_id : uuid;
  c_title : string;
  c_description : option string;
  c_listed_price : Q;
  c_quantity : Q;
  c_unit : string;
  c_status : string;
  c_created_at : Z;
  c_image_url : option string;
  c_material_type_id : uuid;
  c_material_name : string;
  c_material_category : string
}.

Definition card_of (mts : list material_type) (l : scrap_listing) : Card :=
  let mt := find (fun m => String.eqb (mt_id m) (material_type_id l)) mts in
  mkCard (id l) (title l) (description l) (listed_price l) (quantity l) (unit l)
    (status l) (created_at l) (image_url l) (material_type_id l)
    (match mt with Some m => mt_name m | None => "Unknown" end)
    (match mt with Some m => mt_category m | None => "Unknown" end).

(** Remote calls: 0 the seller's listings, newest first; 1 their material
    types, whose failure is only logged.  [None]: the read failed, the list
    on the page stays as it was. *)
Definition fetchListings (srv : Remote) (user : uuid) (mts : list material_type)
    (tbl : table) : option (list Card) :=
  match select srv 0%nat (fun l => String.eqb (seller_id l) user) tbl with
  | Err _ => None
  | Ok rows =>
    let listingsData := order_desc created_at rows in
    match listingsData with
    | [] => Some []
    | _ =>
      let materialTypes :=
        match fault srv 1%nat with
        | Some _ => []
        | None => filter (fun m => existsb (fun l => String.eqb (material_type_id l) (mt_id m))
                                      listingsData) mts
        end in
      Some (map (card_of materialTypes) listingsData)
    end
  end.

(** The grid renders [listing.status !== 'deleted' && <Card .../>]. *)
Definition rendered (cards : list Card) : list Card :=
  filter (fun c => negb (String.eqb (c_status c) "deleted")) cards.

End MyListings.

(** ** MyNegotiations.tsx: the user's negotiations by status *)

Module MyNegotiations.
Import Negotiation.

Record profile := mkProfile { p_id : uuid; full_name : option string }.

Record Database := mkDb {
  negotiations_table : Negotiation.table;
  listings_table : list Listing.scrap_listing;
  profiles_table : list profile
}.

(** A negotiation with its listing and the listing's seller joined in. *)
Record Joined := mkJoined {
  negotiation_row : negotiation;
  listing_title : string;
  listing_price : Q;
  listing_image_url : option string;
  seller_ref : string;
  seller_email : string
}.

Record State := mkState {
  negotiations : list Joined;
  activeTab : NegotiationStatus;
  processingId : option uuid;
  toasts : list Toast
}.

Definition setNegotiations (l : list Joined) (s : State) : State :=
  mkState l (activeTab s) (processingId s) (toasts s).
Definition toast (t : Toast) (s : State) : State :=
  mkState (negotiations s) (activeTab s) (processingId s) (toasts s ++ [t])%list.
Definition setProcessingId (i : option uuid) (s : State) : State :=
  mkState (negotiations s) (activeTab s) i (toasts s).

(** [sellerProfile?.full_name || 'Unknown Seller'] and
    [sellerProfile?.id || listing.seller_id || 'unknown']. *)
Definition join (ls : list Listing.scrap_listing) (ps : list profile)
    (n : negotiation) : Joined :=
  match find (fun l => String.eqb (Listing.id l) (listing_id n)) ls with
  | Some l =>
      let sp := find (fun p => String.eqb (p_id p) (Listing.seller_id l)) ps in
      mkJoined n (Listing.title l) (Listing.listed_price l) (Listing.image_url l)
        (match sp with
         | Some p => or_default (p_id p) (or_default (Listing.seller_id l) "unknown")
         | None => or_default (Listing.seller_id l) "unknown"
         end)
        (match sp with
         | Some p => match full_name p with
                     | Some nm => or_default nm "Unknown Seller"
                     | None => "Unknown Seller"
                     end
         | None => "Unknown Seller"
         end)
  | None => mkJoined n "Unknown Listing" 0 None "unknown" "Unknown Seller"
  end.

Definition load_failed (s : State) : State :=
  toast (mkToast "Error" "Failed to load your negotiations" true) s.

(** Remote calls [k] the negotiations of the tab, [k+1] their listings,
    [k+2] the sellers' profiles. *)
Definition fetchNegotiations (pols : list policy) (srv : Remote) (k : nat) (user : uuid)
    (db : Database) (s : State) : State :=
  match select pols srv k (Some user)
          (fun r => (String.eqb (dealer_id r) user || String.eqb (seller_id r) user)
                    && status_eqb (status r) (activeTab s))
          (negotiations_table db) with
  | Err _ => load_failed s
  | Ok rows =>
    let negotiationsData := order_desc created_at rows in
    match negotiationsData with
    | [] => setNegotiations [] s
    | _ =>
      let listingIds := map listing_id negotiationsData in
      match Listing.select srv (S k)
              (fun l => existsb (String.eqb (Listing.id l)) listingIds)
              (listings_table db) with
      | Err _ => load_failed s
      | Ok listingsData =>
        match fault srv (S (S k)) with
        | Some _ => load_failed s
        | None =>
          let sellerIds :=
            filter (fun i => negb (String.eqb i "")) (map Listing.seller_id listingsData) in
          let sellersData :=
            filter (fun p => existsb (String.eqb (p_id p)) sellerIds) (profiles_table db) in
          setNegotiations (map (join listingsData sellersData) negotiationsData) s
        end
      end
    end
  end.

(** The common body of [handleAcceptCounterOffer] and
    [handleRejectCounterOffer]: the update by id and dealer (remote call 0),
    the toast, the reload of the list, and [processingId] reset. *)
Definition answer (pols : list policy) (srv : Remote) (user : uuid)
    (new_status : NegotiationStatus) (ok : Toast) (failed : string)
    (negotiationId : uuid) (w : Database * State) : Database * State :=
  let (db, s) := w in
  let s1 := setProcessingId (Some negotiationId) s in
  match update pols srv 0%nat (Some user)
          (mkPatch None None (Some new_status))
          (fun r => eq_id negotiationId r && String.eqb (dealer_id r) user)
          (negotiations_table db) with
  | Err _ => (db, setProcessingId None (toast (mkToast "Error" failed true) s1))
  | Ok tbl' =>
      let db' := mkDb tbl' (listings_table db) (profiles_table db) in
      (db', setProcessingId None
              (fetchNegotiations pols srv 1%nat user db' (toast ok s1)))
  end.

Definition handleAcceptCounterOffer (pols : list policy) (srv : Remote) (user : uuid) :=
  answer pols srv user accepted
    (mkToast "Counter Offer Accepted" "You have accepted the seller's counter offer" false)
    "Failed to accept the counter offer".

Definition handleRejectCounterOffer (pols : list policy) (srv : Remote) (user : uuid) :=
  answer pols srv user rejected
    (mkToast "Counter Offer Rejected" "You have rejected the seller's counter offer" false)
    "Failed to reject the counter offer".

(** The buttons of a card in the tab [tab]: a seller sees Accept and
    Decline on a pending offer, a buyer on a countered one; both pairs call
    the two handlers above. *)
Definition buttons_shown (tab : NegotiationStatus) (user : uuid) (n : negotiation) : bool :=
  (status_eqb tab pending && String.eqb (seller_id n) user)
  || (status_eqb tab countered && String.eqb (dealer_id n) user).

End MyNegotiations.

(** ** ImageUploader.tsx: handleImageUpload *)

Module ImageUploaderComponent.
Import ImageUploader.

Record Result := mkResult {
  selected : list jsstring;          (* the calls of [onImageSelected], in order *)
  shown : list (UploadToast * bool)  (* the toasts; [true] marks a destructive one *)
}.

(** [localImageUrl] is what [URL.createObjectURL(file)] returned.  The
    GitHub upload runs in the background; its outcome extends what the
    handler itself did. *)
Definition handleImageUpload (forML : bool) (w : World) (name localImageUrl : jsstring)
    : Result :=
  let first :=
    [(mkUploadToast (lit "Image selected")
        (lit "Your image has been successfully added"), false)] in
  if forML then mkResult [localImageUrl] first
  else
    let announced :=
      (first ++ [(mkUploadToast (lit "Background Upload")
                    (lit "Your image is being uploaded to our servers..."), false)])%list in
    match uploadImageToGitHub w name with
    | (Return githubUrl, _) =>
        mkResult [localImageUrl; githubUrl]
          (announced ++ [(mkUploadToast (lit "Upload Complete")
                            (lit "Your image has been successfully hosted"), false)])%list
    | (Throw _, own) =>
        mkResult [localImageUrl]
          (announced ++ map (fun t => (t, true)) own
           ++ [(mkUploadToast (lit "Background Upload Failed")
                  (lit "Using local image for now. The listing might not display properly for others."),
                true)])%list
    end.

(** The URL the parent form holds when everything has settled. *)
Definition final_url (r : Result) : option jsstring := last (map Some (selected r)) None.

End ImageUploaderComponent.

(** ** Scenarios

    The concrete tables, users and remote answers the examples run on. *)

Module Scenario.
Import Negotiation Workflow.

(** A remote side on which every call goes through. *)
Definition quiet : Remote := mkRemote 2000 "fresh-id" (fun _ => None).

(** The listing every example uses: Chennai, latitude 13.0827 and longitude
    80.2707, stored the way [update_geolocation] stores a point. *)
Definition chennai (i : uuid) (st : string) : Listing.scrap_listing :=
  Listing.mkListing i "seller-1" "metal" "Copper wire" None 5 "kg" 100 None None None None
    (Some (Listing.stored_point (130827 # 10000) (802707 # 10000))) None st 1000 1000 None None.

(** A pending offer of dealer-1 to seller-1, shown in the manager of
    dealer-1 (who sees the own pending rows). *)
Definition ninety : Numeric.numeric_10_2 := Numeric.mkNumeric 9000 eq_refl.

Definition offer_1 : negotiation :=
  mkNegotiation "n1" "listing-1" "dealer-1" "seller-1" ninety None pending 1000 1000.

Definition manager_of_dealer : NegotiationsManager.State :=
  NegotiationsManager.mkState [offer_1] (fun _ => Some 90) None None [].

(** *** A shop with one listing, one buyer and the seller *)

Definition copper : Listing.scrap_listing :=
  Listing.mkListing "listing-1" "seller-1" "metal" "Copper wire" None 5 "kg" 100
    None None None None None None "active" 10 10 None None.

(** The buyer's dialog on the listing page and the seller's manager on the
    same page ([NegotiationsManager listingId=...]), under rls_policies.sql. *)
Definition shop : Config :=
  mkConfig rls_policies false [copper] ["dealer-1"; "seller-1"] (Some "dealer-1")
    "listing-1"
    (Some "seller-1") (Some "listing-1").

Definition calm (t : Z) (fresh : uuid) : Remote := mkRemote t fresh (fun _ => None).
Definition offline (t : Z) : Remote :=
  mkRemote t "unused" (fun _ => Some (mkError "" "Failed to fetch")).

(** The buyer makes an offer and the seller accepts it. *)
Definition offer_accepted : list (Remote * Action) :=
  [ (calm 20 "unused", OpenDialog); (calm 21 "n1", SubmitOffer);
    (calm 22 "unused", Refresh); (calm 23 "unused", Accept "n1") ].

Definition is_some_offer {A : Type} (o : option A) : bool :=
  match o with Some _ => true | None => false end.

Definition statuses (w : World) : list (uuid * NegotiationStatus) :=
  map (fun r => (id r, status r)) (table w).

(** The same shop under the policies of fix_negotiations.sql. *)
Definition shop_fixed : Config :=
  mkConfig fix_negotiations_policies false [copper] ["dealer-1"; "seller-1"]
    (Some "dealer-1") "listing-1"
    (Some "seller-1") (Some "listing-1").

(** The buyer makes an offer, the seller counters it, and the buyer reopens
    the dialog and accepts the counter offer. *)
Definition counter_accepted : list (Remote * Action) :=
  [ (calm 20 "unused", OpenDialog); (calm 21 "n1", SubmitOffer);
    (calm 22 "unused", Refresh); (calm 23 "unused", Counter "n1");
    (calm 24 "unused", OpenDialog); (calm 25 "unused", AcceptCounter) ].

(** *** An upload that goes through *)

Definition github : ImageUploader.World :=
  ImageUploader.mkWorld
    (ImageUploader.mkEnv (Some (ImageUploader.lit "ghp_token"))
       (Some (ImageUploader.lit "octo")) (Some (ImageUploader.lit "scrap-images")))
    1700000000000 (ImageUploader.lit "0.k3x9q2zr7") true
    (ImageUploader.Responded
       (ImageUploader.mkResponse true (ImageUploader.lit "Created") None)).

End Scenario.

(** ** Orders and columns the properties speak of *)

(** The order of [.order('created_at', { ascending: false })]. *)
Definition newest_first {A : Type} (key : A -> Z) (a b : A) : Prop :=
  (key b <= key a)%Z.


Module Keys.
Import Negotiation.


End Keys.

(** ** Further scenarios *)

Module Cases.
Import Negotiation.

(** The offer of dealer-1 after the seller countered it at 95. *)
Definition countered_offer : negotiation :=
  mkNegotiation "n1" "listing-1" "dealer-1" "seller-1" Scenario.ninety
    (Some (Numeric.mkNumeric 9500 eq_refl)) countered 1000 1500.

(** The "my negotiations" page on the tab [tab], before its first load. *)
Definition my_page (tab : NegotiationStatus) : MyNegotiations.State :=
  MyNegotiations.mkState [] tab None [].

Definition my_db (n : negotiation) : MyNegotiations.Database :=
  MyNegotiations.mkDb [n] [Scenario.copper] [].

(** A remote side on which the second call of a handler fails. *)
Definition second_call_fails : Remote :=
  mkRemote 40 "unused"
    (fun k => match k with
              | 1%nat => Some (mkError "" "Failed to fetch")
              | _ => None
              end).

End Cases.

(** * Properties *)

(** ** Tables *)

Section TableFacts.
Context {A : Type}.

Lemma update_where_Forall2 (R : A -> A -> Prop) (where_ : A -> bool) (set_ : A -> A) :
  (forall r, where_ r = false -> R r r) ->
  (forall r, where_ r = true -> R r (set_ r)) ->
  forall tbl, Forall2 R tbl (update_where where_ set_ tbl).
Proof.
  intros Hkeep Hset tbl. unfold update_where.
  induction tbl as [|r tbl IH]; simpl; constructor; auto.
  destruct (where_ r) eqn:E; auto.
Qed.

Lemma update_where_length (where_ : A -> bool) (set_ : A -> A) (tbl : list A) :
  List.length (update_where where_ set_ tbl) = List.length tbl.
Proof. unfold update_where. apply length_map. Qed.

Lemma Forall2_refl_of (R : A -> A -> Prop) :
  (forall r, R r r) -> forall l, Forall2 R l l.
Proof. intros H l. induction l; constructor; auto. Qed.

Lemma Forall2_weaken (R S : A -> A -> Prop) :
  (forall x y, R x y -> S x y) -> forall l l', Forall2 R l l' -> Forall2 S l l'.
Proof. intros H l l' F. induction F; constructor; auto. Qed.

Lemma In_insert_desc (key : A -> Z) (x y : A) (l : list A) :
  In y (insert_desc key x l) <-> y = x \/ In y l.
Proof.
  induction l as [|z l IH]; simpl.
  - intuition congruence.
  - destruct (Z.ltb (key z) (key x)); simpl; rewrite ?IH; intuition congruence.
Qed.

Lemma In_order_desc (key : A -> Z) (y : A) (l : list A) :
  In y (order_desc key l) <-> In y l.
Proof.
  unfold order_desc. induction l as [|x l IH]; simpl.
  - tauto.
  - rewrite In_insert_desc, IH. intuition congruence.
Qed.

Lemma order_desc_nil (key : A -> Z) (l : list A) :
  order_desc key l = [] -> l = [].
Proof.
  destruct l as [|x l]; auto. intro H.
  assert (In x (order_desc key (x :: l))) as Hin by (apply In_order_desc; left; reflexivity).
  rewrite H in Hin. destruct Hin.
Qed.

End TableFacts.

Lemma string_eqb_true (a b : string) : String.eqb a b = true <-> a = b.
Proof. apply String.eqb_eq. Qed.

Lemma status_eqb_true (a b : Negotiation.NegotiationStatus) :
  Negotiation.status_eqb a b = true <-> a = b.
Proof. destruct a, b; simpl; split; intro H; congruence. Qed.

Lemma uid_is_true (u x : uuid) : uid_is (Some u) x = true <-> u = x.
Proof. simpl. apply String.eqb_eq. Qed.

(** ** Listings: coordinates, soft delete, status *)

Module ListingFacts.
Import Listing Scenario.

Lemma find_eq_id (i : uuid) (tbl : table) (l : scrap_listing) :
  find (fun x => String.eqb (id x) i) tbl = Some l -> In l tbl /\ id l = i.
Proof.
  intro H. apply find_some in H. destruct H as [Hin Heq].
  split; [assumption|]. now apply String.eqb_eq.
Qed.

(** [get_listing_coordinates] gives back the pair a point was stored from. *)
Lemma get_listing_coordinates_roundtrip (i : uuid) (tbl : table) (l : scrap_listing)
    (lat lng : Q) :
  find (fun x => String.eqb (id x) i) tbl = Some l ->
  geolocation l = Some (stored_point lat lng) ->
  exists j, get_listing_coordinates i tbl = Some j
            /\ j_latitude j = Some lat /\ j_longitude j = Some lng.
Proof.
  intros Hfind Hgeo. unfold get_listing_coordinates. rewrite Hfind.
  eexists. split; [reflexivity|]. simpl. rewrite Hgeo. simpl. split; reflexivity.
Qed.

(** [get_listings_with_coordinates] labels [ST_X] as the latitude and [ST_Y]
    as the longitude: for a point stored from (lat, lng) the two come back
    exchanged. *)
Lemma coordinates_row_exchanged (mts : list material_type) (l : scrap_listing)
    (lat lng : Q) :
  geolocation l = Some (stored_point lat lng) ->
  latitude (coordinates_row mts l) = Some lng
  /\ longitude (coordinates_row mts l) = Some lat.
Proof.
  intro Hgeo. unfold coordinates_row. simpl. rewrite Hgeo. simpl. split; reflexivity.
Qed.

(** C3, at the failing input: an active listing stored at latitude 13.0827,
    longitude 80.2707.  [get_listing_coordinates] returns that pair;
    [get_listings_with_coordinates] returns latitude 80.2707 and longitude
    13.0827, so the pair does not round-trip through it. *)
Theorem get_listings_with_coordinates_exchanges_pair :
  let tbl := [chennai "listing-1" "active"] in
  map (fun r => (latitude r, longitude r)) (get_listings_with_coordinates [] tbl)
    = [(Some (802707 # 10000), Some (130827 # 10000))]
  /\ option_map (fun j => (j_latitude j, j_longitude j))
       (get_listing_coordinates "listing-1" tbl)
     = Some (Some (130827 # 10000), Some (802707 # 10000)).
Proof.
  simpl. split.
  - reflexivity.
  - reflexivity.
Qed.

(** *** update_test_geolocation *)

Lemma same_other_columns_refl (l : scrap_listing) : same_other_columns l l.
Proof. unfold same_other_columns. repeat split. Qed.

Lemma same_other_columns_set (g : option geometry) (l : scrap_listing) :
  same_other_columns l (set_geolocation g l).
Proof. unfold same_other_columns. simpl. repeat split. Qed.

Lemma needs_default_spec (l : scrap_listing) :
  needs_default l = true <-> geolocation l = None /\ status l <> "deleted".
Proof.
  unfold needs_default, not_deleted. destruct (geolocation l) as [g|].
  - split; [discriminate | intros [H _]; discriminate].
  - rewrite negb_true_iff. split.
    + intro H. split; [reflexivity|]. intro E. rewrite E in H. discriminate.
    + intros [_ H]. destruct (String.eqb (status l) "deleted") eqn:E; [|reflexivity].
      apply String.eqb_eq in E. contradiction.
Qed.

Lemma rows_updated_count (tbl : table) :
  rows_updated tbl (fst (update_test_geolocation tbl))
  = List.length (filter needs_default tbl).
Proof.
  unfold rows_updated, update_test_geolocation, fst.
  induction tbl as [|l tbl IH]; [reflexivity|].
  cbn [map combine filter fst snd].
  destruct (needs_default l) eqn:N.
  - pose proof N as N'. unfold needs_default in N'.
    destruct (geolocation l) eqn:G; [discriminate|].
    cbn. rewrite IH. reflexivity.
  - unfold needs_default in N. destruct (geolocation l) eqn:G; cbn; exact IH.
Qed.

(** C9: [update_test_geolocation] gives the default point (longitude
    80.2707, latitude 13.0827, SRID 4326) to exactly the listings whose
    geolocation is NULL and whose status is not 'deleted'; every other
    listing is returned as it was, no other column of any listing changes,
    and the message carries the number of rows updated. *)
Theorem update_test_geolocation_frame (tbl : table) :
  let after := fst (update_test_geolocation tbl) in
  Forall2 (fun l l' =>
             (geolocation l = None /\ status l <> "deleted" ->
              geolocation l' = Some default_location)
             /\ (~ (geolocation l = None /\ status l <> "deleted") -> l' = l)
             /\ same_other_columns l l') tbl after
  /\ default_location = mkPoint (802707 # 10000) (130827 # 10000) 4326
  /\ default_location = stored_point (130827 # 10000) (802707 # 10000)
  /\ snd (update_test_geolocation tbl)
     = "Updated " ++ show_nat (rows_updated tbl after)
       ++ " listings with default location".
Proof.
  cbv zeta. split; [|split; [|split]].
  - unfold update_test_geolocation, fst.
    apply (update_where_Forall2 _ needs_default).
    + intros l Hl. split; [|split].
      * intro H. apply needs_default_spec in H. congruence.
      * reflexivity.
      * apply same_other_columns_refl.
    + intros l Hl. split; [|split].
      * reflexivity.
      * intro Hn. apply needs_default_spec in Hl. contradiction.
      * apply same_other_columns_set.
  - reflexivity.
  - reflexivity.
  - rewrite rows_updated_count. reflexivity.
Qed.

(** *** Soft delete and retrieval *)

Lemma In_get_listings_with_coordinates (mts : list material_type) (tbl : table)
    (r : listing_with_coordinates) :
  In r (get_listings_with_coordinates mts tbl)
  <-> exists l, In l tbl /\ status l <> "deleted" /\ r = coordinates_row mts l.
Proof.
  unfold get_listings_with_coordinates. rewrite in_map_iff. split.
  - intros [l [Hr Hin]]. apply filter_In in Hin. destruct Hin as [Hin Hnd].
    exists l. repeat split; auto. unfold not_deleted in Hnd.
    rewrite negb_true_iff in Hnd. intro E. rewrite E in Hnd. discriminate.
  - intros [l [Hin [Hst Hr]]]. exists l. split; auto.
    apply filter_In. split; auto. unfold not_deleted. rewrite negb_true_iff.
    destruct (String.eqb (status l) "deleted") eqn:E; auto.
    apply String.eqb_eq in E. contradiction.
Qed.

Lemma handleDeleteListing_rows (srv : Remote) (user : option uuid) (confirmed : bool)
    (i : uuid) (tbl : table) (p : ListingsPage) :
  Forall2 (fun l l' => l' = l
                       \/ (id l = i /\ user = Some (seller_id l)
                           /\ l' = set_status "deleted" l))
    tbl (fst (handleDeleteListing srv user confirmed i (tbl, p))).
Proof.
  unfold handleDeleteListing, update. destruct confirmed; simpl.
  - destruct (fault srv 0%nat); simpl.
    + apply Forall2_refl_of. auto.
    + apply update_where_Forall2; [auto|].
      intros l Hl. right. apply andb_true_iff in Hl. destruct Hl as [Hi Hu].
      unfold eq_id in Hi. apply String.eqb_eq in Hi.
      destruct user as [u|]; [|discriminate]. apply uid_is_true in Hu.
      subst. auto.
  - apply Forall2_refl_of. auto.
Qed.

(** C8 as stated fails: with one listing whose status is 'deleted' in the
    table, the browse-listings fetch puts it in the page's list and
    [get_listing_coordinates] returns it, while
    [get_listings_with_coordinates] leaves it out. *)
Lemma deleted_listing_is_retrieved :
  let tbl := [chennai "listing-1" "deleted"] in
  map (fun l => (id l, status l))
      (listings (fetchData quiet tbl (mkPage [] None None false [])))
    = [("listing-1", "deleted")]
  /\ option_map j_status (get_listing_coordinates "listing-1" tbl) = Some "deleted"
  /\ get_listings_with_coordinates [] tbl = [].
Proof.
  cbv zeta. split; [|split].
  - vm_compute. reflexivity.
  - vm_compute. reflexivity.
  - vm_compute. reflexivity.
Qed.

(** C8, amended: deleting is a status change that removes no row;
    [get_listings_with_coordinates] returns exactly the listings whose
    status is not 'deleted'; [get_listing_coordinates] returns the listing
    with the requested id whatever its status. *)
Theorem soft_delete_and_retrieval :
  (forall srv user confirmed i tbl p,
      Forall2 (fun l l' => l' = l
                           \/ (id l = i /\ user = Some (seller_id l)
                               /\ l' = set_status "deleted" l))
        tbl (fst (handleDeleteListing srv user confirmed i (tbl, p))))
  /\ (forall mts tbl r,
         In r (get_listings_with_coordinates mts tbl)
         <-> exists l, In l tbl /\ status l <> "deleted" /\ r = coordinates_row mts l)
  /\ (forall i tbl l,
         find (fun x => String.eqb (id x) i) tbl = Some l ->
         exists j, get_listing_coordinates i tbl = Some j
                   /\ j_id j = i /\ j_status j = status l).
Proof.
  split; [|split].
  - exact handleDeleteListing_rows.
  - exact In_get_listings_with_coordinates.
  - intros i tbl l Hfind. unfold get_listing_coordinates. rewrite Hfind.
    eexists. split; [reflexivity|]. simpl. split; [|reflexivity].
    apply find_eq_id in Hfind. tauto.
Qed.

(** *** Listing status under mark-as-sold, request-pickup and edit *)

(** C4 as stated fails: the pickup page has loaded a listing that is
    already 'sold'; [handleRequestPickup] by a signed-in user sets it to
    'pending_pickup'.  Mark-as-sold on a 'deleted' listing of the caller
    sets it to 'sold'. *)
Lemma sold_listing_becomes_pending_pickup :
  let sold := chennai "listing-1" "sold" in
  let gone := chennai "listing-2" "deleted" in
  map status
      (scrap_listings
         (fst (handleRequestPickup quiet (Some "buyer-1") (Some sold)
                 (mkPickupDb [sold] []))))
    = ["pending_pickup"]
  /\ map status
       (fst (handleWalletSuccess quiet (Some "seller-1")
               ([gone], mkPage [] None (Some "listing-2") true [])))
     = ["sold"].
Proof.
  cbv zeta. split.
  - vm_compute. reflexivity.
  - vm_compute. reflexivity.
Qed.

(** C4, amended: edit never changes a status; mark-as-sold leaves a row as
    it is or sets the caller's selected listing to 'sold', so a 'sold'
    listing stays 'sold'; request-pickup leaves a row as it is or sets the
    page's listing to 'pending_pickup', and when its two remote calls
    succeed it does so whatever the status was; mark-as-sold, when its call
    succeeds, sets the caller's selected listing to 'sold' whatever the
    status was. *)
Theorem listing_status_transitions :
  (forall srv user i fd tbl,
      Forall2 (fun l l' => status l' = status l)
        tbl (fst (EditListing_handleSubmit srv user i fd tbl)))
  /\ (forall srv user tbl p,
         Forall2 (fun l l' => l' = l
                              \/ (selectedListingId p = Some (id l)
                                  /\ user = Some (seller_id l)
                                  /\ l' = set_status "sold" l))
           tbl (fst (handleWalletSuccess srv user (tbl, p))))
  /\ (forall srv user listing db,
         Forall2 (fun l l' => l' = l
                              \/ (id l = id listing /\ l' = set_status "pending_pickup" l))
           (scrap_listings db)
           (scrap_listings (fst (handleRequestPickup srv user (Some listing) db))))
  /\ (forall srv u listing db,
         fault srv 0%nat = None -> fault srv 1%nat = None ->
         Forall2 (fun l l' => id l = id listing -> status l' = "pending_pickup")
           (scrap_listings db)
           (scrap_listings (fst (handleRequestPickup srv (Some u) (Some listing) db))))
  /\ (forall srv u tbl p,
         fault srv 0%nat = None ->
         Forall2 (fun l l' => selectedListingId p = Some (id l) -> seller_id l = u ->
                              status l' = "sold")
           tbl (fst (handleWalletSuccess srv (Some u) (tbl, p)))).
Proof.
  split; [|split; [|split; [|split]]].
  - intros srv user i fd tbl. unfold EditListing_handleSubmit, update.
    destruct (fault srv 0%nat); simpl.
    + apply Forall2_refl_of. reflexivity.
    + apply update_where_Forall2; intros; reflexivity.
  - intros srv user tbl p. unfold handleWalletSuccess, update.
    destruct (selectedListingId p) as [sel|]; simpl.
    + destruct (fault srv 0%nat); simpl.
      * apply Forall2_refl_of. auto.
      * apply update_where_Forall2; [auto|].
        intros l Hl. right. apply andb_true_iff in Hl. destruct Hl as [Hi Hu].
        unfold eq_id in Hi. apply String.eqb_eq in Hi.
        destruct user as [u|]; [|discriminate]. apply uid_is_true in Hu.
        subst. auto.
    + apply Forall2_refl_of. auto.
  - intros srv user listing db. unfold handleRequestPickup, update.
    destruct user as [u|]; simpl; [|apply Forall2_refl_of; auto].
    destruct (fault srv 0%nat); simpl; [apply Forall2_refl_of; auto|].
    destruct (fault srv 1%nat); simpl; [apply Forall2_refl_of; auto|].
    apply update_where_Forall2; [auto|].
    intros l Hl. right. unfold eq_id in Hl. apply String.eqb_eq in Hl. auto.
  - intros srv u listing db F0 F1. unfold handleRequestPickup, update.
    rewrite F0, F1. simpl.
    apply update_where_Forall2.
    + intros l Hl E. unfold eq_id in Hl. rewrite E, String.eqb_refl in Hl. discriminate.
    + intros l Hl E. reflexivity.
  - intros srv u tbl p F0. unfold handleWalletSuccess, update.
    destruct (selectedListingId p) as [sel|]; simpl.
    + rewrite F0. simpl. apply update_where_Forall2.
      * intros l Hl Hsel Hu. inversion Hsel; subst sel. subst u.
        unfold eq_id in Hl. rewrite !String.eqb_refl in Hl. discriminate.
      * intros l Hl _ _. reflexivity.
    + apply Forall2_refl_of. intros l Hsel. discriminate.
Qed.

End ListingFacts.

(** ** Negotiations: what a statement does to the table *)

Module NumericFacts.
Import Numeric.

(** A stored value is determined by its number of hundredths. *)
Lemma numeric_eq (a b : numeric_10_2) : hundredths a = hundredths b -> a = b.
Proof.
  destruct a as [x Hx], b as [y Hy]. simpl. intros ->. f_equal.
  apply UIP_dec. apply bool_dec.
Qed.

Lemma of_hundredths_Ok (h : Z) (n : numeric_10_2) :
  of_hundredths h = Ok n -> hundredths n = h /\ (Z.abs h < limit)%Z.
Proof.
  unfold of_hundredths. destruct (bool_dec _ _) as [H|H]; [|discriminate].
  intro E. inversion E. simpl. split; [reflexivity|now apply Z.ltb_lt].
Qed.

Lemma of_hundredths_fits (h : Z) :
  (Z.abs h < limit)%Z -> exists n, of_hundredths h = Ok n /\ hundredths n = h.
Proof.
  intro H. unfold of_hundredths. destruct (bool_dec _ _) as [E|E].
  - eexists. split; reflexivity.
  - exfalso. apply E. now apply Z.ltb_lt.
Qed.

Lemma of_hundredths_overflow (h : Z) :
  (limit <= Z.abs h)%Z -> of_hundredths h = Err numeric_field_overflow.
Proof.
  intro H. unfold of_hundredths. destruct (bool_dec _ _) as [E|E]; [|reflexivity].
  pose proof (proj1 (Z.ltb_lt _ _) E). lia.
Qed.

Lemma round_half_away_exact (h : Z) : round_half_away ((h # 100) * 100) = h.
Proof.
  unfold round_half_away. cbn [Qmult Qnum Qden].
  change (Z.pos (100 * 1)) with 100%Z.
  destruct (0 <=? h * 100)%Z eqn:E.
  - apply Z.leb_le in E. symmetry. apply Z.div_unique with (r := 100%Z); lia.
  - apply Z.leb_gt in E.
    assert ((2 * - (h * 100) + 100) / (2 * 100) = - h)%Z as ->; [|lia].
    symmetry. apply Z.div_unique with (r := 100%Z); lia.
Qed.

(** What is read from the column is written back unchanged. *)
Lemma to_numeric_value (n : numeric_10_2) : to_numeric (value n) = Ok n.
Proof.
  unfold to_numeric, value. rewrite round_half_away_exact.
  destruct (of_hundredths_fits (hundredths n)) as [m [E Hm]].
  - destruct n as [h Hh]. simpl. now apply Z.ltb_lt.
  - rewrite E. f_equal. now apply numeric_eq.
Qed.

Lemma to_numeric_Ok (q : Q) (v : numeric_10_2) :
  to_numeric q = Ok v -> hundredths v = round_half_away (q * 100).
Proof. unfold to_numeric. intro H. now apply of_hundredths_Ok in H. Qed.

Lemma round_half_away_bounds (q : Q) :
  (2 * Z.abs (round_half_away q * Zpos (Qden q) - Qnum q) <= Zpos (Qden q))%Z.
Proof.
  unfold round_half_away. destruct q as [n d]. cbn [Qnum Qden].
  assert (0 < 2 * Z.pos d)%Z as Hd by lia.
  destruct (0 <=? n)%Z eqn:E.
  - pose proof (Z.div_mod (2 * n + Z.pos d) (2 * Z.pos d) ltac:(lia)) as D.
    pose proof (Z.mod_pos_bound (2 * n + Z.pos d) (2 * Z.pos d) Hd) as B.
    nia.
  - pose proof (Z.div_mod (2 * - n + Z.pos d) (2 * Z.pos d) ltac:(lia)) as D.
    pose proof (Z.mod_pos_bound (2 * - n + Z.pos d) (2 * Z.pos d) Hd) as B.
    nia.
Qed.

(** The stored value is the amount rounded to two decimals: it differs from
    the amount by at most half a hundredth. *)
Lemma to_numeric_close (q : Q) (v : numeric_10_2) :
  to_numeric q = Ok v -> (Qabs (value v - q) <= 1 # 200)%Q.
Proof.
  intro H. apply to_numeric_Ok in H.
  pose proof (round_half_away_bounds (q * 100)) as B. rewrite <- H in B.
  unfold value. destruct q as [n d]. cbn [Qmult Qnum Qden] in B.
  apply Qabs_Qle_condition. unfold Qle, Qminus, Qplus, Qopp. cbn [Qnum Qden].
  rewrite ?Pos2Z.inj_mul in *. split; nia.
Qed.

(** From 10^8 on the amount does not fit the column. *)
Lemma to_numeric_overflow (q : Q) :
  (100000000 <= q)%Q -> to_numeric q = Err numeric_field_overflow.
Proof.
  intro H. unfold to_numeric. apply of_hundredths_overflow.
  unfold round_half_away, limit. destruct q as [n d].
  unfold Qle in H. cbn [Qmult Qnum Qden] in *.
  rewrite Pos2Z.inj_mul.
  assert (0 <= n)%Z as Hn by nia.
  assert ((0 <=? n * 100)%Z = true) as -> by (apply Z.leb_le; lia).
  assert (10 ^ 10 <= (2 * (n * 100) + Z.pos d * 1) / (2 * (Z.pos d * 1)))%Z.
  { apply Z.div_le_lower_bound; [lia|]. change (10 ^ 10)%Z with 10000000000%Z. nia. }
  lia.
Qed.

Lemma to_numeric_opt_Ok (o : option Q) (c : option numeric_10_2) :
  to_numeric_opt o = Ok c ->
  match o, c with
  | None, None => True
  | Some q, Some v => to_numeric q = Ok v
  | _, _ => False
  end.
Proof.
  destruct o as [q|]; simpl.
  - destruct (to_numeric q) as [v|e]; [|discriminate]. intro H. now inversion H.
  - intro H. now inversion H.
Qed.

End NumericFacts.

Module NegotiationFacts.
Import Numeric Negotiation.

Lemma update_Ok (pols : list policy) (srv : Remote) (k : nat) (a : option uuid)
    (p : Patch Q) (where_ : negotiation -> bool) (tbl tbl' : table) :
  update pols srv k a p where_ tbl = Ok tbl' ->
  exists columns,
    to_columns p = Ok columns
    /\ fault srv k = None
    /\ tbl' = update_where (update_target pols a where_) (written srv columns) tbl
    /\ forall r, In r tbl -> update_target pols a where_ r = true ->
                 update_check pols a (written srv columns r) = true.
Proof.
  unfold update. destruct (fault srv k); [discriminate|].
  destruct (to_columns p) as [columns|?]; [|discriminate].
  destruct (forallb _ tbl) eqn:F; [|discriminate].
  intro H. inversion H; subst. exists columns.
  split; [reflexivity|]. split; [reflexivity|]. split; [reflexivity|].
  intros r Hin Ht. rewrite forallb_forall in F. specialize (F r Hin).
  rewrite Ht in F. exact F.
Qed.

Lemma update_rows (pols : list policy) (srv : Remote) (k : nat) (a : option uuid)
    (p : Patch Q) (where_ : negotiation -> bool) (tbl tbl' : table) :
  update pols srv k a p where_ tbl = Ok tbl' ->
  exists columns,
    to_columns p = Ok columns
    /\ Forall2 (fun r r' => r' = r
                            \/ (update_target pols a where_ r = true
                                /\ r' = written srv columns r))
         tbl tbl'.
Proof.
  intro H. apply update_Ok in H. destruct H as [columns [Hc [_ [-> _]]]].
  exists columns. split; [exact Hc|]. apply update_where_Forall2; auto.
Qed.

(** A request that names only the status has no amount to convert. *)
Lemma to_columns_status (st : option NegotiationStatus) :
  to_columns (mkPatch None None st) = Ok (mkPatch None None st).
Proof. reflexivity. Qed.

Lemma to_columns_counter (q : Q) (columns : Patch numeric_10_2) :
  to_columns (mkPatch None (Some q) (Some countered)) = Ok columns ->
  exists v, to_numeric q = Ok v /\ columns = mkPatch None (Some v) (Some countered).
Proof.
  unfold to_columns. simpl. destruct (to_numeric q) as [v|?]; [|discriminate].
  intro H. inversion H. eauto.
Qed.

Lemma to_columns_offer (q : Q) (columns : Patch numeric_10_2) :
  to_columns (mkPatch (Some q) None (Some pending)) = Ok columns ->
  exists v, to_numeric q = Ok v /\ columns = mkPatch (Some v) None (Some pending).
Proof.
  unfold to_columns. simpl. destruct (to_numeric q) as [v|?]; [|discriminate].
  intro H. inversion H. eauto.
Qed.

Lemma select_Ok (pols : list policy) (srv : Remote) (k : nat) (a : option uuid)
    (where_ : negotiation -> bool) (tbl : table) (rows : list negotiation) :
  select pols srv k a where_ tbl = Ok rows ->
  fault srv k = None
  /\ rows = filter (fun r => select_using pols a r && where_ r) tbl.
Proof.
  unfold select. destruct (fault srv k); [discriminate|].
  intro H. split; congruence.
Qed.

Lemma update_target_where (pols : list policy) (a : option uuid)
    (where_ : negotiation -> bool) (r : negotiation) :
  update_target pols a where_ r = true -> where_ r = true.
Proof. unfold update_target. intro H. apply andb_true_iff in H. tauto. Qed.

Lemma to_insert_columns_Ok (d : NegotiationInsert Q)
    (columns : NegotiationInsert numeric_10_2) :
  to_insert_columns d = Ok columns ->
  to_numeric (new_initial_offer d) = Ok (new_initial_offer columns)
  /\ new_listing_id columns = new_listing_id d
  /\ new_dealer_id columns = new_dealer_id d
  /\ new_seller_id columns = new_seller_id d
  /\ new_status columns = new_status d.
Proof.
  unfold to_insert_columns. destruct (to_numeric (new_initial_offer d)) as [v|?];
    [|discriminate].
  intro H. inversion H. simpl. auto.
Qed.

Lemma constraints_fresh (refs : References) (r : negotiation) (tbl : table) :
  constraints refs r tbl = None ->
  existsb (fun x => String.eqb (id x) (id r)) tbl = false.
Proof.
  unfold constraints. destruct (existsb _ tbl); [discriminate|reflexivity].
Qed.

Lemma insert_Ok (pols : list policy) (srv : Remote) (k : nat) (a : option uuid)
    (refs : References) (d : NegotiationInsert Q) (tbl tbl' : table) :
  insert pols srv k a refs d tbl = Ok tbl' ->
  exists columns,
    to_insert_columns d = Ok columns
    /\ tbl' = (tbl ++ [new_row srv columns])%list
    /\ insert_check pols a (new_row srv columns) = true
    /\ constraints refs (new_row srv columns) tbl = None
    /\ existsb (fun x => String.eqb (id x) (gen_random_uuid srv)) tbl = false.
Proof.
  unfold insert. destruct (fault srv k); [discriminate|].
  destruct (to_insert_columns d) as [columns|?]; [|discriminate].
  destruct (insert_check pols a (new_row srv columns)) eqn:I; simpl; [|discriminate].
  destruct (constraints refs (new_row srv columns) tbl) eqn:C; [discriminate|].
  intro H. inversion H. exists columns.
  split; [reflexivity|]. split; [reflexivity|]. split; [exact I|].
  split; [exact C|]. apply (constraints_fresh _ _ _ C).
Qed.

Lemma insert_negotiation_Ok (srv : Remote) (k : nat) (caller : option uuid)
    (refs : References) (l d : uuid) (q : Q) (s : uuid) (tbl tbl' : table) :
  insert_negotiation srv k caller refs l d q s tbl = Ok tbl' ->
  exists v,
    to_numeric q = Ok v
    /\ tbl' = (tbl ++ [new_row srv (mkInsert l d s v pending)])%list
    /\ constraints refs (new_row srv (mkInsert l d s v pending)) tbl = None
    /\ existsb (fun x => String.eqb (id x) (gen_random_uuid srv)) tbl = false.
Proof.
  unfold insert_negotiation, to_insert_columns. destruct (fault srv k); [discriminate|].
  cbn [new_initial_offer new_listing_id new_dealer_id new_seller_id new_status].
  destruct (to_numeric q) as [v|?]; [|discriminate].
  destruct (constraints refs _ tbl) eqn:C; [discriminate|].
  intro H. inversion H. exists v.
  split; [reflexivity|]. split; [reflexivity|]. split; [exact C|].
  apply (constraints_fresh _ _ _ C).
Qed.

(** When no key stands in the way: the id is unused and the listing, the
    dealer and the seller exist. *)
Lemma constraints_None (refs : References) (r : negotiation) (tbl : table) :
  existsb (fun x => String.eqb (id x) (id r)) tbl = false ->
  In (listing_id r) (listing_ids refs) ->
  In (dealer_id r) (user_ids refs) -> In (seller_id r) (user_ids refs) ->
  constraints refs r tbl = None.
Proof.
  intros Hid Hl Hd Hs. unfold constraints. rewrite Hid.
  assert (forall x l, In x l -> existsb (String.eqb x) l = true) as E.
  { intros x l H. apply existsb_exists. exists x. split; [exact H|apply String.eqb_refl]. }
  now rewrite (E _ _ Hl), (E _ _ Hd), (E _ _ Hs).
Qed.

(** In a table whose primary key holds, a row is determined by its id. *)
Lemma primary_key (tbl : table) (r r' : negotiation) :
  NoDup (map id tbl) -> In r tbl -> In r' tbl -> id r = id r' -> r = r'.
Proof.
  induction tbl as [|x tbl IH]; simpl; [tauto|].
  intros Hnd Hr Hr' E. inversion Hnd as [|? ? Hnotin Hnd']; subst.
  destruct Hr as [->|Hr], Hr' as [->|Hr']; auto.
  - exfalso. apply Hnotin. rewrite E. now apply in_map.
  - exfalso. apply Hnotin. rewrite <- E. now apply in_map.
Qed.

End NegotiationFacts.

(** ** C6: what the policies of rls_policies.sql allow *)

Module PolicyFacts.
Import Numeric Negotiation NegotiationFacts.

Lemma rls_select_using (u : uuid) (r : negotiation) :
  select_using rls_policies (Some u) r = true <-> u = dealer_id r \/ u = seller_id r.
Proof.
  unfold select_using, rls_policies, is_dealer, is_seller. simpl.
  rewrite !orb_false_r, orb_true_iff, !String.eqb_eq. tauto.
Qed.

Lemma rls_update_using (u : uuid) (r : negotiation) :
  update_using rls_policies (Some u) r = true <-> u = dealer_id r \/ u = seller_id r.
Proof.
  unfold update_using, rls_policies, is_dealer, is_seller. simpl.
  rewrite !orb_false_r, orb_true_iff, !String.eqb_eq. tauto.
Qed.

Lemma rls_insert_check (u : uuid) (r : negotiation) :
  insert_check rls_policies (Some u) r = true <-> u = dealer_id r.
Proof.
  unfold insert_check, rls_policies, is_dealer. simpl.
  rewrite !orb_false_r, String.eqb_eq. tauto.
Qed.

(** The stored procedure does for any caller what an insert through the
    table does for the dealer of the row. *)
Lemma insert_negotiation_as_the_dealer (pols : list policy) (srv : Remote) (k : nat)
    (caller : option uuid) (refs : References) (l d s : uuid) (q : Q)
    (tbl tbl' : table) :
  insert pols srv k (Some d) refs (mkInsert l d s q pending) tbl = Ok tbl' ->
  insert_negotiation srv k caller refs l d q s tbl = Ok tbl'.
Proof.
  intro H. unfold insert in H. unfold insert_negotiation.
  destruct (fault srv k); [discriminate|].
  destruct (to_insert_columns (mkInsert l d s q pending)) as [columns|?]; [|discriminate].
  destruct (insert_check pols (Some d) (new_row srv columns)); [|discriminate].
  cbn [negb] in H. destruct (constraints refs (new_row srv columns) tbl); [discriminate|].
  exact H.
Qed.

(** C6 (counterexample): a user who is neither the dealer nor the seller
    has a negotiation inserted in the name of dealer-1: the insert through
    the table is refused, the call of [insert_negotiation] is not. *)
Lemma row_inserted_for_another_dealer :
  insert rls_policies Scenario.quiet 0%nat (Some "mallory")
    (mkReferences ["listing-1"] ["dealer-1"; "seller-1"; "mallory"])
    (mkInsert "listing-1" "dealer-1" "seller-1" 50 pending) []
  = Err rls_violation
  /\ insert_negotiation Scenario.quiet 0%nat (Some "mallory")
       (mkReferences ["listing-1"] ["dealer-1"; "seller-1"; "mallory"])
       "listing-1" "dealer-1" 50 "seller-1" []
     = Ok [mkNegotiation "fresh-id" "listing-1" "dealer-1" "seller-1"
             (mkNumeric 5000 eq_refl) None pending 2000 2000].
Proof. split; reflexivity. Qed.

(** C6: under the policies of rls_policies.sql, for an authenticated user
    [u], a row is visible (and returned by a select) exactly when [u] is
    its dealer or its seller; an insert through the table goes through
    only for a row whose dealer is [u] and is refused otherwise (with the
    policy's error once the amount fits the column); and no update by [u]
    changes a row of which [u] is neither the dealer nor the seller.  The
    stored procedure [insert_negotiation] is outside the policies: whatever
    row the table accepts from its dealer, the procedure inserts for any
    authenticated caller. *)
Theorem rls_policies_restrict_to_owner (u : uuid) :
  (forall r, select_using rls_policies (Some u) r = true
             <-> u = dealer_id r \/ u = seller_id r)
  /\ (forall srv k where_ tbl rows r,
         select rls_policies srv k (Some u) where_ tbl = Ok rows ->
         (In r rows <-> In r tbl /\ where_ r = true
                        /\ (u = dealer_id r \/ u = seller_id r)))
  /\ (forall srv k refs d tbl tbl',
         insert rls_policies srv k (Some u) refs d tbl = Ok tbl' ->
         new_dealer_id d = u
         /\ exists columns, to_insert_columns d = Ok columns
                            /\ tbl' = (tbl ++ [new_row srv columns])%list)
  /\ (forall srv k refs d tbl,
         fault srv k = None -> new_dealer_id d <> u ->
         (exists e, insert rls_policies srv k (Some u) refs d tbl = Err e)
         /\ forall v, to_numeric (new_initial_offer d) = Ok v ->
                      insert rls_policies srv k (Some u) refs d tbl = Err rls_violation)
  /\ (forall srv k p where_ tbl tbl',
         update rls_policies srv k (Some u) p where_ tbl = Ok tbl' ->
         Forall2 (fun r r' => u <> dealer_id r -> u <> seller_id r -> r' = r) tbl tbl')
  /\ (forall srv k caller refs l d s q tbl tbl',
         insert rls_policies srv k (Some d) refs (mkInsert l d s q pending) tbl = Ok tbl' ->
         insert_negotiation srv k (Some caller) refs l d q s tbl = Ok tbl').
Proof.
  split; [|split; [|split; [|split; [|split]]]].
  - intro r. apply rls_select_using.
  - intros srv k where_ tbl rows r H. unfold select in H.
    apply select_Ok in H. destruct H as [_ ->].
    rewrite filter_In, andb_true_iff, rls_select_using. tauto.
  - intros srv k refs d tbl tbl' H. apply insert_Ok in H.
    destruct H as [columns [Hc [-> [Hi _]]]]. apply rls_insert_check in Hi.
    apply to_insert_columns_Ok in Hc as Hd. simpl in Hi. split; [|eauto].
    destruct Hd as [_ [_ [Hd _]]]. congruence.
  - intros srv k refs d tbl F Hd.
    assert (forall columns, to_insert_columns d = Ok columns ->
              insert_check rls_policies (Some u) (new_row srv columns) = false) as Hno.
    { intros columns Hc.
      destruct (insert_check rls_policies (Some u) (new_row srv columns)) eqn:E;
        [|reflexivity].
      apply rls_insert_check in E. simpl in E.
      apply to_insert_columns_Ok in Hc. destruct Hc as [_ [_ [Hc _]]]. congruence. }
    unfold insert. rewrite F. split.
    + destruct (to_insert_columns d) as [columns|e] eqn:C; [|eauto].
      rewrite (Hno columns eq_refl). simpl. eauto.
    + intros v Hv. unfold to_insert_columns in *. rewrite Hv in *.
      now rewrite (Hno _ eq_refl).
  - intros srv k p where_ tbl tbl' H. apply update_rows in H.
    destruct H as [columns [_ H]].
    revert H. apply Forall2_weaken. intros r r' [->|[Ht _]] Hd Hs; [reflexivity|].
    unfold update_target in Ht. rewrite !andb_true_iff in Ht.
    destruct Ht as [[Hv _] _]. apply rls_select_using in Hv. tauto.
  - intros srv k caller refs l d s q tbl tbl'. apply insert_negotiation_as_the_dealer.
Qed.

End PolicyFacts.

(** ** The manager's mutations when the remote call fails *)

Module ManagerFacts.
Import Negotiation NegotiationsManager Scenario.

(** C7: when the update that an accept, reject or counter sends comes back
    with an error, the table and the local list of negotiations are as
    before, exactly one toast is added and it is the destructive error
    toast, and [processingId] is reset. *)
Theorem mutation_error_changes_nothing (pols : list policy) (srv : Remote)
    (user : option uuid) (m : Mutation) (i : uuid) (tbl : table) (s : State)
    (p : Patch Q) (e : PostgrestError) :
  request m i s = Some p ->
  update pols srv 0%nat user p (eq_id i) tbl = Err e ->
  fst (handle m pols srv user i (tbl, s)) = tbl
  /\ negotiations (snd (handle m pols srv user i (tbl, s))) = negotiations s
  /\ toasts (snd (handle m pols srv user i (tbl, s)))
     = (toasts s ++ [error_toast e (fallback_message m)])%list
  /\ destructive (error_toast e (fallback_message m)) = true
  /\ processingId (snd (handle m pols srv user i (tbl, s))) = None.
Proof.
  intros Hreq Hupd. destruct m; simpl in Hreq |- *.
  - unfold handleAcceptOffer. simpl.
    destruct (find (eq_id i) (negotiations s)); [|discriminate].
    inversion Hreq; subst. rewrite Hupd. simpl. repeat split.
  - unfold handleRejectOffer. inversion Hreq; subst. rewrite Hupd. simpl. repeat split.
  - unfold handleCounterOffer. simpl.
    destruct (valid_amount (counterOffer s i)) as [q|]; [|discriminate].
    inversion Hreq; subst. rewrite Hupd. simpl. repeat split.
Qed.

(** The same three handlers when the update succeeds: the row leaves the
    local list and the toast is not an error. *)
Lemma mutation_success_removes_row (pols : list policy) (srv : Remote)
    (user : option uuid) (m : Mutation) (i : uuid) (tbl tbl' : table) (s : State)
    (p : Patch Q) :
  request m i s = Some p ->
  update pols srv 0%nat user p (eq_id i) tbl = Ok tbl' ->
  fst (handle m pols srv user i (tbl, s)) = tbl'
  /\ negotiations (snd (handle m pols srv user i (tbl, s)))
     = remove_row i (negotiations s).
Proof.
  intros Hreq Hupd. destruct m; simpl in Hreq |- *.
  - unfold handleAcceptOffer. simpl.
    destruct (find (eq_id i) (negotiations s)); [|discriminate].
    inversion Hreq; subst. rewrite Hupd. simpl. split; reflexivity.
  - unfold handleRejectOffer. inversion Hreq; subst. rewrite Hupd. simpl.
    split; reflexivity.
  - unfold handleCounterOffer. simpl.
    destruct (valid_amount (counterOffer s i)) as [q|]; [|discriminate].
    inversion Hreq; subst. rewrite Hupd. simpl. split; reflexivity.
Qed.

(** The dealer presses Accept on the own offer: the policies refuse the
    update, and nothing but the error toast changes. *)
Lemma mutation_error_changes_nothing_witness :
  fst (handle AcceptOffer rls_policies quiet (Some "dealer-1") "n1"
         ([offer_1], manager_of_dealer)) = [offer_1]
  /\ negotiations (snd (handle AcceptOffer rls_policies quiet (Some "dealer-1") "n1"
                          ([offer_1], manager_of_dealer))) = [offer_1]
  /\ toasts (snd (handle AcceptOffer rls_policies quiet (Some "dealer-1") "n1"
                    ([offer_1], manager_of_dealer)))
     = ([] ++ [error_toast rls_violation "Failed to accept the offer"])%list
  /\ destructive (error_toast rls_violation "Failed to accept the offer") = true
  /\ processingId (snd (handle AcceptOffer rls_policies quiet (Some "dealer-1") "n1"
                          ([offer_1], manager_of_dealer))) = None.
Proof.
  apply (mutation_error_changes_nothing rls_policies quiet (Some "dealer-1")
           AcceptOffer "n1" [offer_1] manager_of_dealer accept_patch rls_violation).
  - reflexivity.
  - vm_compute. reflexivity.
Defined.

End ManagerFacts.

(** ** The workflow: what each action does to the rows *)

Module WorkflowFacts.
Import Numeric NumericFacts Negotiation NegotiationFacts Workflow Scenario.

Lemma changes_none (c : Config) (srv : Remote) (a : Action) (w : World)
    (t : Negotiation.table) : changes c srv a w t t.
Proof.
  exists t, []. split; [symmetry; apply app_nil_r|]. split.
  - apply Forall2_refl_of. auto.
  - left. reflexivity.
Qed.

Lemma changes_rows (c : Config) (srv : Remote) (a : Action) (w : World)
    (t t' : Negotiation.table) :
  Forall2 (fun r r' => r' = r \/ row_effect c srv a w r r') t t' ->
  changes c srv a w t t'.
Proof.
  intro H. exists t', []. split; [symmetry; apply app_nil_r|]. split; [exact H|].
  left. reflexivity.
Qed.

Lemma valid_amount_positive (v : option Q) (q : Q) :
  NegotiationsManager.valid_amount v = Some q -> v = Some q /\ (0 < q)%Q.
Proof.
  unfold NegotiationsManager.valid_amount. destruct v as [x|]; [|discriminate].
  destruct (Qle_bool x 0) eqn:E; [discriminate|].
  intro H. inversion H; subst. split; [reflexivity|].
  apply Qnot_le_lt. intro Hle. apply Qle_bool_iff in Hle. congruence.
Qed.

(** The table after one of the manager's handlers. *)
Lemma manager_handler_table (pols : list policy) (srv : Remote) (user : option uuid)
    (m : NegotiationsManager.Mutation) (i : uuid) (tbl : Negotiation.table)
    (s : NegotiationsManager.State) :
  fst (NegotiationsManager.handle m pols srv user i (tbl, s)) = tbl
  \/ exists p tbl',
       NegotiationsManager.request m i s = Some p
       /\ update pols srv 0%nat user p (eq_id i) tbl = Ok tbl'
       /\ fst (NegotiationsManager.handle m pols srv user i (tbl, s)) = tbl'.
Proof.
  destruct m; simpl.
  - unfold NegotiationsManager.handleAcceptOffer. simpl.
    destruct (find (eq_id i) (NegotiationsManager.negotiations s)); [|left; reflexivity].
    destruct (update pols srv 0%nat user _ (eq_id i) tbl) as [tbl'|e] eqn:U; simpl.
    + right. exists NegotiationsManager.accept_patch, tbl'. auto.
    + left. reflexivity.
  - unfold NegotiationsManager.handleRejectOffer.
    destruct (update pols srv 0%nat user _ (eq_id i) tbl) as [tbl'|e] eqn:U; simpl.
    + right. exists NegotiationsManager.reject_patch, tbl'. auto.
    + left. reflexivity.
  - unfold NegotiationsManager.handleCounterOffer. simpl.
    destruct (NegotiationsManager.valid_amount _) as [q|]; [|left; reflexivity].
    destruct (update pols srv 0%nat user _ (eq_id i) tbl) as [tbl'|e] eqn:U; simpl.
    + right. exists (NegotiationsManager.counter_patch q), tbl'. auto.
    + left. reflexivity.
Qed.

(** The table after the buyer answers a counter offer. *)
Lemma answer_counter_table (pols : list policy) (srv : Remote) (user : option uuid)
    (st : NegotiationStatus) (ok : Toast) (fb : string) (tbl : Negotiation.table)
    (s : NegotiationDialog.State) :
  fst (NegotiationDialog.answer_counter pols srv user st ok fb (tbl, s)) = tbl
  \/ exists n tbl',
       NegotiationDialog.existingNegotiation s = Some n
       /\ update pols srv 0%nat user (mkPatch None None (Some st))
            (eq_id (id n)) tbl = Ok tbl'
       /\ fst (NegotiationDialog.answer_counter pols srv user st ok fb (tbl, s)) = tbl'.
Proof.
  unfold NegotiationDialog.answer_counter.
  destruct (NegotiationDialog.existingNegotiation s) as [n|]; [|left; reflexivity].
  destruct (update pols srv 0%nat user _ (eq_id (id n)) tbl) as [tbl'|e] eqn:U; simpl.
  - right. exists n, tbl'. auto.
  - left. reflexivity.
Qed.

(** The table after a submission: unchanged, one appended pending row with
    the offer as the column holds it, or the fallback update after a
    refused insert with code 23505. *)
Lemma handleSubmit_table (pols : list policy) (rpc : bool) (srv : Remote)
    (user : option uuid) (listingId : uuid) (ls : list Listing.scrap_listing)
    (us : list uuid) (tbl : Negotiation.table) (s : NegotiationDialog.State) :
  let out :=
    fst (NegotiationDialog.handleSubmit pols rpc srv user listingId ls us (tbl, s)) in
  out = tbl
  \/ (exists u seller v,
         user = Some u
         /\ to_numeric (NegotiationDialog.initialOffer s) = Ok v
         /\ existsb (fun x => String.eqb (id x) (gen_random_uuid srv)) tbl = false
         /\ out = (tbl ++ [new_row srv (mkInsert listingId u seller v pending)])%list)
  \/ (exists u l e tbl',
         user = Some u
         /\ NegotiationDialog.verify_listing srv listingId ls = Ok l
         /\ insert pols srv 2%nat user (mkReferences (map Listing.id ls) us)
              (mkInsert listingId u (Listing.seller_id l)
                 (NegotiationDialog.initialOffer s) pending) tbl = Err e
         /\ code e = "23505"
         /\ update pols srv 3%nat user
              (mkPatch (Some (NegotiationDialog.initialOffer s)) None (Some pending))
              (eq_pair listingId u) tbl = Ok tbl'
         /\ out = tbl').
Proof.
  cbv zeta. unfold NegotiationDialog.handleSubmit.
  destruct user as [u|]; [|left; reflexivity].
  destruct (Qle_bool (NegotiationDialog.initialOffer s) 0); [left; reflexivity|].
  destruct (NegotiationDialog.verify_listing srv listingId ls) as [l|?] eqn:V;
    [|left; reflexivity].
  destruct (fault srv 1%nat); [left; reflexivity|].
  destruct (insert pols srv 2%nat (Some u) _ _ tbl) as [tbl'|e] eqn:I.
  - apply insert_Ok in I. destruct I as [columns [Hc [-> [_ [_ Hf]]]]].
    unfold to_insert_columns in Hc. cbn [new_initial_offer] in Hc.
    destruct (to_numeric (NegotiationDialog.initialOffer s)) as [v|?]; [|discriminate].
    inversion Hc; subst columns.
    right. left. exists u, (Listing.seller_id l), v. auto.
  - destruct (String.eqb (code e) "23503"); [left; reflexivity|].
    destruct (String.eqb (code e) "23505") eqn:C.
    + apply String.eqb_eq in C.
      destruct (update pols srv 3%nat (Some u) _ (eq_pair listingId u) tbl)
        as [tbl'|e'] eqn:U; simpl.
      * right. right. exists u, l, e, tbl'. auto 10.
      * left. reflexivity.
    + destruct rpc; [|left; reflexivity].
      destruct (insert_negotiation srv 3%nat _ _ listingId u _ _ tbl) as [tbl'|?] eqn:R;
        [|left; reflexivity].
      apply insert_negotiation_Ok in R. destruct R as [v [Hv [-> [_ Hf]]]].
      right. left. exists u, (Listing.seller_id l), v. auto.
Qed.

(** After an update went through, each row is as before or is the written
    row of a target of the update: [shape] reads the converted columns off
    the request, [fin] closes the goal for a target whose filter [Ht] held. *)
Ltac by_update_rows Hup shape fin :=
  apply changes_rows; apply update_rows in Hup;
  let columns := fresh "columns" in
  let Hc := fresh "Hc" in
  destruct Hup as [columns [Hc Hup]]; shape Hc; revert Hup;
  apply Forall2_weaken;
  let r := fresh "r" in
  let r' := fresh "r'" in
  let Ht := fresh "Ht" in
  intros r r' [->|[Ht ->]]; [left; reflexivity|];
  right; apply update_target_where in Ht; fin Ht.

Ltac status_only Hc := cbv in Hc; inversion Hc; subst; clear Hc.

Ltac by_id Ht := unfold eq_id in Ht; apply String.eqb_eq in Ht.

(** Every action changes the table in the way [row_effect] and [appended]
    describe, and in no other way. *)
Lemma run_changes (c : Config) (srv : Remote) (a : Action) (w : World) :
  changes c srv a w (table w) (table (run c srv a w)).
Proof.
  unfold run. destruct (enabled a w) eqn:En; [|apply changes_none].
  destruct a; unfold perform, with_dialog, with_manager; cbn [table];
    cbn [enabled] in En; try apply changes_none.
  - (* SubmitOffer *)
    pose proof (handleSubmit_table (policies c) (rpc_defined c) srv (dialog_user c)
                  (dialog_listing c) (listings c) (users c) (table w) (dialog w)) as H.
    cbv zeta in H. destruct H as [H|[H|H]].
    + rewrite H. apply changes_none.
    + destruct H as [u [seller [v [Hu [Hv [_ H]]]]]]. rewrite H.
      exists (table w), [new_row srv (mkInsert (dialog_listing c) u seller v pending)].
      split; [reflexivity|]. split; [apply Forall2_refl_of; auto|].
      right. split; [reflexivity|]. eexists. split; [reflexivity|]. simpl. auto.
    + destruct H as [u [l [e [tbl' [Hu [Hv [Hi [Hc [Hup H]]]]]]]]]. rewrite H.
      by_update_rows Hup
        ltac:(fun Hc => apply to_columns_offer in Hc;
                        let v := fresh "v" in
                        let Hv := fresh "Hv" in
                        destruct Hc as [v [Hv ->]])
        ltac:(fun Ht =>
          simpl; split; [exists u, l, e; rewrite Hu in *; auto
                        |split; [exists u; auto | eauto]]).
  - (* AcceptCounter *)
    unfold NegotiationDialog.counter_buttons_shown in En.
    destruct (answer_counter_table (policies c) srv (dialog_user c) accepted
                (mkToast "Counter Offer Accepted"
                   "You have accepted the seller's counter offer" false)
                "Failed to accept the counter offer" (table w) (dialog w))
      as [H|[n [tbl' [Hn [Hup H]]]]];
      unfold NegotiationDialog.onAcceptCounterOffer; rewrite H; [apply changes_none|].
    rewrite Hn in En. rewrite !andb_true_iff in En.
    destruct En as [_ En]. apply status_eqb_true in En.
    by_update_rows Hup status_only ltac:(fun Ht => by_id Ht; simpl; exists n; auto).
  - (* DeclineCounter *)
    unfold NegotiationDialog.counter_buttons_shown in En.
    destruct (answer_counter_table (policies c) srv (dialog_user c) rejected
                (mkToast "Counter Offer Declined"
                   "You have declined the seller's counter offer" false)
                "Failed to decline the counter offer" (table w) (dialog w))
      as [H|[n [tbl' [Hn [Hup H]]]]];
      unfold NegotiationDialog.onDeclineCounterOffer; rewrite H; [apply changes_none|].
    rewrite Hn in En. rewrite !andb_true_iff in En.
    destruct En as [_ En]. apply status_eqb_true in En.
    by_update_rows Hup status_only ltac:(fun Ht => by_id Ht; simpl; exists n; auto).
  - (* Accept *)
    destruct (manager_handler_table (policies c) srv (manager_user c)
                NegotiationsManager.AcceptOffer i (table w) (manager w))
      as [H|[p [tbl' [Hp [Hup H]]]]]; cbn [NegotiationsManager.handle] in H;
      rewrite H; [apply changes_none|].
    simpl in Hp.
    destruct (find (eq_id i) (NegotiationsManager.negotiations (manager w)));
      [|discriminate].
    inversion Hp; subst p; clear Hp.
    by_update_rows Hup status_only ltac:(fun Ht => by_id Ht; simpl; auto).
  - (* Reject *)
    destruct (manager_handler_table (policies c) srv (manager_user c)
                NegotiationsManager.RejectOffer i (table w) (manager w))
      as [H|[p [tbl' [Hp [Hup H]]]]]; cbn [NegotiationsManager.handle] in H;
      rewrite H; [apply changes_none|].
    simpl in Hp. inversion Hp; subst p; clear Hp.
    by_update_rows Hup status_only ltac:(fun Ht => by_id Ht; simpl; auto).
  - (* Counter *)
    destruct (manager_handler_table (policies c) srv (manager_user c)
                NegotiationsManager.CounterOffer i (table w) (manager w))
      as [H|[p [tbl' [Hp [Hup H]]]]]; cbn [NegotiationsManager.handle] in H;
      rewrite H; [apply changes_none|].
    simpl in Hp.
    destruct (NegotiationsManager.valid_amount _) as [q|] eqn:V; [|discriminate].
    inversion Hp; subst p; clear Hp. apply valid_amount_positive in V.
    by_update_rows Hup
      ltac:(fun Hc => apply to_columns_counter in Hc;
                      let v := fresh "v" in
                      let Hv := fresh "Hv" in
                      destruct Hc as [v [Hv ->]])
      ltac:(fun Ht =>
        by_id Ht; simpl; split; [assumption | eexists; eexists; intuition eauto]).
Qed.

Lemma written_id (srv : Remote) (p : Patch numeric_10_2) (r : negotiation) :
  id (written srv p r) = id r.
Proof. reflexivity. Qed.

Lemma row_effect_id (c : Config) (srv : Remote) (a : Action) (w : World)
    (r r' : negotiation) :
  row_effect c srv a w r r' -> id r' = id r.
Proof.
  destruct a; simpl; try tauto.
  - intros [_ [_ [v [_ ->]]]]. reflexivity.
  - intros [n [_ [_ [_ ->]]]]. reflexivity.
  - intros [n [_ [_ [_ ->]]]]. reflexivity.
  - intros [_ ->]. reflexivity.
  - intros [_ ->]. reflexivity.
  - intros [_ [q [v [_ [_ [_ ->]]]]]]. reflexivity.
Qed.

Lemma row_effect_status (c : Config) (srv : Remote) (a : Action) (w : World)
    (r r' : negotiation) :
  row_effect c srv a w r r' -> target_status a = Some (status r').
Proof.
  destruct a; simpl; try tauto.
  - intros [_ [_ [v [_ ->]]]]. reflexivity.
  - intros [n [_ [_ [_ ->]]]]. reflexivity.
  - intros [n [_ [_ [_ ->]]]]. reflexivity.
  - intros [_ ->]. reflexivity.
  - intros [_ ->]. reflexivity.
  - intros [_ [q [v [_ [_ [_ ->]]]]]]. reflexivity.
Qed.

Lemma row_effect_counter_offer (c : Config) (srv : Remote) (a : Action) (w : World)
    (r r' : negotiation) :
  row_effect c srv a w r r' ->
  counter_offer r' = counter_offer r
  \/ exists i q v, a = Counter i /\ (0 < q)%Q /\ to_numeric q = Ok v
                   /\ counter_offer r' = Some v /\ status r' = countered.
Proof.
  destruct a; simpl; try tauto.
  - intros [_ [_ [v [_ ->]]]]. left. reflexivity.
  - intros [n [_ [_ [_ ->]]]]. left. reflexivity.
  - intros [n [_ [_ [_ ->]]]]. left. reflexivity.
  - intros [_ ->]. left. reflexivity.
  - intros [_ ->]. left. reflexivity.
  - intros [_ [q [v [_ [Hq [Hv ->]]]]]]. right. exists i, q, v. auto.
Qed.

Lemma run_trace_reachable (c : Config) (tr : list (Remote * Action)) (w0 w : World) :
  reachable c w0 w -> reachable c w0 (run_trace c tr w).
Proof.
  revert w. induction tr as [|[srv a] tr IH]; intros w H; simpl; [exact H|].
  apply IH. apply reach_step with (w := w); [exact H|]. exists srv, a. reflexivity.
Qed.

(** C1 as stated fails: the offer n1 has been accepted; the buyer reopens
    the dialog while the check cannot be read, so the form is shown, and
    submits again; the insert is refused as a duplicate of the key and the
    fallback update puts n1 back to 'pending'. *)
Lemma accepted_offer_back_to_pending :
  exists w w',
    reachable shop (start 100 []) w
    /\ step shop w w'
    /\ statuses w = [("n1", accepted)]
    /\ statuses w' = [("n1", pending)].
Proof.
  exists (run_trace shop (offer_accepted ++ [(offline 24, OpenDialog)]) (start 100 [])).
  exists (run shop (calm 25 "n1") SubmitOffer
            (run_trace shop (offer_accepted ++ [(offline 24, OpenDialog)]) (start 100 []))).
  split; [apply run_trace_reachable; constructor|].
  split; [exists (calm 25 "n1"), SubmitOffer; reflexivity|].
  split; vm_compute; reflexivity.
Qed.

(** C1, amended: through any action every row keeps its id, and a row that
    is 'pending' afterwards was 'pending' before, with one exception: the
    action is the offer submission, its insert was refused with code 23505,
    and the row belongs to the dialog's (listing, dealer) pair.  Seller
    accept, reject and counter and buyer accept and decline therefore never
    put a negotiation back to 'pending'. *)
Theorem pending_again_only_by_resubmission (c : Config) (srv : Remote) (a : Action)
    (w : World) :
  evolves (fun r r' =>
             id r' = id r
             /\ (status r' = pending ->
                 status r = pending
                 \/ (a = SubmitOffer
                     /\ insert_refused_as_duplicate c srv w
                     /\ exists u, dialog_user c = Some u
                                  /\ eq_pair (dialog_listing c) u r = true))
             /\ (terminal (status r) = true -> status r' = pending ->
                 a = SubmitOffer))
    (table w) (table (run c srv a w)).
Proof.
  destruct (run_changes c srv a w) as [kept [added [E [F _]]]].
  exists kept, added. split; [exact E|].
  revert F. apply Forall2_weaken. intros r r' [->|H].
  - split; [reflexivity|]. split.
    + intro P. left. exact P.
    + intros T P. rewrite P in T. discriminate.
  - split; [exact (row_effect_id _ _ _ _ _ _ H)|].
    pose proof (row_effect_status _ _ _ _ _ _ H) as S. split.
    + intro P. rewrite P in S.
      destruct a; simpl in S; try discriminate.
      right. simpl in H. destruct H as [H1 [H2 _]]. auto.
    + intros _ P. rewrite P in S. destruct a; simpl in S; try discriminate.
      reflexivity.
Qed.

(** C2 as stated fails: the buyer submits an offer, reopens the dialog
    while the check cannot be read, and submits again: the pair has two
    'pending' negotiations. *)
Lemma second_pending_offer_created :
  exists w,
    reachable shop (start 100 []) w
    /\ pending_of "listing-1" "dealer-1" (table (start 100 [])) = 0%nat
    /\ pending_of "listing-1" "dealer-1" (table w) = 2%nat
    /\ statuses w = [("n1", pending); ("n2", pending)].
Proof.
  exists (run_trace shop
            [ (calm 20 "unused", OpenDialog); (calm 21 "n1", SubmitOffer);
              (offline 22, OpenDialog); (calm 23 "n2", SubmitOffer) ]
            (start 100 [])).
  split; [apply run_trace_reachable; constructor|].
  split; [reflexivity|]. split; vm_compute; reflexivity.
Qed.

Lemma hd_error_order_desc_some (rows : list negotiation) (r : negotiation) :
  In r rows -> exists n, hd_error (order_desc created_at rows) = Some n.
Proof.
  intro H. destruct (order_desc created_at rows) as [|n l] eqn:E.
  - apply order_desc_nil in E. subst. destruct H.
  - exists n. reflexivity.
Qed.

Lemma verify_listing_Ok (srv : Remote) (i : uuid) (ls : list Listing.scrap_listing)
    (l : Listing.scrap_listing) :
  NegotiationDialog.verify_listing srv i ls = Ok l -> In i (map Listing.id ls).
Proof.
  unfold NegotiationDialog.verify_listing, Listing.select.
  destruct (fault srv 0%nat); [discriminate|].
  destruct (filter (Listing.eq_id i) ls) as [|x [|y t]] eqn:F; try discriminate.
  intro H. inversion H; subst.
  assert (In l (filter (Listing.eq_id i) ls)) as Hin by (rewrite F; left; reflexivity).
  apply filter_In in Hin. destruct Hin as [Hin Hid].
  unfold Listing.eq_id in Hid. apply String.eqb_eq in Hid. subst i.
  now apply in_map.
Qed.

(** An offer that the column cannot hold is never stored: whatever the
    remote calls answer, the table is as before. *)
Lemma handleSubmit_overflow (pols : list policy) (rpc : bool) (srv : Remote)
    (user : option uuid) (listingId : uuid) (ls : list Listing.scrap_listing)
    (us : list uuid) (tbl : Negotiation.table) (s : NegotiationDialog.State)
    (e : PostgrestError) :
  to_numeric (NegotiationDialog.initialOffer s) = Err e ->
  fst (NegotiationDialog.handleSubmit pols rpc srv user listingId ls us (tbl, s)) = tbl.
Proof.
  intro Hov.
  pose proof (handleSubmit_table pols rpc srv user listingId ls us tbl s) as H.
  cbv zeta in H. destruct H as [H|[H|H]]; [exact H| |].
  - destruct H as [u [seller [v [_ [Hv _]]]]]. congruence.
  - destruct H as [u [l [e' [tbl' [_ [_ [_ [_ [Hup _]]]]]]]]].
    apply update_Ok in Hup. destruct Hup as [columns [Hc _]].
    apply to_columns_offer in Hc. destruct Hc as [v [Hv _]]. congruence.
Qed.

(** C2, amended: the only guard is the dialog's check on opening: when that
    read succeeds and the (listing, dealer) pair has a negotiation, the
    offer form is not shown.  [handleSubmit] does not look at the rows of
    the pair, and the table has no uniqueness constraint on them: for a
    signed-in buyer with a positive offer that fits the column
    NUMERIC(10, 2), the listing present, the buyer and the seller of the
    listing present in auth.users, no failing call and an unused id, it
    appends one 'pending' row of the pair, holding the offer rounded to two
    decimals, whatever the table already holds.  An offer that does not fit
    the column (from 10^8 on) is never stored. *)
Theorem check_before_insert_only :
  (forall srv u listingId tbl s r,
      fault srv 0%nat = None -> In r tbl -> eq_pair listingId u r = true ->
      NegotiationDialog.form_shown
        (NegotiationDialog.onOpen rls_policies srv (Some u) listingId tbl s) = false)
  /\ (forall rpc srv u listingId ls us l tbl s v,
         Qle_bool (NegotiationDialog.initialOffer s) 0 = false ->
         to_numeric (NegotiationDialog.initialOffer s) = Ok v ->
         NegotiationDialog.verify_listing srv listingId ls = Ok l ->
         In u us -> In (Listing.seller_id l) us ->
         fault srv 1%nat = None -> fault srv 2%nat = None ->
         existsb (fun x => String.eqb (id x) (gen_random_uuid srv)) tbl = false ->
         fst (NegotiationDialog.handleSubmit rls_policies rpc srv (Some u) listingId ls us
                (tbl, s))
         = (tbl ++ [new_row srv (mkInsert listingId u (Listing.seller_id l) v
                                   pending)])%list
         /\ (Qabs (value v - NegotiationDialog.initialOffer s) <= 1 # 200)%Q)
  /\ (forall pols rpc srv user listingId ls us tbl s,
         (100000000 <= NegotiationDialog.initialOffer s)%Q ->
         to_numeric (NegotiationDialog.initialOffer s) = Err numeric_field_overflow
         /\ fst (NegotiationDialog.handleSubmit pols rpc srv user listingId ls us (tbl, s))
            = tbl).
Proof.
  split; [|split].
  - intros srv u listingId tbl s r F Hin Hpair.
    unfold NegotiationDialog.onOpen, NegotiationDialog.checkExistingNegotiation, select.
    rewrite F.
    destruct (hd_error_order_desc_some
                (filter (fun x => select_using rls_policies (Some u) x
                                  && eq_pair listingId u x) tbl) r) as [n Hn].
    + apply filter_In. split; [exact Hin|]. rewrite Hpair, andb_true_r.
      apply PolicyFacts.rls_select_using. left.
      unfold eq_pair in Hpair. apply andb_true_iff in Hpair.
      destruct Hpair as [_ Hd]. apply String.eqb_eq in Hd. auto.
    + rewrite Hn. unfold NegotiationDialog.form_shown. simpl. reflexivity.
  - intros rpc srv u listingId ls us l tbl s v Hq Hnum Hv Hu Hs F1 F2 Hfresh.
    split; [|now apply to_numeric_close].
    unfold NegotiationDialog.handleSubmit. rewrite Hq, Hv, F1.
    unfold insert, to_insert_columns. rewrite F2.
    cbn [new_initial_offer new_listing_id new_dealer_id new_seller_id new_status].
    rewrite Hnum.
    assert (insert_check rls_policies (Some u)
              (new_row srv (mkInsert listingId u (Listing.seller_id l) v pending)) = true)
      as Hc.
    { apply PolicyFacts.rls_insert_check. reflexivity. }
    rewrite Hc. cbn [negb].
    rewrite constraints_None; [reflexivity|exact Hfresh| | |].
    + apply verify_listing_Ok in Hv. exact Hv.
    + exact Hu.
    + exact Hs.
  - intros pols rpc srv user listingId ls us tbl s Hbig.
    pose proof (to_numeric_overflow _ Hbig) as Hov. split; [exact Hov|].
    now apply (handleSubmit_overflow _ _ _ _ _ _ _ _ _ numeric_field_overflow).
Qed.

(** *** The seller's handlers and the current status *)

Lemma card_shown_find (i : uuid) (s : NegotiationsManager.State) :
  NegotiationsManager.card_shown i s = true ->
  exists n, find (eq_id i) (NegotiationsManager.negotiations s) = Some n.
Proof.
  unfold NegotiationsManager.card_shown.
  destruct (NegotiationsManager.error s); [discriminate|].
  intro H. apply existsb_exists in H. destruct H as [x [Hin Hx]].
  destruct (find (eq_id i) (NegotiationsManager.negotiations s)) as [n|] eqn:F.
  - exists n. reflexivity.
  - rewrite (find_none _ _ F x Hin) in Hx. discriminate.
Qed.

(** Under rls_policies.sql the seller's update of the own row by id goes
    through, whatever the row holds, once the amounts of the request fit
    their columns. *)
Lemma seller_update_applies (srv : Remote) (p : Patch Q) (columns : Patch numeric_10_2)
    (tbl : Negotiation.table) (r : negotiation) :
  to_columns p = Ok columns ->
  fault srv 0%nat = None -> NoDup (map id tbl) -> In r tbl ->
  exists tbl',
    update rls_policies srv 0%nat (Some (seller_id r)) p (eq_id (id r)) tbl = Ok tbl'
    /\ In (written srv columns r) tbl'.
Proof.
  intros Hc F Hnd Hin.
  assert (update_target rls_policies (Some (seller_id r)) (eq_id (id r)) r = true) as Ht.
  { unfold update_target, eq_id. rewrite String.eqb_refl, andb_true_r.
    apply andb_true_iff. split.
    - apply PolicyFacts.rls_select_using. right. reflexivity.
    - apply PolicyFacts.rls_update_using. right. reflexivity. }
  unfold update. rewrite F, Hc.
  match goal with |- context [forallb ?f tbl] => assert (forallb f tbl = true) as Hall end.
  { apply forallb_forall. intros x Hx.
    destruct (update_target rls_policies (Some (seller_id r)) (eq_id (id r)) x) eqn:Tx;
      [|reflexivity].
    pose proof (update_target_where _ _ _ _ Tx) as Hid.
    unfold eq_id in Hid. apply String.eqb_eq in Hid.
    assert (x = r) as -> by (apply (primary_key tbl); auto).
    cbn [negb orb]. unfold update_check, rls_policies, is_dealer, is_seller. simpl.
    rewrite String.eqb_refl. rewrite !orb_true_r. reflexivity. }
  rewrite Hall. eexists. split; [reflexivity|].
  unfold update_where. apply in_map_iff. exists r. rewrite Ht. auto.
Qed.

(** A counter offer that the column cannot hold changes nothing. *)
Lemma counter_overflow (c : Config) (srv : Remote) (w : World) (i : uuid) (q : Q)
    (e : PostgrestError) :
  NegotiationsManager.valid_amount (NegotiationsManager.counterOffer (manager w) i)
  = Some q ->
  to_numeric q = Err e ->
  table (run c srv (Counter i) w) = table w.
Proof.
  intros Hq Hov. unfold run. destruct (enabled (Counter i) w); [|reflexivity].
  unfold perform, with_manager. cbn [table].
  destruct (manager_handler_table (policies c) srv (manager_user c)
              NegotiationsManager.CounterOffer i (table w) (manager w))
    as [H|[p [tbl' [Hp [Hup _]]]]]; [exact H|].
  simpl in Hp. rewrite Hq in Hp. inversion Hp; subst p.
  apply update_Ok in Hup. destruct Hup as [columns [Hc _]].
  apply to_columns_counter in Hc. destruct Hc as [v [Hv _]]. congruence.
Qed.

(** C5 as stated fails: the offer n1 has been accepted; the seller reloads
    the manager, which lists the negotiations of the listing in every
    status, and presses Counter: n1 goes from 'accepted' to 'countered' and
    gets a counter offer. *)
Lemma accepted_offer_countered :
  exists w w',
    reachable shop (start 100 []) w
    /\ w' = run shop (calm 25 "unused") (Counter "n1") w
    /\ map (fun r => (id r, status r, is_some_offer (counter_offer r))) (table w)
       = [("n1", accepted, false)]
    /\ map (fun r => (id r, status r, is_some_offer (counter_offer r))) (table w')
       = [("n1", countered, true)].
Proof.
  exists (run_trace shop (offer_accepted ++ [(calm 24 "unused", Refresh)]) (start 100 [])).
  eexists. split; [apply run_trace_reachable; constructor|].
  split; [reflexivity|]. split; vm_compute; reflexivity.
Qed.

(** C5, amended: an action changes the table only as [row_effect] and
    [appended] say.  A touched row keeps its id and ends 'accepted' (seller
    or buyer accept), 'rejected' (seller reject, buyer decline), 'countered'
    (seller counter) or 'pending' (resubmission); only the seller's counter
    writes [counter_offer]: the positive amount entered, as the column
    NUMERIC(10, 2) holds it, that is, rounded to two decimals.  The buyer's
    two buttons exist only while the loaded negotiation is 'countered'.  The
    seller's three handlers do not test the current status: under
    rls_policies.sql they rewrite the seller's row whatever status it has.
    An amount from 10^8 on does not fit the column, and a counter offer
    that does not fit changes nothing. *)
Theorem handlers_rewrite_status_without_guard :
  (forall c srv a w, changes c srv a w (table w) (table (run c srv a w)))
  /\ (forall c srv a w r r',
         row_effect c srv a w r r' ->
         id r' = id r
         /\ target_status a = Some (status r')
         /\ (counter_offer r' = counter_offer r
             \/ exists i q v, a = Counter i /\ (0 < q)%Q /\ to_numeric q = Ok v
                              /\ counter_offer r' = Some v
                              /\ status r' = countered))
  /\ (forall c srv w r,
         policies c = rls_policies -> manager_user c = Some (seller_id r) ->
         NoDup (map id (table w)) -> In r (table w) ->
         NegotiationsManager.card_shown (id r) (manager w) = true ->
         fault srv 0%nat = None ->
         In (written srv NegotiationsManager.accept_patch r)
            (table (run c srv (Accept (id r)) w))
         /\ In (written srv NegotiationsManager.reject_patch r)
               (table (run c srv (Reject (id r)) w))
         /\ forall q v,
              NegotiationsManager.valid_amount
                (NegotiationsManager.counterOffer (manager w) (id r)) = Some q ->
              to_numeric q = Ok v ->
              In (written srv (NegotiationsManager.counter_patch v) r)
                 (table (run c srv (Counter (id r)) w)))
  /\ (forall q v, to_numeric q = Ok v -> (Qabs (value v - q) <= 1 # 200)%Q)
  /\ (forall q, (100000000 <= q)%Q -> to_numeric q = Err numeric_field_overflow)
  /\ (forall c srv w i q e,
         NegotiationsManager.valid_amount
           (NegotiationsManager.counterOffer (manager w) i) = Some q ->
         to_numeric q = Err e ->
         table (run c srv (Counter i) w) = table w).
Proof.
  split; [exact run_changes|]. split; [|split; [|split; [|split]]].
  - intros c srv a w r r' H. split; [|split].
    + exact (row_effect_id _ _ _ _ _ _ H).
    + exact (row_effect_status _ _ _ _ _ _ H).
    + exact (row_effect_counter_offer _ _ _ _ _ _ H).
  - intros c srv w r Hpol Hu Hnd Hin Hcard F.
    assert (forall m p columns,
               NegotiationsManager.request m (id r) (manager w) = Some p ->
               to_columns p = Ok columns ->
               In (written srv columns r)
                  (fst (NegotiationsManager.handle m (policies c) srv (manager_user c)
                          (id r) (table w, manager w)))) as Hm.
    { intros m p columns Hreq Hc. rewrite Hpol, Hu.
      destruct (seller_update_applies srv p columns (table w) r Hc F Hnd Hin)
        as [tbl' [Hup Hin']].
      destruct (ManagerFacts.mutation_success_removes_row rls_policies srv
                  (Some (seller_id r)) m (id r) (table w) tbl' (manager w) p Hreq Hup)
        as [-> _].
      exact Hin'. }
    unfold run. cbn [enabled]. rewrite Hcard.
    unfold perform, with_manager. cbn [table].
    split; [|split].
    + apply (Hm NegotiationsManager.AcceptOffer NegotiationsManager.accept_patch);
        [|reflexivity].
      simpl. destruct (card_shown_find _ _ Hcard) as [n ->]. reflexivity.
    + apply (Hm NegotiationsManager.RejectOffer NegotiationsManager.reject_patch);
        reflexivity.
    + intros q v Hq Hv.
      apply (Hm NegotiationsManager.CounterOffer (NegotiationsManager.counter_patch q)).
      * simpl. rewrite Hq. reflexivity.
      * unfold to_columns. simpl. rewrite Hv. reflexivity.
  - exact to_numeric_close.
  - exact to_numeric_overflow.
  - exact counter_overflow.
Qed.

(** The buyer's answer to a counter offer depends on the policy script in
    force: rls_policies.sql refuses a dealer's update whose new row is
    'accepted' (the row stays 'countered' and the dialog shows the error),
    fix_negotiations.sql lets it through. *)
Lemma buyer_accept_under_each_policy_script :
  statuses (run_trace shop counter_accepted (start 100 [])) = [("n1", countered)]
  /\ map destructive
       (NegotiationDialog.toasts (dialog (run_trace shop counter_accepted (start 100 []))))
     = [false; true]
  /\ statuses (run_trace shop_fixed counter_accepted (start 100 [])) = [("n1", accepted)].
Proof.
  split; [|split]; vm_compute; reflexivity.
Qed.

End WorkflowFacts.

(** ** The uploader's URL *)

Module ImageUploaderFacts.
Import ImageUploader.

Lemma in_class_spec (c : N) :
  in_class c = true
  <-> (97 <= c <= 122 \/ 65 <= c <= 90 \/ 48 <= c <= 57 \/ c = 46 \/ c = 45)%N.
Proof.
  unfold in_class.
  rewrite !orb_true_iff, !andb_true_iff, !N.leb_le, !N.eqb_eq. tauto.
Qed.

Lemma sanitize_nth (name : jsstring) (k : nat) (c : N) :
  nth_error name k = Some c ->
  nth_error (sanitize name) k = Some (if in_class c then c else underscore).
Proof.
  intro H. unfold sanitize. rewrite nth_error_map, H. reflexivity.
Qed.

Lemma try_upload_throws_or (w : World) (name : jsstring) (url : jsstring) :
  try_upload w name = Return url ->
  exists username repo r,
    VITE_GITHUB_USERNAME (env w) = Some username
    /\ VITE_GITHUB_REPO (env w) = Some repo
    /\ truthy (VITE_GITHUB_TOKEN (env w)) = true
    /\ truthy (Some username) = true /\ truthy (Some repo) = true
    /\ fetch w = Responded r /\ ok r = true
    /\ url = jsdelivrUrl username repo (fileName_of w name).
Proof.
  unfold try_upload.
  destruct (truthy (VITE_GITHUB_TOKEN (env w))) eqn:T; [|discriminate].
  destruct (truthy (VITE_GITHUB_USERNAME (env w))) eqn:U; [|discriminate].
  destruct (truthy (VITE_GITHUB_REPO (env w))) eqn:R; [|discriminate].
  cbn [negb orb].
  destruct (VITE_GITHUB_USERNAME (env w)) as [username|]; [|discriminate].
  destruct (VITE_GITHUB_REPO (env w)) as [repo|]; [|discriminate].
  destruct (readAsDataURL w); [|discriminate]. cbn [negb].
  destruct (fetch w) as [msg|r]; [discriminate|].
  destruct (ok r) eqn:O; cbn [negb].
  - destruct (json r); [discriminate|]. intro H. inversion H.
    exists username, repo, r. auto 10.
  - destruct (json r); discriminate.
Qed.

(** A file called "my photo(1).png": the space and the brackets become
    underscores, the dot stays. *)
Lemma upload_example :
  fst (uploadImageToGitHub Scenario.github (lit "my photo(1).png"))
  = Return (lit "https://cdn.jsdelivr.net/gh/octo/scrap-images@main/images/1700000000000_k3x9q2_my_photo_1_.png").
Proof. vm_compute. reflexivity. Qed.

(** C10: when [uploadImageToGitHub] returns, the URL is
    https://cdn.jsdelivr.net/gh/<username>/<repo>@main/images/<fileName>
    with <fileName> = <timestamp>_<randomString>_<name>, where <name> is the
    file name with every code unit outside [a-zA-Z0-9.-] replaced by '_';
    otherwise it throws.  It throws whenever the GitHub configuration is
    missing and whenever the upload request fails. *)
Theorem uploadImageToGitHub_url (w : World) (name : jsstring) :
  (forall url,
      fst (uploadImageToGitHub w name) = Return url ->
      exists username repo,
        VITE_GITHUB_USERNAME (env w) = Some username
        /\ VITE_GITHUB_REPO (env w) = Some repo
        /\ url = (lit "https://cdn.jsdelivr.net/gh/" ++ username ++ lit "/" ++ repo
                  ++ lit "@main/images/"
                  ++ show_number (getTime w) ++ lit "_" ++ substring 2 8 (random36 w)
                  ++ lit "_" ++ sanitize name)%list
        /\ List.length (sanitize name) = List.length name
        /\ (forall k c, nth_error name k = Some c ->
                        nth_error (sanitize name) k
                        = Some (if in_class c then c else underscore)))
  /\ (forall c, in_class c = true
                <-> (97 <= c <= 122 \/ 65 <= c <= 90 \/ 48 <= c <= 57
                     \/ c = 46 \/ c = 45)%N)
  /\ lit "azAZ09.-_" = [97; 122; 65; 90; 48; 57; 46; 45; underscore]%N
  /\ (config_missing (env w) -> exists m, fst (uploadImageToGitHub w name) = Throw m)
  /\ (upload_failed (fetch w) -> exists m, fst (uploadImageToGitHub w name) = Throw m).
Proof.
  split; [|split; [|split; [|split]]].
  - intros url H. unfold uploadImageToGitHub in H.
    destruct (try_upload w name) as [u|m] eqn:T; [|discriminate].
    simpl in H. inversion H; subst u; clear H.
    apply try_upload_throws_or in T.
    destruct T as [username [repo [r [Hu [Hr [_ [_ [_ [_ [_ ->]]]]]]]]]].
    exists username, repo. split; [exact Hu|]. split; [exact Hr|]. split.
    + unfold jsdelivrUrl, fileName_of.
      change (lit "@main/images/") with (lit "@main/" ++ lit "images/")%list.
      rewrite <- !app_assoc. reflexivity.
    + split; [apply length_map|]. intros k c. apply sanitize_nth.
  - exact in_class_spec.
  - reflexivity.
  - intros Hmiss. unfold uploadImageToGitHub.
    destruct (try_upload w name) as [u|m] eqn:T; [|eexists; reflexivity].
    apply try_upload_throws_or in T.
    destruct T as [username [repo [r [Hu [Hr [Ht [Hut [Hrt _]]]]]]]].
    unfold config_missing in Hmiss. rewrite Hu, Hr in Hmiss.
    destruct Hmiss as [H|[H|H]]; congruence.
  - intros Hfail. unfold uploadImageToGitHub.
    destruct (try_upload w name) as [u|m] eqn:T; [|eexists; reflexivity].
    apply try_upload_throws_or in T.
    destruct T as [username [repo [r [_ [_ [_ [_ [_ [Hf [Hok _]]]]]]]]]].
    rewrite Hf in Hfail. simpl in Hfail. congruence.
Qed.

End ImageUploaderFacts.

(** * Further properties of the code *)

(** ** Ordering and conditional updates *)

Section OrderFacts.
Context {A : Type} (key : A -> Z).

Lemma hd_insert_desc (x : A) (l : list A) :
  exists h, hd_error (insert_desc key x l) = Some h
            /\ (key x <= key h)%Z
            /\ (forall y, hd_error l = Some y -> (key y <= key h)%Z)
            /\ (h = x \/ hd_error l = Some h).
Proof.
  destruct l as [|y t]; simpl.
  - exists x. repeat split; auto; try lia. intros y H. discriminate.
  - destruct (Z.ltb (key y) (key x)) eqn:E; simpl.
    + apply Z.ltb_lt in E. exists x. repeat split; auto; try lia.
      intros z H. inversion H; subst. lia.
    + apply Z.ltb_ge in E. exists y. repeat split; auto.
      intros z H. inversion H; subst. lia.
Qed.

(** The first row of an ordered result has the largest key. *)
Lemma hd_order_desc_max (l : list A) (n : A) :
  hd_error (order_desc key l) = Some n ->
  In n l /\ forall x, In x l -> (key x <= key n)%Z.
Proof.
  revert n. induction l as [|x l IH]; intros n H; [discriminate|].
  unfold order_desc in H. simpl in H. fold (order_desc key l) in H.
  destruct (hd_insert_desc x (order_desc key l)) as [h [Hh [Hx [Hy Hor]]]].
  rewrite Hh in H. inversion H; subst h; clear H.
  destruct Hor as [->|Hhd].
  - split; [left; reflexivity|]. intros z [->|Hz]; [lia|].
    destruct (order_desc key l) as [|m t] eqn:E.
    + apply order_desc_nil in E. subst. destruct Hz.
    + specialize (IH m eq_refl). destruct IH as [_ IH].
      specialize (Hy m eq_refl). specialize (IH z Hz). lia.
  - specialize (IH n Hhd). destruct IH as [Hin IH].
    split; [right; exact Hin|]. intros z [->|Hz]; [exact Hx|auto].
Qed.

End OrderFacts.

Lemma update_where_untouched {A : Type} (where_ : A -> bool) (set_ : A -> A)
    (tbl : list A) :
  (forall r, In r tbl -> where_ r = false) -> update_where where_ set_ tbl = tbl.
Proof.
  unfold update_where. induction tbl as [|r tbl IH]; intro H; simpl; [reflexivity|].
  rewrite (H r (or_introl eq_refl)). f_equal. apply IH. intros x Hx. apply H. now right.
Qed.

Lemma forallb_false_of {A : Type} (f : A -> bool) (l : list A) (x : A) :
  In x l -> f x = false -> forallb f l = false.
Proof.
  intros Hin Hf. destruct (forallb f l) eqn:E; [|reflexivity].
  rewrite forallb_forall in E. rewrite (E x Hin) in Hf. discriminate.
Qed.

(** ** The two policy scripts and the stored procedure *)

Module PolicyExtras.
Import Numeric NumericFacts Negotiation NegotiationFacts.

Lemma dealer_update_refused (srv : Remote) (k : nat) (u : uuid)
    (st : NegotiationStatus) (where_ : negotiation -> bool) (tbl : table)
    (r : negotiation) :
  fault srv k = None -> In r tbl -> where_ r = true ->
  dealer_id r = u -> seller_id r <> u ->
  st = accepted \/ st = rejected ->
  update rls_policies srv k (Some u) (mkPatch None None (Some st)) where_ tbl
  = Err rls_violation.
Proof.
  intros F Hin Hw Hd Hs Hp. unfold update. rewrite F, to_columns_status.
  match goal with |- context [forallb ?f tbl] =>
    rewrite (forallb_false_of f tbl r Hin); [reflexivity|] end.
  assert (update_target rls_policies (Some u) where_ r = true) as ->.
  { unfold update_target. rewrite Hw, andb_true_r. apply andb_true_iff. split.
    - apply PolicyFacts.rls_select_using. auto.
    - apply PolicyFacts.rls_update_using. auto. }
  cbn [negb orb]. unfold update_check, rls_policies, is_dealer, is_seller. simpl.
  assert (String.eqb u (seller_id r) = false) as ->.
  { apply String.eqb_neq. congruence. }
  destruct Hp as [-> | ->]; simpl; rewrite ?andb_false_r; reflexivity.
Qed.

(** X1: Under rls_policies.sql a buyer who is not the seller of the negotiation
    cannot answer a counter offer: the update that sets 'accepted' or
    'rejected' is refused with code 42501, so the dialog's Accept or Decline
    leaves the table as it is, keeps the dialog as it was and shows the
    error toast. *)
Theorem buyer_answer_refused_by_rls_policies (srv : Remote) (u : uuid)
    (st : NegotiationStatus) (ok : Toast) (fb : string) (tbl : table)
    (s : NegotiationDialog.State) (n r : negotiation) :
  fault srv 0%nat = None ->
  NegotiationDialog.existingNegotiation s = Some n ->
  In r tbl -> id r = id n -> dealer_id r = u -> seller_id r <> u ->
  st = accepted \/ st = rejected ->
  update rls_policies srv 0%nat (Some u) (mkPatch None None (Some st))
    (eq_id (id n)) tbl = Err rls_violation
  /\ fst (NegotiationDialog.answer_counter rls_policies srv (Some u) st ok fb (tbl, s)) = tbl
  /\ NegotiationDialog.open
       (snd (NegotiationDialog.answer_counter rls_policies srv (Some u) st ok fb (tbl, s)))
     = NegotiationDialog.open s
  /\ NegotiationDialog.toasts
       (snd (NegotiationDialog.answer_counter rls_policies srv (Some u) st ok fb (tbl, s)))
     = (NegotiationDialog.toasts s
        ++ [mkToast "Error" (message rls_violation) true])%list.
Proof.
  intros F Hn Hin Hid Hd Hs Hst.
  assert (update rls_policies srv 0%nat (Some u)
            (mkPatch None None (Some st)) (eq_id (id n)) tbl
          = Err rls_violation) as Hup.
  { apply (dealer_update_refused srv 0%nat u st _ tbl r); auto.
    unfold eq_id. rewrite Hid. apply String.eqb_refl. }
  split; [exact Hup|].
  unfold NegotiationDialog.answer_counter. rewrite Hn, Hup. simpl.
  repeat split.
Qed.

Lemma buyer_answer_refused_example :
  update rls_policies Scenario.quiet 0%nat (Some "dealer-1")
    (mkPatch None None (Some accepted)) (eq_id "n1") [Scenario.offer_1]
  = Err rls_violation
  /\ fst (NegotiationDialog.answer_counter rls_policies Scenario.quiet (Some "dealer-1")
            accepted (mkToast "ok" "ok" false) "failed"
            ([Scenario.offer_1],
             NegotiationDialog.setExistingNegotiation (Some Scenario.offer_1)
               (NegotiationDialog.initial 100))) = [Scenario.offer_1]
  /\ NegotiationDialog.open
       (snd (NegotiationDialog.answer_counter rls_policies Scenario.quiet (Some "dealer-1")
               accepted (mkToast "ok" "ok" false) "failed"
               ([Scenario.offer_1],
                NegotiationDialog.setExistingNegotiation (Some Scenario.offer_1)
                  (NegotiationDialog.initial 100))))
     = NegotiationDialog.open
         (NegotiationDialog.setExistingNegotiation (Some Scenario.offer_1)
            (NegotiationDialog.initial 100))
  /\ NegotiationDialog.toasts
       (snd (NegotiationDialog.answer_counter rls_policies Scenario.quiet (Some "dealer-1")
               accepted (mkToast "ok" "ok" false) "failed"
               ([Scenario.offer_1],
                NegotiationDialog.setExistingNegotiation (Some Scenario.offer_1)
                  (NegotiationDialog.initial 100))))
     = (NegotiationDialog.toasts
          (NegotiationDialog.setExistingNegotiation (Some Scenario.offer_1)
             (NegotiationDialog.initial 100))
        ++ [mkToast "Error" (message rls_violation) true])%list.
Proof.
  apply (buyer_answer_refused_by_rls_policies Scenario.quiet "dealer-1" accepted
           (mkToast "ok" "ok" false) "failed" [Scenario.offer_1] _
           Scenario.offer_1 Scenario.offer_1).
  - reflexivity.
  - reflexivity.
  - left. reflexivity.
  - reflexivity.
  - reflexivity.
  - discriminate.
  - left. reflexivity.
Defined.

Lemma fix_negotiations_check (srv : Remote) (a : option uuid)
    (columns : Patch numeric_10_2) (where_ : negotiation -> bool) (tbl : table) :
  forallb (fun r => negb (update_target fix_negotiations_policies a where_ r)
                    || update_check fix_negotiations_policies a
                         (update_modified_column (now srv) (apply_patch columns r))) tbl
  = true.
Proof.
  apply forallb_forall. intros r _.
  destruct (update_target fix_negotiations_policies a where_ r) eqn:T; [|reflexivity].
  cbn [negb orb]. unfold update_target in T. rewrite !andb_true_iff in T.
  destruct T as [[_ Hu] _].
  unfold update_using, update_check, fix_negotiations_policies in *.
  unfold is_dealer, is_seller in *. simpl in *. exact Hu.
Qed.

Lemma fix_negotiations_update (srv : Remote) (k : nat) (a : option uuid)
    (p : Patch Q) (columns : Patch numeric_10_2) (where_ : negotiation -> bool)
    (tbl : table) :
  fault srv k = None -> to_columns p = Ok columns ->
  update fix_negotiations_policies srv k a p where_ tbl
  = Ok (update_where (update_target fix_negotiations_policies a where_)
          (written srv columns) tbl).
Proof.
  intros F Hc. unfold update. now rewrite F, Hc, fix_negotiations_check.
Qed.

(** X2: Under fix_negotiations.sql no update the client sends is refused by a
    policy: a patch keeps dealer and seller, and each of the two UPDATE
    policies checks on the new row what it required of the old one.  Once
    the amounts of the request fit their columns NUMERIC(10, 2), the rows
    the caller may touch are written with the amounts as the columns hold
    them, and the other rows are skipped without an error. *)
Theorem fix_negotiations_never_refuses_a_patch (srv : Remote) (k : nat)
    (a : option uuid) (p : Patch Q) (columns : Patch numeric_10_2)
    (where_ : negotiation -> bool) (tbl : table) :
  fault srv k = None ->
  to_columns p = Ok columns ->
  update fix_negotiations_policies srv k a p where_ tbl
  = Ok (update_where (update_target fix_negotiations_policies a where_)
          (written srv columns) tbl)
  /\ (forall q v, set_counter_offer p = Some q -> set_counter_offer columns = Some v ->
                  (Qabs (value v - q) <= 1 # 200)%Q)
  /\ (forall q v, set_initial_offer p = Some q -> set_initial_offer columns = Some v ->
                  (Qabs (value v - q) <= 1 # 200)%Q).
Proof.
  intros F Hc. split; [|split].
  - unfold update. rewrite F, Hc.
    rewrite (fix_negotiations_check srv a columns where_ tbl). reflexivity.
  - intros q v Hq Hv. apply to_numeric_close.
    unfold to_columns in Hc. rewrite Hq in Hc.
    destruct (to_numeric_opt (set_initial_offer p)); [|discriminate].
    simpl in Hc. destruct (to_numeric q) as [v'|]; [|discriminate].
    inversion Hc; subst columns. simpl in Hv. congruence.
  - intros q v Hq Hv. apply to_numeric_close.
    unfold to_columns in Hc. rewrite Hq in Hc. simpl in Hc.
    destruct (to_numeric q) as [v'|]; [|discriminate].
    destruct (to_numeric_opt (set_counter_offer p)); [|discriminate].
    inversion Hc; subst columns. simpl in Hv. congruence.
Qed.

Lemma fix_negotiations_never_refuses_example :
  update fix_negotiations_policies Scenario.quiet 0%nat (Some "seller-1")
    (mkPatch None (Some (12345 # 1000)) (Some countered)) (eq_id "n1") [Scenario.offer_1]
  = Ok (update_where
          (update_target fix_negotiations_policies (Some "seller-1") (eq_id "n1"))
          (written Scenario.quiet
             (mkPatch None (Some (mkNumeric 1235 eq_refl)) (Some countered)))
          [Scenario.offer_1])
  /\ (forall q v,
        set_counter_offer (mkPatch None (Some (12345 # 1000)) (Some countered)) = Some q ->
        set_counter_offer (mkPatch None (Some (mkNumeric 1235 eq_refl)) (Some countered))
        = Some v ->
        (Qabs (value v - q) <= 1 # 200)%Q)
  /\ (forall q v,
        set_initial_offer (mkPatch None (Some (12345 # 1000)) (Some countered)) = Some q ->
        set_initial_offer (mkPatch None (Some (mkNumeric 1235 eq_refl)) (Some countered))
        = Some v ->
        (Qabs (value v - q) <= 1 # 200)%Q).
Proof.
  apply (fix_negotiations_never_refuses_a_patch Scenario.quiet 0%nat (Some "seller-1")
           (mkPatch None (Some (12345 # 1000)) (Some countered))
           (mkPatch None (Some (mkNumeric 1235 eq_refl)) (Some countered))
           (eq_id "n1") [Scenario.offer_1]).
  - reflexivity.
  - reflexivity.
Defined.

(** X3: [insert_negotiation] runs as its owner: with a free id, an existing
    listing, a dealer and a seller that exist in auth.users and an offer
    that fits the column NUMERIC(10, 2), it appends a 'pending' row for the
    dealer id it is handed, whichever authenticated user calls it, holding
    the offer as the column holds it; the same row sent through the table by
    a user who is not that dealer is refused by the insert policy. *)
Theorem insert_negotiation_bypasses_insert_policy (srv : Remote) (k : nat)
    (caller : uuid) (refs : References) (l d s : uuid) (q : Q)
    (v : numeric_10_2) (tbl : table) :
  fault srv k = None ->
  existsb (fun x => String.eqb (id x) (gen_random_uuid srv)) tbl = false ->
  In l (listing_ids refs) -> In d (user_ids refs) -> In s (user_ids refs) ->
  to_numeric q = Ok v ->
  insert_negotiation srv k (Some caller) refs l d q s tbl
  = Ok (tbl ++ [mkNegotiation (gen_random_uuid srv) l d s v None pending
                  (now srv) (now srv)])%list
  /\ (Qabs (value v - q) <= 1 # 200)%Q
  /\ forall u, u <> d ->
       insert rls_policies srv k (Some u) refs (mkInsert l d s q pending) tbl
       = Err rls_violation.
Proof.
  intros F Hfresh Hl Hd Hs Hv. split; [|split].
  - unfold insert_negotiation, to_insert_columns. rewrite F.
    cbn [new_initial_offer new_listing_id new_dealer_id new_seller_id new_status].
    rewrite Hv. rewrite constraints_None; auto.
  - now apply to_numeric_close.
  - intros u Hu. unfold insert, to_insert_columns. rewrite F.
    cbn [new_initial_offer new_listing_id new_dealer_id new_seller_id new_status].
    rewrite Hv.
    destruct (insert_check rls_policies (Some u) (new_row srv (mkInsert l d s v pending)))
      eqn:E; [|reflexivity].
    apply PolicyFacts.rls_insert_check in E. simpl in E. congruence.
Qed.

Lemma insert_negotiation_bypasses_example :
  insert_negotiation Scenario.quiet 0%nat (Some "seller-1")
    (mkReferences ["listing-1"] ["dealer-1"; "seller-1"]) "listing-1" "dealer-1"
    (12345 # 1000) "seller-1" []
  = Ok ([] ++ [mkNegotiation (gen_random_uuid Scenario.quiet) "listing-1" "dealer-1"
                 "seller-1" (mkNumeric 1235 eq_refl) None pending
                 (now Scenario.quiet) (now Scenario.quiet)])%list
  /\ (Qabs (value (mkNumeric 1235 eq_refl) - (12345 # 1000)) <= 1 # 200)%Q
  /\ forall u, u <> "dealer-1" ->
       insert rls_policies Scenario.quiet 0%nat (Some u)
         (mkReferences ["listing-1"] ["dealer-1"; "seller-1"])
         (mkInsert "listing-1" "dealer-1" "seller-1" (12345 # 1000) pending) []
       = Err rls_violation.
Proof.
  apply (insert_negotiation_bypasses_insert_policy Scenario.quiet 0%nat "seller-1"
           (mkReferences ["listing-1"] ["dealer-1"; "seller-1"])
           "listing-1" "dealer-1" "seller-1" (12345 # 1000) (mkNumeric 1235 eq_refl) []).
  - reflexivity.
  - reflexivity.
  - left. reflexivity.
  - left. reflexivity.
  - right. left. reflexivity.
  - reflexivity.
Defined.

End PolicyExtras.

(** ** What no sequence of actions does to the table *)

Module WorkflowInvariants.
Import Negotiation NegotiationFacts Workflow WorkflowFacts Keys.








Lemma Forall2_same_ids (t t' : Negotiation.table) :
  Forall2 (fun r r' => id r' = id r) t t' -> map id t' = map id t.
Proof. induction 1; simpl; congruence. Qed.

Lemma existsb_id_false (i : uuid) (tbl : Negotiation.table) :
  existsb (fun x => String.eqb (id x) i) tbl = false -> ~ In i (map id tbl).
Proof.
  intros E Hin. apply in_map_iff in Hin. destruct Hin as [x [Hx Hin]].
  assert (existsb (fun x => String.eqb (id x) i) tbl = true) as T.
  { apply existsb_exists. exists x. split; [exact Hin|]. rewrite Hx. apply String.eqb_refl. }
  congruence.
Qed.

(** The ids of the table after a submission: the same, or one unused id more. *)
Lemma handleSubmit_ids (pols : list policy) (rpc : bool) (srv : Remote)
    (user : option uuid) (listingId : uuid) (ls : list Listing.scrap_listing)
    (us : list uuid) (tbl : Negotiation.table) (s : NegotiationDialog.State) :
  let out :=
    fst (NegotiationDialog.handleSubmit pols rpc srv user listingId ls us (tbl, s)) in
  map id out = map id tbl
  \/ (map id out = (map id tbl ++ [gen_random_uuid srv])%list
      /\ ~ In (gen_random_uuid srv) (map id tbl)).
Proof.
  pose proof (handleSubmit_table pols rpc srv user listingId ls us tbl s) as H.
  cbv zeta in *. destruct H as [H|[H|H]].
  - left. now rewrite H.
  - destruct H as [u [seller [v [_ [_ [Hf ->]]]]]].
    right. rewrite map_app. split; [reflexivity|now apply existsb_id_false].
  - destruct H as [u [l [e [tbl' [_ [_ [_ [_ [Hup ->]]]]]]]]].
    left. apply Forall2_same_ids. apply update_rows in Hup.
    destruct Hup as [columns [_ Hup]]. revert Hup.
    apply Forall2_weaken. intros r r' [->|[_ ->]]; reflexivity.
Qed.

Lemma run_ids (c : Config) (srv : Remote) (a : Action) (w : World) :
  map id (table (run c srv a w)) = map id (table w)
  \/ (map id (table (run c srv a w)) = (map id (table w) ++ [gen_random_uuid srv])%list
      /\ ~ In (gen_random_uuid srv) (map id (table w))).
Proof.
  assert (a = SubmitOffer \/ a <> SubmitOffer) as [->|Ha]
    by (destruct a; auto; right; discriminate).
  - unfold run. destruct (enabled SubmitOffer w); [|left; reflexivity].
    unfold perform, with_dialog. cbn [table]. apply handleSubmit_ids.
  - left. destruct (run_changes c srv a w) as [kept [added [E [F Ap]]]].
    destruct Ap as [->|[Hs _]]; [|contradiction].
    rewrite E, app_nil_r. apply Forall2_same_ids. revert F. apply Forall2_weaken.
    intros r r' [->|H]; [reflexivity|]. eapply row_effect_id; eauto.
Qed.

Lemma NoDup_snoc {A : Type} (l : list A) (x : A) :
  NoDup l -> ~ In x l -> NoDup (l ++ [x]).
Proof.
  intros Hl Hx. apply NoDup_app; [exact Hl|repeat constructor; simpl; tauto|].
  intros y Hy [<-|[]]. contradiction.
Qed.



(** X5: The primary key is an invariant of the workflow although the client
    never checks it: if the ids of the table are distinct, they are distinct
    after any sequence of actions, and one action adds at most one row. *)
Theorem ids_stay_distinct (c : Config) (w0 w : World) :
  NoDup (map id (table w0)) ->
  reachable c w0 w ->
  NoDup (map id (table w))
  /\ forall srv a,
       (List.length (table (run c srv a w)) <= S (List.length (table w)))%nat.
Proof.
  intros H0 H. split.
  - induction H as [|w w' _ IH [srv [a ->]]]; [exact H0|].
    destruct (run_ids c srv a w) as [->|[-> Hf]]; [exact IH|].
    apply NoDup_snoc; assumption.
  - intros srv a.
    rewrite <- (length_map id (table (run c srv a w))), <- (length_map id (table w)).
    destruct (run_ids c srv a w) as [->|[-> _]]; [lia|].
    rewrite length_app. simpl. lia.
Qed.

Lemma ids_stay_distinct_example :
  NoDup (map id (table (run_trace Scenario.shop Scenario.offer_accepted (start 100 []))))
  /\ forall srv a,
       (List.length (table (run Scenario.shop srv a
                              (run_trace Scenario.shop Scenario.offer_accepted
                                 (start 100 []))))
        <= S (List.length (table (run_trace Scenario.shop Scenario.offer_accepted
                                    (start 100 [])))))%nat.
Proof.
  apply (ids_stay_distinct Scenario.shop (start 100 [])
           (run_trace Scenario.shop Scenario.offer_accepted (start 100 []))).
  - constructor.
  - apply run_trace_reachable. apply reach_here.
Defined.

End WorkflowInvariants.

(** ** Ordered results *)

Section SortFacts.
Context {A : Type} (key : A -> Z).

Lemma insert_desc_Permutation (x : A) (l : list A) :
  Permutation (x :: l) (insert_desc key x l).
Proof.
  induction l as [|y t IH]; simpl; [reflexivity|].
  destruct (Z.ltb (key y) (key x)); [reflexivity|].
  rewrite perm_swap. now constructor.
Qed.

Lemma order_desc_Permutation (l : list A) : Permutation l (order_desc key l).
Proof.
  unfold order_desc. induction l as [|x l IH]; simpl; [constructor|].
  rewrite <- insert_desc_Permutation. now constructor.
Qed.

Lemma insert_desc_sorted (x : A) (l : list A) :
  StronglySorted (newest_first key) l -> StronglySorted (newest_first key) (insert_desc key x l).
Proof.
  induction 1 as [|y t Hs IH Hall]; simpl.
  - repeat constructor.
  - destruct (Z.ltb (key y) (key x)) eqn:E.
    + apply Z.ltb_lt in E. constructor; [constructor; assumption|].
      constructor; [unfold newest_first; lia|].
      rewrite Forall_forall in Hall |- *. intros z Hz. specialize (Hall z Hz).
      unfold newest_first in *. lia.
    + apply Z.ltb_ge in E. constructor; [exact IH|].
      rewrite Forall_forall in Hall |- *. intros z Hz.
      apply In_insert_desc in Hz. destruct Hz as [->|Hz]; [exact E|auto].
Qed.

Lemma order_desc_sorted (l : list A) : StronglySorted (newest_first key) (order_desc key l).
Proof.
  unfold order_desc. induction l as [|x l IH]; simpl; [constructor|].
  now apply insert_desc_sorted.
Qed.

End SortFacts.

Lemma filter_keeps_distinct_keys {Row Key : Type} (key : Row -> Key) (keep : Row -> bool) :
  forall rows, NoDup (map key rows) -> NoDup (map key (filter keep rows)).
Proof.
  intros rows. induction rows as [|r rows IH]; simpl; intro H; [constructor|].
  apply NoDup_cons_iff in H. destruct H as [Hnew Hrest].
  destruct (keep r); simpl; [|now apply IH].
  apply NoDup_cons_iff. split; [|now apply IH].
  intro Hin. apply Hnew. apply in_map_iff in Hin. destruct Hin as [y [E Hy]].
  apply filter_In in Hy. apply in_map_iff. exists y. tauto.
Qed.

Lemma hd_error_order_desc_of {A : Type} (key : A -> Z) (l : list A) (x : A) :
  In x l -> exists n, hd_error (order_desc key l) = Some n.
Proof.
  intro H. destruct (order_desc key l) as [|n t] eqn:E.
  - apply order_desc_nil in E. subst. destruct H.
  - exists n. reflexivity.
Qed.

(** ** The offer dialog *)

Module DialogFacts.
Import Negotiation NegotiationFacts NegotiationDialog.

(** X6: Opening the dialog loads the newest negotiation of the (listing, user)
    pair among the rows the policies show the user, or none when there is
    no such row; a failed read leaves the previous value and shows nothing;
    in every case the check ends. *)
Theorem checkExistingNegotiation_loads_latest (pols : list policy) (srv : Remote)
    (u listingId : uuid) (tbl : table) (s : State) :
  (fault srv 0%nat = None ->
   match existingNegotiation (checkExistingNegotiation pols srv (Some u) listingId tbl s) with
   | Some n =>
       In n tbl /\ select_using pols (Some u) n = true
       /\ listing_id n = listingId /\ dealer_id n = u
       /\ forall r, In r tbl -> select_using pols (Some u) r = true ->
                    eq_pair listingId u r = true ->
                    (created_at r <= created_at n)%Z
   | None =>
       forall r, In r tbl -> select_using pols (Some u) r && eq_pair listingId u r = false
   end)
  /\ (forall e, fault srv 0%nat = Some e ->
        existingNegotiation (checkExistingNegotiation pols srv (Some u) listingId tbl s)
        = existingNegotiation s
        /\ toasts (checkExistingNegotiation pols srv (Some u) listingId tbl s) = toasts s)
  /\ checkingExisting (checkExistingNegotiation pols srv (Some u) listingId tbl s) = false.
Proof.
  unfold checkExistingNegotiation, select. split; [|split].
  - intro F. rewrite F. cbn [existingNegotiation setCheckingExisting setExistingNegotiation].
    destruct (hd_error (order_desc created_at
                (filter (fun r => select_using pols (Some u) r && eq_pair listingId u r) tbl)))
      as [n|] eqn:H.
    + apply hd_order_desc_max in H. destruct H as [Hin Hmax].
      apply filter_In in Hin. destruct Hin as [Hin Hn].
      apply andb_true_iff in Hn. destruct Hn as [Hv Hp].
      unfold eq_pair in Hp. apply andb_true_iff in Hp. destruct Hp as [Hl Hd].
      apply String.eqb_eq in Hl, Hd.
      repeat split; auto. intros r Hr Hrv Hrp. apply Hmax. apply filter_In.
      split; [exact Hr|]. now rewrite Hrv, Hrp.
    + intros r Hr.
      destruct (select_using pols (Some u) r && eq_pair listingId u r) eqn:E; [|reflexivity].
      destruct (hd_error_order_desc_of created_at
                  (filter (fun r => select_using pols (Some u) r && eq_pair listingId u r) tbl)
                  r) as [n Hn]; [|congruence].
      apply filter_In. auto.
  - intros e F. rewrite F. split; reflexivity.
  - destruct (fault srv 0%nat); reflexivity.
Qed.

(** X7: A submission either reports "Offer Sent" and closes the dialog, or it
    writes nothing: the table is as before, the dialog stays as it was (open
    or not, same offer, same loaded negotiation) and one destructive toast
    is shown.  This covers the sign-in and amount guards and every failing
    remote call. *)
Theorem handleSubmit_all_or_nothing (pols : list policy) (rpc : bool) (srv : Remote)
    (user : option uuid) (listingId : uuid) (ls : list Listing.scrap_listing)
    (us : list uuid) (tbl : table) (s : State) :
  let out := handleSubmit pols rpc srv user listingId ls us (tbl, s) in
  (open (snd out) = false
   /\ loading (snd out) = false
   /\ exists d, toasts (snd out) = (toasts s ++ [mkToast "Offer Sent" d false])%list)
  \/ (fst out = tbl
      /\ open (snd out) = open s
      /\ initialOffer (snd out) = initialOffer s
      /\ existingNegotiation (snd out) = existingNegotiation s
      /\ exists t, toasts (snd out) = (toasts s ++ [t])%list /\ destructive t = true).
Proof.
  cbv zeta. unfold handleSubmit.
  destruct user as [u|]; [|right; simpl; eauto 10].
  destruct (Qle_bool (initialOffer s) 0); [right; simpl; eauto 10|].
  destruct (verify_listing srv listingId ls) as [l|?] eqn:V; [|right; simpl; eauto 10].
  destruct (fault srv 1%nat); [right; simpl; eauto 10|].
  destruct (insert pols srv 2%nat (Some u) _ _ tbl) as [tbl'|e] eqn:I.
  - left. simpl. eauto.
  - destruct (String.eqb (code e) "23503"); [right; simpl; eauto 10|].
    destruct (String.eqb (code e) "23505").
    + destruct (update pols srv 3%nat (Some u) _ (eq_pair listingId u) tbl)
        as [tbl'|e'] eqn:U.
      * left. simpl. eauto.
      * right. simpl. eauto 10.
    + destruct rpc; [|right; simpl; eauto 10].
      destruct (insert_negotiation srv 3%nat _ _ listingId u _ _ tbl) as [tbl'|?] eqn:R.
      * left. simpl. eauto.
      * right. simpl. eauto 10.
Qed.

End DialogFacts.

(** ** The seller's manager *)

Module ManagerExtras.
Import Numeric NumericFacts Negotiation NegotiationFacts NegotiationsManager.

Lemma offerDefaults_other (data : list negotiation) (acc : uuid -> option Q) (i : uuid) :
  ~ In i (map id data) ->
  fold_left (fun acc n => fun j => if String.eqb j (id n)
                                   then Some (value (initial_offer n)) else acc j)
    data acc i = acc i.
Proof.
  revert acc. induction data as [|x t IH]; intros acc H; simpl; [reflexivity|].
  rewrite IH; [|intro Hi; apply H; now right].
  destruct (String.eqb i (id x)) eqn:E; [|reflexivity].
  apply String.eqb_eq in E. exfalso. apply H. left. congruence.
Qed.

Lemma offerDefaults_fold (data : list negotiation) (acc : uuid -> option Q)
    (r : negotiation) :
  NoDup (map id data) -> In r data ->
  fold_left (fun acc n => fun j => if String.eqb j (id n)
                                   then Some (value (initial_offer n)) else acc j)
    data acc (id r) = Some (value (initial_offer r)).
Proof.
  revert acc. induction data as [|x t IH]; intros acc Hd Hin; [destruct Hin|].
  simpl in Hd. inversion Hd as [|? ? Hn Hd']; subst. simpl.
  destruct Hin as [->|Hin]; [|now apply IH].
  rewrite offerDefaults_other by exact Hn. now rewrite String.eqb_refl.
Qed.

Lemma offerDefaults_In (data : list negotiation) (r : negotiation) :
  NoDup (map id data) -> In r data ->
  offerDefaults data (id r) = Some (value (initial_offer r)).
Proof. unfold offerDefaults. apply offerDefaults_fold. Qed.

(** What a fetch that went through leaves in the state. *)
Lemma fetched (pols : list policy) (srv : Remote) (u : uuid) (listingId : option uuid)
    (tbl : table) (s : State) :
  fault srv 0%nat = None -> fault srv 1%nat = None ->
  negotiations (fetchNegotiations pols srv (Some u) listingId tbl s)
  = order_desc created_at
      (filter (fun r => select_using pols (Some u) r && fetch_filter u listingId r) tbl)
  /\ error (fetchNegotiations pols srv (Some u) listingId tbl s) = None
  /\ toasts (fetchNegotiations pols srv (Some u) listingId tbl s) = toasts s
  /\ forall r, In r (negotiations (fetchNegotiations pols srv (Some u) listingId tbl s)) ->
               counterOffer (fetchNegotiations pols srv (Some u) listingId tbl s) (id r)
               = offerDefaults
                   (negotiations (fetchNegotiations pols srv (Some u) listingId tbl s)) (id r).
Proof.
  intros F0 F1. unfold fetchNegotiations, select. rewrite F0, F1.
  destruct (order_desc created_at _) as [|n t] eqn:E; simpl; repeat split; auto.
  intros r [].
Qed.

Lemma fetched_In (pols : list policy) (srv : Remote) (u : uuid) (listingId : option uuid)
    (tbl : table) (s : State) (r : negotiation) :
  fault srv 0%nat = None -> fault srv 1%nat = None ->
  (In r (negotiations (fetchNegotiations pols srv (Some u) listingId tbl s))
   <-> In r tbl /\ select_using pols (Some u) r = true
       /\ fetch_filter u listingId r = true).
Proof.
  intros F0 F1. destruct (fetched pols srv u listingId tbl s F0 F1) as [-> _].
  rewrite In_order_desc, filter_In, andb_true_iff. tauto.
Qed.

Lemma fetched_NoDup (pols : list policy) (srv : Remote) (u : uuid)
    (listingId : option uuid) (tbl : table) (s : State) :
  fault srv 0%nat = None -> fault srv 1%nat = None ->
  NoDup (map id tbl) ->
  NoDup (map id (negotiations (fetchNegotiations pols srv (Some u) listingId tbl s))).
Proof.
  intros F0 F1 H. destruct (fetched pols srv u listingId tbl s F0 F1) as [-> _].
  eapply Permutation_NoDup.
  - apply Permutation_map. apply order_desc_Permutation.
  - now apply filter_keeps_distinct_keys.
Qed.

Lemma positive_amount (q : Q) : (0 < q)%Q -> valid_amount (Some q) = Some q.
Proof.
  intro H. unfold valid_amount. destruct (Qle_bool q 0) eqn:E; [|reflexivity].
  apply Qle_bool_iff in E. exfalso. exact (Qlt_not_le _ _ H E).
Qed.

Lemma card_shown_of (i : uuid) (s : State) (r : negotiation) :
  error s = None -> In r (negotiations s) -> id r = i -> card_shown i s = true.
Proof.
  intros He Hin Hi. unfold card_shown. rewrite He. apply existsb_exists.
  exists r. split; [exact Hin|]. unfold eq_id. rewrite Hi. apply String.eqb_refl.
Qed.

(** X8: A fetch that goes through lists exactly the rows of the table that the
    policies show the user and that the query asks for: with a listing id
    the negotiations of that listing in every status, without one the
    user's own pending negotiations.  The list is ordered newest first, the
    error panel is cleared and no toast is shown. *)
Theorem fetchNegotiations_lists_the_visible_rows (pols : list policy) (srv : Remote)
    (u : uuid) (listingId : option uuid) (tbl : table) (s : State) :
  fault srv 0%nat = None -> fault srv 1%nat = None ->
  (forall r, In r (negotiations (fetchNegotiations pols srv (Some u) listingId tbl s))
             <-> In r tbl /\ select_using pols (Some u) r = true
                 /\ match listingId with
                    | Some l => listing_id r = l
                    | None => (dealer_id r = u \/ seller_id r = u) /\ status r = pending
                    end)
  /\ StronglySorted (newest_first created_at)
       (negotiations (fetchNegotiations pols srv (Some u) listingId tbl s))
  /\ error (fetchNegotiations pols srv (Some u) listingId tbl s) = None
  /\ toasts (fetchNegotiations pols srv (Some u) listingId tbl s) = toasts s.
Proof.
  intros F0 F1. split; [|split].
  - intro r. rewrite (fetched_In pols srv u listingId tbl s r F0 F1).
    assert (fetch_filter u listingId r = true
            <-> match listingId with
                | Some l => listing_id r = l
                | None => (dealer_id r = u \/ seller_id r = u) /\ status r = pending
                end) as ->; [|tauto].
    unfold fetch_filter. destruct listingId as [l|].
    + apply String.eqb_eq.
    + rewrite andb_true_iff, orb_true_iff, !String.eqb_eq.
      split; intros [H1 H2]; split; auto.
      * now apply status_eqb_true.
      * rewrite H2. reflexivity.
  - destruct (fetched pols srv u listingId tbl s F0 F1) as [-> _].
    apply order_desc_sorted.
  - destruct (fetched pols srv u listingId tbl s F0 F1) as [_ [He [Ht _]]]. auto.
Qed.

Lemma fetchNegotiations_lists_example :
  (forall r, In r (negotiations (fetchNegotiations rls_policies Scenario.quiet
                                   (Some "seller-1") (Some "listing-1")
                                   [Scenario.offer_1] Scenario.manager_of_dealer))
             <-> In r [Scenario.offer_1]
                 /\ select_using rls_policies (Some "seller-1") r = true
                 /\ listing_id r = "listing-1")
  /\ StronglySorted (newest_first created_at)
       (negotiations (fetchNegotiations rls_policies Scenario.quiet (Some "seller-1")
                        (Some "listing-1") [Scenario.offer_1] Scenario.manager_of_dealer))
  /\ error (fetchNegotiations rls_policies Scenario.quiet (Some "seller-1")
              (Some "listing-1") [Scenario.offer_1] Scenario.manager_of_dealer) = None
  /\ toasts (fetchNegotiations rls_policies Scenario.quiet (Some "seller-1")
               (Some "listing-1") [Scenario.offer_1] Scenario.manager_of_dealer)
     = toasts Scenario.manager_of_dealer.
Proof.
  apply (fetchNegotiations_lists_the_visible_rows rls_policies Scenario.quiet "seller-1"
           (Some "listing-1") [Scenario.offer_1] Scenario.manager_of_dealer).
  - reflexivity.
  - reflexivity.
Defined.

(** X9: When the access check or the query of a fetch fails, the list keeps the
    rows of the previous fetch, the error panel replaces the cards, and so
    no accept, reject or counter button is left to press. *)
Theorem failed_fetch_hides_every_card (pols : list policy) (srv : Remote) (u : uuid)
    (listingId : option uuid) (tbl : table) (s : State) (e : PostgrestError) :
  fault srv 0%nat = Some e \/ (fault srv 0%nat = None /\ fault srv 1%nat = Some e) ->
  negotiations (fetchNegotiations pols srv (Some u) listingId tbl s) = negotiations s
  /\ (exists msg, error (fetchNegotiations pols srv (Some u) listingId tbl s) = Some msg
                  /\ msg <> "")
  /\ forall i, card_shown i (fetchNegotiations pols srv (Some u) listingId tbl s) = false.
Proof.
  intros [F|[F0 F1]]; unfold fetchNegotiations, select, card_shown.
  - rewrite F. simpl. split; [reflexivity|]. split; [|reflexivity].
    eexists. split; [reflexivity|]. unfold or_default.
    destruct (String.eqb (table_error_message e) "") eqn:E; [discriminate|].
    now apply String.eqb_neq.
  - rewrite F0, F1. simpl. split; [reflexivity|]. split; [|reflexivity].
    eexists. split; [reflexivity|discriminate].
Qed.

Lemma failed_fetch_example :
  negotiations (fetchNegotiations rls_policies (Scenario.offline 30) (Some "dealer-1") None
                  [Scenario.offer_1] Scenario.manager_of_dealer)
  = negotiations Scenario.manager_of_dealer
  /\ (exists msg, error (fetchNegotiations rls_policies (Scenario.offline 30)
                           (Some "dealer-1") None [Scenario.offer_1]
                           Scenario.manager_of_dealer) = Some msg
                  /\ msg <> "")
  /\ forall i, card_shown i (fetchNegotiations rls_policies (Scenario.offline 30)
                               (Some "dealer-1") None [Scenario.offer_1]
                               Scenario.manager_of_dealer) = false.
Proof.
  apply (failed_fetch_hides_every_card rls_policies (Scenario.offline 30) "dealer-1" None
           [Scenario.offer_1] Scenario.manager_of_dealer (mkError "" "Failed to fetch")).
  left. reflexivity.
Defined.

(** X10: The counter-offer field of a freshly loaded card holds the buyer's own
    offer: a seller who presses Counter without typing an amount sends the
    buyer's offer back as the counter offer, and the negotiation becomes
    'countered' at that amount. *)
Theorem counter_defaults_to_the_buyers_offer (srv0 srv : Remote) (u l : uuid)
    (tbl : table) (s : State) (r : negotiation) :
  NoDup (map id tbl) ->
  fault srv0 0%nat = None -> fault srv0 1%nat = None -> fault srv 0%nat = None ->
  In r tbl -> seller_id r = u -> listing_id r = l -> (0 < initial_offer r)%Q ->
  counterOffer (fetchNegotiations rls_policies srv0 (Some u) (Some l) tbl s) (id r)
  = Some (value (initial_offer r))
  /\ In (written srv (counter_patch (initial_offer r)) r)
        (fst (handleCounterOffer rls_policies srv (Some u) (id r)
                (tbl, fetchNegotiations rls_policies srv0 (Some u) (Some l) tbl s))).
Proof.
  intros Hd F0 F1 F Hin Hs Hl Hpos.
  assert (In r (negotiations (fetchNegotiations rls_policies srv0 (Some u) (Some l) tbl s)))
    as Hr.
  { apply fetched_In; auto. split; [exact Hin|]. split.
    - apply PolicyFacts.rls_select_using. auto.
    - simpl. rewrite Hl. apply String.eqb_refl. }
  assert (counterOffer (fetchNegotiations rls_policies srv0 (Some u) (Some l) tbl s) (id r)
          = Some (value (initial_offer r))) as Hc.
  { destruct (fetched rls_policies srv0 u (Some l) tbl s F0 F1) as [_ [_ [_ Hco]]].
    rewrite (Hco r Hr). apply offerDefaults_In; [|exact Hr].
    now apply fetched_NoDup. }
  split; [exact Hc|].
  unfold handleCounterOffer. cbn [setProcessingId counterOffer].
  rewrite Hc, (positive_amount _ Hpos).
  assert (to_columns (counter_patch (value (initial_offer r)))
          = Ok (counter_patch (initial_offer r))) as Hcol.
  { unfold to_columns, counter_patch. simpl. now rewrite to_numeric_value. }
  destruct (WorkflowFacts.seller_update_applies srv
              (counter_patch (value (initial_offer r))) (counter_patch (initial_offer r))
              tbl r Hcol F Hd Hin) as [tbl' [Hup Hw]].
  rewrite Hs in Hup. rewrite Hup. simpl. exact Hw.
Qed.

Lemma counter_defaults_example :
  counterOffer (fetchNegotiations rls_policies Scenario.quiet (Some "seller-1")
                  (Some "listing-1") [Scenario.offer_1] Scenario.manager_of_dealer) "n1"
  = Some (value Scenario.ninety)
  /\ In (written Scenario.quiet (counter_patch Scenario.ninety) Scenario.offer_1)
        (fst (handleCounterOffer rls_policies Scenario.quiet (Some "seller-1") "n1"
                ([Scenario.offer_1],
                 fetchNegotiations rls_policies Scenario.quiet (Some "seller-1")
                   (Some "listing-1") [Scenario.offer_1] Scenario.manager_of_dealer))).
Proof.
  apply (counter_defaults_to_the_buyers_offer Scenario.quiet Scenario.quiet "seller-1"
           "listing-1" [Scenario.offer_1] Scenario.manager_of_dealer Scenario.offer_1).
  - repeat constructor. simpl. tauto.
  - reflexivity.
  - reflexivity.
  - reflexivity.
  - left. reflexivity.
  - reflexivity.
  - reflexivity.
  - reflexivity.
Defined.

(** X11: Under fix_negotiations.sql a buyer can accept the own offer: the manager
    opened without a listing shows the buyer's pending offers with the
    seller's buttons, and Accept on one of them sets it to 'accepted'.
    Under rls_policies.sql the same click is refused and writes nothing. *)
Theorem buyer_accepts_own_offer_under_fix_negotiations (srv0 srv : Remote)
    (tbl : table) (s : State) (r : negotiation) :
  fault srv0 0%nat = None -> fault srv0 1%nat = None -> fault srv 0%nat = None ->
  In r tbl -> status r = pending -> seller_id r <> dealer_id r ->
  card_shown (id r)
    (fetchNegotiations fix_negotiations_policies srv0 (Some (dealer_id r)) None tbl s) = true
  /\ In (written srv accept_patch r)
        (fst (handleAcceptOffer fix_negotiations_policies srv (Some (dealer_id r)) (id r)
                (tbl, fetchNegotiations fix_negotiations_policies srv0
                        (Some (dealer_id r)) None tbl s)))
  /\ fst (handleAcceptOffer rls_policies srv (Some (dealer_id r)) (id r)
            (tbl, fetchNegotiations rls_policies srv0 (Some (dealer_id r)) None tbl s))
     = tbl.
Proof.
  intros F0 F1 F Hin Hst Hne.
  assert (forall pols,
            select_using pols (Some (dealer_id r)) r = true ->
            In r (negotiations (fetchNegotiations pols srv0 (Some (dealer_id r)) None tbl s)))
    as Hr.
  { intros pols Hv. apply fetched_In; auto. split; [exact Hin|]. split; [exact Hv|].
    simpl. rewrite String.eqb_refl, Hst. reflexivity. }
  assert (select_using fix_negotiations_policies (Some (dealer_id r)) r = true) as Hv.
  { unfold select_using, fix_negotiations_policies, is_dealer. simpl.
    now rewrite String.eqb_refl. }
  assert (forall s', In r (negotiations s') ->
            exists n, find (eq_id (id r)) (negotiations (setProcessingId (Some (id r)) s'))
                      = Some n) as Hfind.
  { intros s' H. simpl.
    destruct (find (eq_id (id r)) (negotiations s')) as [n|] eqn:E; [eauto|].
    exfalso. apply (find_none _ _ E) in H. unfold eq_id in H.
    now rewrite String.eqb_refl in H. }
  split; [|split].
  - apply (card_shown_of _ _ r); auto.
    destruct (fetched fix_negotiations_policies srv0 (dealer_id r) None tbl s F0 F1)
      as [_ [He _]]. exact He.
  - unfold handleAcceptOffer.
    destruct (Hfind _ (Hr _ Hv)) as [n ->].
    rewrite (PolicyExtras.fix_negotiations_update srv 0%nat (Some (dealer_id r))
               accept_patch accept_patch) by (exact F || reflexivity).
    simpl.
    unfold update_where. apply in_map_iff. exists r. split; [|exact Hin].
    assert (update_target fix_negotiations_policies (Some (dealer_id r)) (eq_id (id r)) r
            = true) as ->; [|reflexivity].
    unfold update_target, eq_id. rewrite Hv, String.eqb_refl.
    unfold update_using, fix_negotiations_policies, is_dealer. simpl.
    now rewrite String.eqb_refl.
  - unfold handleAcceptOffer.
    assert (select_using rls_policies (Some (dealer_id r)) r = true) as Hv'.
    { apply PolicyFacts.rls_select_using. auto. }
    destruct (Hfind _ (Hr _ Hv')) as [n ->].
    unfold accept_patch.
    rewrite (PolicyExtras.dealer_update_refused srv 0%nat (dealer_id r) accepted
               (eq_id (id r)) tbl r); auto.
    unfold eq_id. apply String.eqb_refl.
Qed.

Lemma buyer_accepts_own_offer_example :
  card_shown "n1"
    (fetchNegotiations fix_negotiations_policies Scenario.quiet (Some "dealer-1") None
       [Scenario.offer_1] Scenario.manager_of_dealer) = true
  /\ In (written Scenario.quiet accept_patch Scenario.offer_1)
        (fst (handleAcceptOffer fix_negotiations_policies Scenario.quiet (Some "dealer-1")
                "n1"
                ([Scenario.offer_1],
                 fetchNegotiations fix_negotiations_policies Scenario.quiet
                   (Some "dealer-1") None [Scenario.offer_1] Scenario.manager_of_dealer)))
  /\ fst (handleAcceptOffer rls_policies Scenario.quiet (Some "dealer-1") "n1"
            ([Scenario.offer_1],
             fetchNegotiations rls_policies Scenario.quiet (Some "dealer-1") None
               [Scenario.offer_1] Scenario.manager_of_dealer))
     = [Scenario.offer_1].
Proof.
  apply (buyer_accepts_own_offer_under_fix_negotiations Scenario.quiet Scenario.quiet
           [Scenario.offer_1] Scenario.manager_of_dealer Scenario.offer_1).
  - reflexivity.
  - reflexivity.
  - reflexivity.
  - left. reflexivity.
  - reflexivity.
  - discriminate.
Defined.

End ManagerExtras.

(** ** Listings: coordinates, the browse page and the pickup request *)

Module ListingExtras.
Import Listing VerifyCoordinates.

Lemma find_map_same {A : Type} (p : A -> bool) (f : A -> A) (l : list A) :
  (forall x, p (f x) = p x) -> find p (map f l) = option_map f (find p l).
Proof.
  intro H. induction l as [|x l IH]; simpl; [reflexivity|].
  rewrite H. destruct (p x); [reflexivity|exact IH].
Qed.

Lemma existsb_find {A : Type} (p : A -> bool) (l : list A) :
  existsb p l = match find p l with Some _ => true | None => false end.
Proof.
  induction l as [|x l IH]; simpl; [reflexivity|].
  destruct (p x); [reflexivity|exact IH].
Qed.

Lemma map_fixed {A : Type} (f : A -> A) (l : list A) :
  (forall x, In x l -> f x = x) -> map f l = l.
Proof.
  induction l as [|x l IH]; intro H; simpl; [reflexivity|].
  rewrite (H x (or_introl eq_refl)). f_equal. apply IH. intros y Hy. apply H. now right.
Qed.

Lemma filter_all {A : Type} (l : list A) : filter (fun _ => true) l = l.
Proof. induction l; simpl; congruence. Qed.

(** A point in range is stored as it is. *)
Lemma to_geography_in_range (force : geometry -> geometry) (lat lng : Q) :
  (-180 <= lng)%Q -> (lng <= 180)%Q -> (-90 <= lat)%Q -> (lat <= 90)%Q ->
  to_geography force (stored_point lat lng) = stored_point lat lng.
Proof.
  intros H1 H2 H3 H4. unfold to_geography, in_geodetic_range.
  cbn [px py stored_point ST_SetSRID ST_MakePoint].
  apply Qle_bool_iff in H1, H2, H3, H4. now rewrite H1, H2, H3, H4.
Qed.

(** X12: [update_geolocation] and [get_listing_coordinates] are inverse to each
    other on the coordinates a geography holds: after
    update_geolocation(i, lat, lng) found the listing, with lat in [-90, 90]
    and lng in [-180, 180], get_listing_coordinates(i) returns latitude lat
    and longitude lng, whatever the extension does to points outside that
    range; for such a point the read returns the coordinates the extension
    forced it to.  When the function reports false the table is untouched
    and there is no such listing; other listings read as before, and only
    the geolocation column is written. *)
Theorem update_geolocation_round_trip (force : geometry -> geometry) (i : uuid)
    (lat lng : Q) (tbl : table) :
  (snd (update_geolocation force i lat lng tbl) = true ->
   exists j,
     get_listing_coordinates i (fst (update_geolocation force i lat lng tbl)) = Some j
     /\ j_id j = i
     /\ ((-180 <= lng)%Q -> (lng <= 180)%Q -> (-90 <= lat)%Q -> (lat <= 90)%Q ->
         j_latitude j = Some lat /\ j_longitude j = Some lng)
     /\ (in_geodetic_range (stored_point lat lng) = false ->
         j_latitude j = ST_Y (force (stored_point lat lng))
         /\ j_longitude j = ST_X (force (stored_point lat lng))))
  /\ (snd (update_geolocation force i lat lng tbl) = false ->
      fst (update_geolocation force i lat lng tbl) = tbl
      /\ get_listing_coordinates i tbl = None)
  /\ (forall k, k <> i ->
        get_listing_coordinates k (fst (update_geolocation force i lat lng tbl))
        = get_listing_coordinates k tbl)
  /\ Forall2 same_other_columns tbl (fst (update_geolocation force i lat lng tbl)).
Proof.
  unfold update_geolocation, get_listing_coordinates. cbn [fst snd].
  set (f := fun l => if String.eqb (id l) i
                     then set_geolocation
                            (Some (to_geography force (stored_point lat lng))) l
                     else l).
  assert (forall k x, String.eqb (id (f x)) k = String.eqb (id x) k) as Hid.
  { intros k x. unfold f. destruct (String.eqb (id x) i); reflexivity. }
  split; [|split; [|split]].
  - rewrite existsb_find, find_map_same by apply Hid.
    destruct (find (fun l => String.eqb (id l) i) tbl) as [l|] eqn:E; [|discriminate].
    intros _. apply ListingFacts.find_eq_id in E. destruct E as [_ E].
    cbn [option_map]. unfold f. rewrite E, String.eqb_refl.
    eexists. split; [reflexivity|].
    cbn [j_id j_latitude j_longitude id geolocation set_geolocation case_not_null].
    split; [exact E|]. split.
    + intros H1 H2 H3 H4. rewrite to_geography_in_range by assumption.
      split; reflexivity.
    + intro H. unfold to_geography. rewrite H. split; reflexivity.
  - rewrite existsb_find.
    destruct (find (fun l => String.eqb (id l) i) tbl) as [l|] eqn:E; [discriminate|].
    intros _. split; [|reflexivity].
    apply map_fixed. intros x Hx. unfold f.
    apply (find_none _ _ E) in Hx. now rewrite Hx.
  - intros k Hk. rewrite find_map_same by apply Hid.
    destruct (find (fun l => String.eqb (id l) k) tbl) as [l|] eqn:E; [|reflexivity].
    apply ListingFacts.find_eq_id in E. destruct E as [_ E]. simpl. unfold f.
    assert (String.eqb (id l) i = false) as -> by (apply String.eqb_neq; congruence).
    reflexivity.
  - induction tbl as [|x t IH]; simpl; constructor; auto.
    unfold f. destruct (String.eqb (id x) i).
    + apply ListingFacts.same_other_columns_set.
    + apply ListingFacts.same_other_columns_refl.
Qed.

Lemma needs_default_after (l : scrap_listing) :
  needs_default (if needs_default l then set_geolocation (Some default_location) l else l)
  = false.
Proof.
  destruct (needs_default l) eqn:E; [reflexivity|exact E].
Qed.

Lemma filter_none {A : Type} (p : A -> bool) (l : list A) :
  (forall x, In x l -> p x = false) -> filter p l = [].
Proof.
  induction l as [|x l IH]; intro H; simpl; [reflexivity|].
  rewrite (H x (or_introl eq_refl)). apply IH. intros y Hy. apply H. now right.
Qed.

(** X13: [update_test_geolocation] finishes the job in one run: afterwards
    [verify_listing_coordinates] reports valid coordinates for every listing
    it lists, and it lists the same listings as before; a second run
    changes nothing and reports 0 updated listings. *)
Theorem update_test_geolocation_completes (tbl : table) :
  (forall v, In v (verify_listing_coordinates (fst (update_test_geolocation tbl))) ->
             has_valid_coordinates v = true)
  /\ map v_id (verify_listing_coordinates (fst (update_test_geolocation tbl)))
     = map v_id (verify_listing_coordinates tbl)
  /\ update_test_geolocation (fst (update_test_geolocation tbl))
     = (fst (update_test_geolocation tbl), "Updated 0 listings with default location").
Proof.
  unfold update_test_geolocation, verify_listing_coordinates. cbn [fst snd].
  split; [|split].
  - intros v Hv. apply in_map_iff in Hv. destruct Hv as [l' [<- Hl']].
    apply filter_In in Hl'. destruct Hl' as [Hl' Hnd].
    apply in_map_iff in Hl'. destruct Hl' as [l [<- Hl]].
    unfold verify_row. cbn [has_valid_coordinates].
    destruct (needs_default l) eqn:E; [reflexivity|].
    unfold needs_default in E. destruct (geolocation l) as [g|]; [reflexivity|].
    simpl in Hnd. congruence.
  - induction tbl as [|x t IH]; simpl; [reflexivity|].
    assert (not_deleted (if needs_default x
                         then set_geolocation (Some default_location) x else x)
            = not_deleted x) as -> by (destruct (needs_default x); reflexivity).
    destruct (not_deleted x); simpl; [|exact IH].
    f_equal; [destruct (needs_default x); reflexivity|exact IH].
  - assert (filter needs_default
              (map (fun l => if needs_default l
                             then set_geolocation (Some default_location) l else l) tbl)
            = []) as ->.
    { apply filter_none. intros x Hx. apply in_map_iff in Hx.
      destruct Hx as [l [<- _]]. apply needs_default_after. }
    f_equal. apply map_fixed. intros x Hx. apply in_map_iff in Hx.
    destruct Hx as [l [<- _]]. rewrite needs_default_after. reflexivity.
Qed.

(** X14: [verify_listing_coordinates] cannot detect the exchanged pair of
    [get_listings_with_coordinates]: both list the same listings with the
    same "latitude" and "longitude", and for a point stored from
    (lat, lng) both report latitude lng and longitude lat, with
    has_valid_coordinates true. *)
Theorem verify_listing_coordinates_agrees_with_browse_query
    (mts : list material_type) (tbl : table) :
  map (fun v => (v_id v, v_latitude v, v_longitude v)) (verify_listing_coordinates tbl)
  = map (fun r => (r_id r, latitude r, longitude r)) (get_listings_with_coordinates mts tbl)
  /\ forall l lat lng,
       In l tbl -> status l <> "deleted" ->
       geolocation l = Some (stored_point lat lng) ->
       In (mkVerified (id l) true (Some lng) (Some lat)) (verify_listing_coordinates tbl).
Proof.
  unfold verify_listing_coordinates, get_listings_with_coordinates. split.
  - rewrite !map_map. apply map_ext. intro l. unfold verify_row, coordinates_row. simpl.
    destruct (geolocation l); reflexivity.
  - intros l lat lng Hin Hst Hg. apply in_map_iff. exists l. split.
    + unfold verify_row. rewrite Hg. reflexivity.
    + apply filter_In. split; [exact Hin|]. unfold not_deleted.
      apply negb_true_iff. now apply String.eqb_neq.
Qed.

(** X15: The browse page after [fetchData]: when the two reads go through, the
    page holds every row of the table, each once, newest first, without an
    error; when one of them fails, the page keeps the list it had, stores
    the error message and shows one destructive toast. *)
Theorem fetchData_loads_the_whole_table (srv : Remote) (tbl : table) (p : ListingsPage) :
  (fault srv 0%nat = None -> fault srv 1%nat = None ->
   Permutation tbl (listings (fetchData srv tbl p))
   /\ StronglySorted (newest_first created_at) (listings (fetchData srv tbl p))
   /\ page_error (fetchData srv tbl p) = None
   /\ toasts (fetchData srv tbl p) = toasts p)
  /\ (forall e,
        fault srv 0%nat = Some e \/ (fault srv 0%nat = None /\ fault srv 1%nat = Some e) ->
        listings (fetchData srv tbl p) = listings p
        /\ page_error (fetchData srv tbl p)
           = Some (or_default (message e) "Failed to load listings")
        /\ toasts (fetchData srv tbl p)
           = (toasts p
              ++ [mkToast "Error" "Failed to load listings. Please try again." true])%list).
Proof.
  split.
  - intros F0 F1. unfold fetchData, select. rewrite F0, F1, filter_all.
    destruct (order_desc created_at tbl) as [|x t] eqn:E.
    + apply order_desc_nil in E. subst tbl.
      destruct (fault srv 2%nat); simpl; repeat split; constructor.
    + cbn [set_listings listings page_error toasts]. rewrite <- E.
      repeat split; [apply order_desc_Permutation|apply order_desc_sorted].
  - intros e [F|[F0 F1]]; unfold fetchData, select.
    + rewrite F. simpl. auto.
    + rewrite F0, F1. simpl. auto.
Qed.

(** X16: A pickup request is not atomic: when the transaction insert goes
    through and the status update fails, the pending transaction stays in
    the table although the listing is unchanged and the user is told the
    request failed; a retry that succeeds then leaves two pending
    transactions for the one pickup. *)
Theorem failed_pickup_leaves_its_transaction (srv srv' : Remote) (u : uuid)
    (l : scrap_listing) (db : PickupDb) (e : PostgrestError) :
  fault srv 0%nat = None -> fault srv 1%nat = Some e ->
  fault srv' 0%nat = None -> fault srv' 1%nat = None ->
  scrap_listings (fst (handleRequestPickup srv (Some u) (Some l) db)) = scrap_listings db
  /\ transactions (fst (handleRequestPickup srv (Some u) (Some l) db))
     = (transactions db
        ++ [mkTransaction u (seller_id l) (id l) (listed_price l) "pending"])%list
  /\ map destructive (snd (handleRequestPickup srv (Some u) (Some l) db)) = [true]
  /\ transactions
       (fst (handleRequestPickup srv' (Some u) (Some l)
               (fst (handleRequestPickup srv (Some u) (Some l) db))))
     = (transactions db
        ++ [mkTransaction u (seller_id l) (id l) (listed_price l) "pending";
            mkTransaction u (seller_id l) (id l) (listed_price l) "pending"])%list.
Proof.
  intros F0 F1 G0 G1. unfold handleRequestPickup, update.
  rewrite F0, F1, G0, G1. simpl. rewrite <- app_assoc. auto.
Qed.

Lemma failed_pickup_example :
  scrap_listings
    (fst (handleRequestPickup
            Cases.second_call_fails
            (Some "buyer-1") (Some Scenario.copper) (mkPickupDb [Scenario.copper] [])))
  = scrap_listings (mkPickupDb [Scenario.copper] [])
  /\ transactions
       (fst (handleRequestPickup
               Cases.second_call_fails
               (Some "buyer-1") (Some Scenario.copper) (mkPickupDb [Scenario.copper] [])))
     = (transactions (mkPickupDb [Scenario.copper] [])
        ++ [mkTransaction "buyer-1" (seller_id Scenario.copper) (id Scenario.copper)
              (listed_price Scenario.copper) "pending"])%list
  /\ map destructive
       (snd (handleRequestPickup
               Cases.second_call_fails
               (Some "buyer-1") (Some Scenario.copper) (mkPickupDb [Scenario.copper] [])))
     = [true]
  /\ transactions
       (fst (handleRequestPickup Scenario.quiet (Some "buyer-1") (Some Scenario.copper)
               (fst (handleRequestPickup
                       Cases.second_call_fails
                       (Some "buyer-1") (Some Scenario.copper)
                       (mkPickupDb [Scenario.copper] [])))))
     = (transactions (mkPickupDb [Scenario.copper] [])
        ++ [mkTransaction "buyer-1" (seller_id Scenario.copper) (id Scenario.copper)
              (listed_price Scenario.copper) "pending";
            mkTransaction "buyer-1" (seller_id Scenario.copper) (id Scenario.copper)
              (listed_price Scenario.copper) "pending"])%list.
Proof.
  apply (failed_pickup_leaves_its_transaction
           Cases.second_call_fails
           Scenario.quiet "buyer-1" Scenario.copper (mkPickupDb [Scenario.copper] [])
           (mkError "" "Failed to fetch")); reflexivity.
Defined.

End ListingExtras.

(** ** The filter panel of the listings page *)

Module FilterFacts.
Import ListingFilters.

Lemma includes_In (l : list string) (x : string) : includes l x = true <-> In x l.
Proof.
  unfold includes. rewrite existsb_exists. split.
  - intros [y [Hy E]]. apply String.eqb_eq in E. now subst.
  - intro H. exists x. split; [exact H|apply String.eqb_refl].
Qed.

Lemma includes_ext (l l' : list string) :
  (forall x, In x l <-> In x l') -> forall x, includes l x = includes l' x.
Proof.
  intros H x. destruct (includes l x) eqn:E, (includes l' x) eqn:E'; auto.
  - apply includes_In, H, includes_In in E. congruence.
  - apply includes_In, H, includes_In in E'. congruence.
Qed.

Lemma In_toggle (x y : string) (prev : list string) :
  In y (toggle x prev) <-> (In y prev /\ y <> x) \/ (y = x /\ ~ In x prev).
Proof.
  unfold toggle. destruct (includes prev x) eqn:E.
  - apply includes_In in E. rewrite filter_In, negb_true_iff, String.eqb_neq.
    intuition congruence.
  - assert (~ In x prev) as N by (rewrite <- includes_In; congruence).
    rewrite in_app_iff. simpl. split.
    + intros [H|[<-|[]]]; [left; split; [exact H|congruence]|right; auto].
    + intros [[H _]|[-> _]]; auto.
Qed.

(** The filter depends on a selection only through its members. *)
Lemma applyFilters_ext (ls : list Shown) (types types' cats cats' : list string) :
  (forall x, In x types <-> In x types') -> (forall x, In x cats <-> In x cats') ->
  applyFilters ls types cats = applyFilters ls types' cats'.
Proof.
  intros Ht Hc. unfold applyFilters.
  assert (match types with
          | [] => ls
          | _ => filter (fun s => includes types (Listing.material_type_id (row s))) ls
          end
          = match types' with
            | [] => ls
            | _ => filter (fun s => includes types' (Listing.material_type_id (row s))) ls
            end) as ->.
  { destruct types as [|a t], types' as [|a' t']; auto.
    - exfalso. apply (Ht a'). now left.
    - exfalso. apply (Ht a). now left.
    - apply filter_ext. intro s. now apply includes_ext. }
  destruct cats as [|a t], cats' as [|a' t']; auto.
  - exfalso. apply (Hc a'). now left.
  - exfalso. apply (Hc a). now left.
  - apply filter_ext. intro s. destruct (material_type s); [|reflexivity].
    now apply includes_ext.
Qed.

(** X17: What the filter panel shows: a listing of the page is kept when its
    material type is among the selected types (or none is selected) and the
    category of its joined material type is among the selected categories
    (or none is selected); a listing without a joined material type is
    dropped as soon as a category is selected.  With nothing selected, as
    after Clear Filters, every listing is shown. *)
Theorem applyFilters_keeps_the_selected (ls : list Shown) (types cats : list string)
    (s : Shown) :
  (In s (applyFilters ls types cats)
   <-> In s ls
       /\ (types = [] \/ In (Listing.material_type_id (row s)) types)
       /\ (cats = []
           \/ exists mt, material_type s = Some mt /\ In (Listing.mt_category mt) cats))
  /\ applyFilters ls [] [] = ls.
Proof.
  split; [|reflexivity]. unfold applyFilters.
  assert (In s match types with
               | [] => ls
               | _ => filter (fun s => includes types (Listing.material_type_id (row s))) ls
               end
          <-> In s ls /\ (types = [] \/ In (Listing.material_type_id (row s)) types)) as Ht.
  { destruct types as [|a t].
    - intuition.
    - rewrite filter_In, includes_In. intuition discriminate. }
  destruct cats as [|c t].
  - rewrite Ht. intuition.
  - rewrite filter_In, Ht. destruct (material_type s) as [mt|].
    + rewrite includes_In. split.
      * intros [[H1 H2] H3]. repeat split; auto. right. eauto.
      * intros [H1 [H2 [H3|[mt' [E H3]]]]]; [discriminate|].
        inversion E; subst. auto.
    + split.
      * intros [_ H]. discriminate.
      * intros [_ [_ [H|[mt' [E _]]]]]; discriminate.
Qed.

(** X18: Clicking a filter chip twice restores the result: toggling a material
    type (or a category) on and off again, in either order, shows the same
    listings as before, and one click flips whether the chip is selected. *)
Theorem toggling_twice_restores_the_filter (ls : list Shown) (types cats : list string)
    (t : string) :
  applyFilters ls (toggleMaterialType t (toggleMaterialType t types)) cats
  = applyFilters ls types cats
  /\ applyFilters ls types (toggleCategory t (toggleCategory t cats))
     = applyFilters ls types cats
  /\ (includes (toggle t types) t = negb (includes types t)).
Proof.
  assert (forall l x, In x (toggle t (toggle t l)) <-> In x l) as H.
  { intros l x. rewrite !In_toggle.
    destruct (String.eqb_spec x t) as [->|N]; [|tauto].
    destruct (in_dec string_dec t l); tauto. }
  unfold toggleMaterialType, toggleCategory. split; [|split].
  - apply applyFilters_ext; [apply H|tauto].
  - apply applyFilters_ext; [tauto|apply H].
  - destruct (includes types t) eqn:E; simpl.
    + destruct (includes (toggle t types) t) eqn:E'; [|reflexivity].
      apply includes_In, In_toggle in E'. apply includes_In in E. tauto.
    + apply includes_In, In_toggle. right. split; [reflexivity|].
      rewrite <- includes_In. congruence.
Qed.

End FilterFacts.

Lemma In_update_where {A : Type} (where_ : A -> bool) (set_ : A -> A) (tbl : list A)
    (y : A) :
  In y (update_where where_ set_ tbl)
  <-> exists x, In x tbl /\ y = if where_ x then set_ x else x.
Proof.
  unfold update_where. rewrite in_map_iff. split; intros [x [H1 H2]]; exists x; auto.
Qed.

(** ** Editing and deleting one's listings *)

Module SellerFacts.
Import Listing.





(** What the cards of "my listings" are after a load. *)
Lemma fetchListings_cards (srv : Remote) (u : uuid) (mts : list material_type)
    (tbl : table) (cards : list MyListings.Card) :
  MyListings.fetchListings srv u mts tbl = Some cards ->
  exists found,
    cards = map (MyListings.card_of found)
              (order_desc created_at (filter (fun l => String.eqb (seller_id l) u) tbl)).
Proof.
  unfold MyListings.fetchListings, select. destruct (fault srv 0%nat); [discriminate|].
  destruct (order_desc created_at _) as [|x t] eqn:E; intro H; inversion H.
  - exists []. reflexivity.
  - eexists. reflexivity.
Qed.

(** X20: After a confirmed delete went through, a reload of "my listings"
    renders exactly the user's listings that were not deleted before,
    without the deleted one; the page has dropped its card already. *)
Theorem deleted_listing_leaves_my_listings (srv srv' : Remote) (u i : uuid)
    (mts : list material_type) (tbl : table) (p : ListingsPage)
    (cards : list MyListings.Card) :
  fault srv 0%nat = None ->
  MyListings.fetchListings srv' u mts
    (fst (handleDeleteListing srv (Some u) true i (tbl, p))) = Some cards ->
  (forall x, In x (map MyListings.c_id (MyListings.rendered cards))
             <-> exists l, In l tbl /\ id l = x /\ seller_id l = u
                           /\ status l <> "deleted" /\ id l <> i)
  /\ (forall l, In l (listings (snd (handleDeleteListing srv (Some u) true i (tbl, p))))
                -> id l <> i).
Proof.
  intros F H. unfold handleDeleteListing, update in *. rewrite F in *.
  cbn [negb fst snd] in *. split.
  - apply fetchListings_cards in H. destruct H as [found ->].
    intro x. unfold MyListings.rendered. rewrite in_map_iff. split.
    + intros [c [Hc Hin]]. apply filter_In in Hin. destruct Hin as [Hin Hst].
      apply in_map_iff in Hin. destruct Hin as [l' [<- Hl']].
      apply In_order_desc, filter_In in Hl'. destruct Hl' as [Hl' Hu].
      apply String.eqb_eq in Hu. simpl in Hc, Hst.
      apply negb_true_iff, String.eqb_neq in Hst.
      apply In_update_where in Hl'. destruct Hl' as [l [Hl E]].
      destruct (eq_id i l && user_is (Some u) (seller_id l)) eqn:W.
      * subst l'. simpl in Hst. congruence.
      * subst l'. exists l. repeat split; auto.
        intro Hi. unfold eq_id, user_is, uid_is in W.
        rewrite Hi, Hu, !String.eqb_refl in W. discriminate.
    + intros [l [Hl [Hx [Hu [Hst Hi]]]]].
      exists (MyListings.card_of found l). split; [exact Hx|].
      apply filter_In. split.
      * apply in_map. apply In_order_desc, filter_In. split.
        -- apply In_update_where. exists l. split; [exact Hl|].
           unfold eq_id. assert (String.eqb (id l) i = false) as ->
             by now apply String.eqb_neq.
           reflexivity.
        -- rewrite Hu. apply String.eqb_refl.
      * simpl. apply negb_true_iff. now apply String.eqb_neq.
  - cbn [listings set_listings add_toast]. intros l Hl. apply filter_In in Hl.
    destruct Hl as [_ Hl]. apply negb_true_iff in Hl. unfold eq_id in Hl.
    now apply String.eqb_neq.
Qed.

Lemma deleted_listing_example :
  (forall x, In x (map MyListings.c_id
                     (MyListings.rendered
                        [MyListings.mkCard "listing-1" "Copper wire" None 100 5 "kg"
                           "deleted" 10 None "metal" "Unknown" "Unknown"]))
             <-> exists l, In l [Scenario.copper] /\ id l = x /\ seller_id l = "seller-1"
                           /\ status l <> "deleted" /\ id l <> "listing-1")
  /\ (forall l, In l (listings (snd (handleDeleteListing Scenario.quiet (Some "seller-1")
                                       true "listing-1"
                                       ([Scenario.copper],
                                        mkPage [Scenario.copper] None None false []))))
                -> id l <> "listing-1").
Proof.
  apply (deleted_listing_leaves_my_listings Scenario.quiet Scenario.quiet "seller-1"
           "listing-1" [] [Scenario.copper] (mkPage [Scenario.copper] None None false [])
           [MyListings.mkCard "listing-1" "Copper wire" None 100 5 "kg"
              "deleted" 10 None "metal" "Unknown" "Unknown"]).
  - reflexivity.
  - reflexivity.
Defined.

End SellerFacts.

(** ** The "my negotiations" page *)

Module MyNegotiationsFacts.
Import Negotiation NegotiationFacts MyNegotiations.

Lemma negotiation_row_join (ls : list Listing.scrap_listing) (ps : list profile)
    (n : negotiation) : negotiation_row (join ls ps n) = n.
Proof.
  unfold join. destruct (find _ ls); reflexivity.
Qed.

Lemma fetch_toasts (pols : list policy) (srv : Remote) (k : nat) (u : uuid)
    (db : Database) (s : State) :
  exists rest, toasts (fetchNegotiations pols srv k u db s) = (toasts s ++ rest)%list.
Proof.
  unfold fetchNegotiations, load_failed.
  destruct (select pols srv k (Some u) _ (negotiations_table db)) as [rows|?];
    [|eexists; reflexivity].
  destruct (order_desc created_at rows) as [|x t];
    [exists []; simpl; now rewrite app_nil_r|].
  destruct (Listing.select srv (S k) _ (listings_table db)) as [ld|?];
    [|eexists; reflexivity].
  destruct (fault srv (S (S k))); [eexists; reflexivity|].
  exists []. simpl. now rewrite app_nil_r.
Qed.

(** The negotiations a load that went through puts on the page. *)
Lemma fetched_rows (pols : list policy) (srv : Remote) (k : nat) (u : uuid)
    (db : Database) (s : State) :
  fault srv k = None -> fault srv (S k) = None -> fault srv (S (S k)) = None ->
  map negotiation_row (negotiations (fetchNegotiations pols srv k u db s))
  = order_desc created_at
      (filter (fun r => select_using pols (Some u) r
                        && ((String.eqb (dealer_id r) u || String.eqb (seller_id r) u)
                            && status_eqb (status r) (activeTab s)))
         (negotiations_table db)).
Proof.
  intros F0 F1 F2. unfold fetchNegotiations, select, Listing.select.
  rewrite F0, F1, F2.
  destruct (order_desc created_at _) as [|x t] eqn:E; [reflexivity|].
  cbn [negotiations setNegotiations]. rewrite map_map.
  apply ListingExtras.map_fixed. intros n _. apply negotiation_row_join.
Qed.

(** An update of the status that reaches no row goes through under any
    policy. *)
Lemma update_without_target (pols : list policy) (srv : Remote) (k : nat)
    (a : option uuid) (st : NegotiationStatus) (where_ : negotiation -> bool)
    (tbl : table) :
  fault srv k = None -> (forall r, In r tbl -> where_ r = false) ->
  update pols srv k a (mkPatch None None (Some st)) where_ tbl = Ok tbl.
Proof.
  intros F H. unfold update. rewrite F, to_columns_status.
  assert (forall r, In r tbl -> update_target pols a where_ r = false) as T.
  { intros r Hr. unfold update_target. rewrite (H r Hr). apply andb_false_r. }
  match goal with |- context [forallb ?f tbl] => assert (forallb f tbl = true) as -> end.
  { apply forallb_forall. intros r Hr. now rewrite (T r Hr). }
  now rewrite update_where_untouched.
Qed.

Lemma seller_answer (pols : list policy) (srv : Remote) (u : uuid)
    (st : NegotiationStatus) (ok : Toast) (failed : string) (db : Database) (s : State)
    (n : negotiation) :
  fault srv 0%nat = None ->
  NoDup (map id (negotiations_table db)) -> In n (negotiations_table db) ->
  dealer_id n <> u ->
  fst (answer pols srv u st ok failed (id n) (db, s)) = db
  /\ exists rest,
       toasts (snd (answer pols srv u st ok failed (id n) (db, s)))
       = (toasts s ++ ok :: rest)%list.
Proof.
  intros F Hd Hin Hne. unfold answer.
  rewrite update_without_target; [|exact F|].
  - cbn [fst snd]. split; [destruct db; reflexivity|].
    destruct (fetch_toasts pols srv 1%nat u
                (mkDb (negotiations_table db) (listings_table db) (profiles_table db))
                (toast ok (setProcessingId (Some (id n)) s))) as [rest Hr].
    exists rest. cbn [toasts setProcessingId]. rewrite Hr. simpl.
    rewrite <- app_assoc. reflexivity.
  - intros r Hr. destruct (eq_id (id n) r) eqn:E; [|reflexivity].
    unfold eq_id in E. apply String.eqb_eq in E.
    rewrite (primary_key _ r n Hd Hr Hin E). simpl. now apply String.eqb_neq.
Qed.

(** X21: On the "my negotiations" page the seller's Accept and Decline on a
    pending offer do nothing and say they did: both buttons are rendered,
    both call the handlers that update by id and dealer_id = user, so for a
    seller who is not the dealer no row is reached, the table is unchanged,
    and the success toast is shown all the same. *)
Theorem seller_buttons_of_my_negotiations_write_nothing (pols : list policy)
    (srv : Remote) (u : uuid) (db : Database) (s : State) (n : negotiation) :
  fault srv 0%nat = None ->
  NoDup (map id (negotiations_table db)) -> In n (negotiations_table db) ->
  seller_id n = u -> dealer_id n <> u -> activeTab s = pending ->
  buttons_shown (activeTab s) u n = true
  /\ fst (handleAcceptCounterOffer pols srv u (id n) (db, s)) = db
  /\ fst (handleRejectCounterOffer pols srv u (id n) (db, s)) = db
  /\ (exists rest,
        toasts (snd (handleAcceptCounterOffer pols srv u (id n) (db, s)))
        = (toasts s
           ++ mkToast "Counter Offer Accepted"
                "You have accepted the seller's counter offer" false :: rest)%list)
  /\ (exists rest,
        toasts (snd (handleRejectCounterOffer pols srv u (id n) (db, s)))
        = (toasts s
           ++ mkToast "Counter Offer Rejected"
                "You have rejected the seller's counter offer" false :: rest)%list).
Proof.
  intros F Hd Hin Hs Hne Ht. split.
  - unfold buttons_shown. rewrite Ht, Hs, String.eqb_refl. reflexivity.
  - unfold handleAcceptCounterOffer, handleRejectCounterOffer.
    destruct (seller_answer pols srv u accepted
                (mkToast "Counter Offer Accepted"
                   "You have accepted the seller's counter offer" false)
                "Failed to accept the counter offer" db s n F Hd Hin Hne) as [A1 A2].
    destruct (seller_answer pols srv u rejected
                (mkToast "Counter Offer Rejected"
                   "You have rejected the seller's counter offer" false)
                "Failed to reject the counter offer" db s n F Hd Hin Hne) as [R1 R2].
    auto.
Qed.

Lemma seller_buttons_example :
  buttons_shown (activeTab (mkState [] pending None [])) "seller-1" Scenario.offer_1 = true
  /\ fst (handleAcceptCounterOffer rls_policies Scenario.quiet "seller-1"
            (id Scenario.offer_1)
            (mkDb [Scenario.offer_1] [Scenario.copper] [], mkState [] pending None []))
     = mkDb [Scenario.offer_1] [Scenario.copper] []
  /\ fst (handleRejectCounterOffer rls_policies Scenario.quiet "seller-1"
            (id Scenario.offer_1)
            (mkDb [Scenario.offer_1] [Scenario.copper] [], mkState [] pending None []))
     = mkDb [Scenario.offer_1] [Scenario.copper] []
  /\ (exists rest,
        toasts (snd (handleAcceptCounterOffer rls_policies Scenario.quiet "seller-1"
                       (id Scenario.offer_1)
                       (mkDb [Scenario.offer_1] [Scenario.copper] [],
                        mkState [] pending None [])))
        = (toasts (mkState [] pending None [])
           ++ mkToast "Counter Offer Accepted"
                "You have accepted the seller's counter offer" false :: rest)%list)
  /\ (exists rest,
        toasts (snd (handleRejectCounterOffer rls_policies Scenario.quiet "seller-1"
                       (id Scenario.offer_1)
                       (mkDb [Scenario.offer_1] [Scenario.copper] [],
                        mkState [] pending None [])))
        = (toasts (mkState [] pending None [])
           ++ mkToast "Counter Offer Rejected"
                "You have rejected the seller's counter offer" false :: rest)%list).
Proof.
  apply (seller_buttons_of_my_negotiations_write_nothing rls_policies Scenario.quiet
           "seller-1" (mkDb [Scenario.offer_1] [Scenario.copper] [])
           (mkState [] pending None []) Scenario.offer_1).
  - reflexivity.
  - repeat constructor. simpl. tauto.
  - left. reflexivity.
  - reflexivity.
  - discriminate.
  - reflexivity.
Defined.

(** X22: The buyer's Accept on a countered offer of the "my negotiations" page:
    under fix_negotiations.sql the row becomes 'accepted' and the reloaded
    "countered" tab no longer lists it; under rls_policies.sql the update
    is refused, nothing is written, the list is not reloaded and the error
    toast is shown. *)
Theorem buyer_accept_in_my_negotiations (srv : Remote) (u : uuid) (db : Database)
    (s : State) (n : negotiation) :
  fault srv 0%nat = None -> fault srv 1%nat = None ->
  fault srv 2%nat = None -> fault srv 3%nat = None ->
  NoDup (map id (negotiations_table db)) -> In n (negotiations_table db) ->
  dealer_id n = u -> seller_id n <> u -> activeTab s = countered ->
  buttons_shown (activeTab s) u n = true
  /\ In (written srv (mkPatch None None (Some accepted)) n)
        (negotiations_table
           (fst (handleAcceptCounterOffer fix_negotiations_policies srv u (id n) (db, s))))
  /\ (forall j,
        In j (negotiations
                (snd (handleAcceptCounterOffer fix_negotiations_policies srv u (id n)
                        (db, s)))) ->
        id (negotiation_row j) <> id n)
  /\ fst (handleAcceptCounterOffer rls_policies srv u (id n) (db, s)) = db
  /\ negotiations (snd (handleAcceptCounterOffer rls_policies srv u (id n) (db, s)))
     = negotiations s
  /\ toasts (snd (handleAcceptCounterOffer rls_policies srv u (id n) (db, s)))
     = (toasts s ++ [mkToast "Error" "Failed to accept the counter offer" true])%list.
Proof.
  intros F0 F1 F2 F3 Hd Hin Hu Hs Ht.
  assert (update_target fix_negotiations_policies (Some u)
            (fun r => eq_id (id n) r && String.eqb (dealer_id r) u) n = true) as Tn.
  { unfold update_target, eq_id, select_using, update_using, fix_negotiations_policies,
      is_dealer, is_seller, uid_is. simpl.
    rewrite Hu, !String.eqb_refl. reflexivity. }
  split; [|split; [|split]].
  - unfold buttons_shown. rewrite Ht, Hu, String.eqb_refl. apply orb_true_r.
  - unfold handleAcceptCounterOffer, answer.
    rewrite (PolicyExtras.fix_negotiations_update srv 0%nat (Some u) _
               (mkPatch None None (Some accepted))) by (exact F0 || reflexivity).
    cbn [fst negotiations_table].
    apply In_update_where. exists n. rewrite Tn. auto.
  - unfold handleAcceptCounterOffer, answer.
    rewrite (PolicyExtras.fix_negotiations_update srv 0%nat (Some u) _
               (mkPatch None None (Some accepted))) by (exact F0 || reflexivity).
    cbn [snd negotiations setProcessingId].
    intros j Hj Hid.
    apply (in_map negotiation_row) in Hj.
    rewrite fetched_rows in Hj by assumption.
    apply In_order_desc, filter_In in Hj. destruct Hj as [Hj Hst].
    cbn [negotiations_table activeTab toast setProcessingId] in Hj, Hst.
    apply In_update_where in Hj. destruct Hj as [r [Hr E]].
    assert (id r = id n) as Hrn.
    { rewrite <- Hid, E. destruct (update_target _ _ _ r); reflexivity. }
    rewrite (primary_key _ r n Hd Hr Hin Hrn) in E. rewrite Tn in E.
    rewrite E, Ht in Hst. simpl in Hst. rewrite !andb_false_r in Hst. discriminate.
  - unfold handleAcceptCounterOffer, answer.
    rewrite (PolicyExtras.dealer_update_refused srv 0%nat u accepted _ _ n); auto.
    unfold eq_id. rewrite Hu, !String.eqb_refl. reflexivity.
Qed.

Lemma buyer_accept_in_my_negotiations_example :
  buttons_shown (activeTab (Cases.my_page countered)) "dealer-1" Cases.countered_offer = true
  /\ In (written Scenario.quiet (mkPatch None None (Some accepted)) Cases.countered_offer)
        (negotiations_table
           (fst (handleAcceptCounterOffer fix_negotiations_policies Scenario.quiet
                   "dealer-1" (id Cases.countered_offer)
                   (Cases.my_db Cases.countered_offer, Cases.my_page countered))))
  /\ (forall j,
        In j (negotiations
                (snd (handleAcceptCounterOffer fix_negotiations_policies Scenario.quiet
                        "dealer-1" (id Cases.countered_offer)
                        (Cases.my_db Cases.countered_offer, Cases.my_page countered)))) ->
        id (negotiation_row j) <> id Cases.countered_offer)
  /\ fst (handleAcceptCounterOffer rls_policies Scenario.quiet "dealer-1"
            (id Cases.countered_offer)
            (Cases.my_db Cases.countered_offer, Cases.my_page countered))
     = Cases.my_db Cases.countered_offer
  /\ negotiations (snd (handleAcceptCounterOffer rls_policies Scenario.quiet "dealer-1"
                          (id Cases.countered_offer)
                          (Cases.my_db Cases.countered_offer, Cases.my_page countered)))
     = negotiations (Cases.my_page countered)
  /\ toasts (snd (handleAcceptCounterOffer rls_policies Scenario.quiet "dealer-1"
                    (id Cases.countered_offer)
                    (Cases.my_db Cases.countered_offer, Cases.my_page countered)))
     = (toasts (Cases.my_page countered)
        ++ [mkToast "Error" "Failed to accept the counter offer" true])%list.
Proof.
  apply (buyer_accept_in_my_negotiations Scenario.quiet "dealer-1"
           (Cases.my_db Cases.countered_offer) (Cases.my_page countered)
           Cases.countered_offer).
  - reflexivity.
  - reflexivity.
  - reflexivity.
  - reflexivity.
  - repeat constructor. simpl. tauto.
  - left. reflexivity.
  - reflexivity.
  - discriminate.
  - reflexivity.
Defined.

End MyNegotiationsFacts.

(** ** The uploader and the component that calls it *)

Module UploadFacts.
Import ImageUploader ImageUploaderComponent.

(** X23: The sanitised file name is safe as a path segment: it has the length
    of the name, every code unit of it is a letter, a digit, '.', '-' or
    '_', so a code unit outside that set (a slash, a space, '?', '#', '%')
    does not occur in it, and sanitising it again changes nothing. *)
Theorem sanitize_is_idempotent_and_path_safe (name : jsstring) :
  Forall (fun c => in_class c = true \/ c = underscore) (sanitize name)
  /\ (forall c, in_class c = false -> c <> underscore -> ~ In c (sanitize name))
  /\ ~ In 47%N (sanitize name)
  /\ sanitize (sanitize name) = sanitize name
  /\ List.length (sanitize name) = List.length name.
Proof.
  assert (Forall (fun c => in_class c = true \/ c = underscore) (sanitize name)) as H.
  { unfold sanitize. apply Forall_forall. intros c Hc. apply in_map_iff in Hc.
    destruct Hc as [x [<- _]]. destruct (in_class x) eqn:E; auto. }
  assert (forall c, in_class c = false -> c <> underscore -> ~ In c (sanitize name)) as N.
  { intros c Hc Hu Hin. rewrite Forall_forall in H. destruct (H c Hin); congruence. }
  split; [exact H|]. split; [exact N|]. split; [|split].
  - apply N; [reflexivity|discriminate].
  - unfold sanitize. rewrite map_map. apply map_ext. intro c.
    destruct (in_class c) eqn:E; [now rewrite E|reflexivity].
  - apply length_map.
Qed.

(** X24: [uploadImageToGitHub] returns exactly when the three settings are
    non-empty, the file was read, the request was answered with an ok
    status and the body parsed; then it shows no toast.  In every other
    case it throws after showing one "Upload Error" toast whose description
    is not empty. *)
Theorem uploadImageToGitHub_returns_iff (w : World) (name : jsstring) :
  ((exists url, uploadImageToGitHub w name = (Return url, []))
   <-> truthy (VITE_GITHUB_TOKEN (env w)) = true
       /\ truthy (VITE_GITHUB_USERNAME (env w)) = true
       /\ truthy (VITE_GITHUB_REPO (env w)) = true
       /\ readAsDataURL w = true
       /\ exists r, fetch w = Responded r /\ ok r = true /\ json r = None)
  /\ ((exists url, uploadImageToGitHub w name = (Return url, []))
      \/ exists m d, uploadImageToGitHub w name
                     = (Throw m, [mkUploadToast (lit "Upload Error") d])
                     /\ d <> []).
Proof.
  assert (forall m, exists d,
            (Throw m, [mkUploadToast (lit "Upload Error")
                         (match m with
                          | Some (c :: t) => c :: t
                          | _ => lit "Failed to upload image to GitHub"
                          end)])
            = (Throw m, [mkUploadToast (lit "Upload Error") d]) /\ d <> []) as Hthrow.
  { intro m. eexists. split; [reflexivity|].
    destruct m as [[|c t]|]; discriminate. }
  unfold uploadImageToGitHub, try_upload.
  destruct (truthy (VITE_GITHUB_TOKEN (env w))) eqn:T;
    [|split; [split; [intros [? H]; discriminate|intros [H _]; discriminate]
             |right; eexists; apply Hthrow]].
  destruct (truthy (VITE_GITHUB_USERNAME (env w))) eqn:U;
    [|split; [split; [intros [? H]; discriminate|intros [_ [H _]]; discriminate]
             |right; eexists; apply Hthrow]].
  destruct (truthy (VITE_GITHUB_REPO (env w))) eqn:R;
    [|split; [split; [intros [? H]; discriminate|intros [_ [_ [H _]]]; discriminate]
             |right; eexists; apply Hthrow]].
  cbn [negb orb].
  destruct (VITE_GITHUB_USERNAME (env w)) as [username|]; [|discriminate].
  destruct (VITE_GITHUB_REPO (env w)) as [repo|]; [|discriminate].
  destruct (readAsDataURL w); cbn [negb];
    [|split; [split; [intros [? H]; discriminate
                     |intros [_ [_ [_ [H _]]]]; discriminate]
             |right; eexists; apply Hthrow]].
  destruct (fetch w) as [msg|r];
    [split; [split; [intros [? H]; discriminate
                    |intros [_ [_ [_ [_ [r [H _]]]]]]; discriminate]
            |right; eexists; apply Hthrow]|].
  destruct (ok r) eqn:O; cbn [negb]; destruct (json r) as [m|] eqn:J.
  - split; [split; [intros [? H]; discriminate|]|right; eexists; apply Hthrow].
    intros [_ [_ [_ [_ [r' [H [_ H']]]]]]]. inversion H; subst. congruence.
  - split; [|left; eexists; reflexivity]. split; [|intros _; eexists; reflexivity].
    intros _. repeat split; auto. exists r. auto.
  - split; [split; [intros [? H]; discriminate|]|right; eexists; apply Hthrow].
    intros [_ [_ [_ [_ [r' [H [H' _]]]]]]]. inversion H; subst. congruence.
  - split; [split; [intros [? H]; discriminate|]|right; eexists; apply Hthrow].
    intros [_ [_ [_ [_ [r' [H [H' _]]]]]]]. inversion H; subst. congruence.
Qed.

(** X25: What the form ends up with after [handleImageUpload]: the local blob
    URL is handed over first in every case; it is replaced by the hosted
    URL only when the background upload returned, so after a failed upload
    (and always when the image is for classification) the form keeps the
    local URL.  Two destructive toasts are shown for a failed upload, none
    otherwise. *)
Theorem handleImageUpload_keeps_the_local_url (forML : bool) (w : World)
    (name localImageUrl : jsstring) :
  hd_error (selected (handleImageUpload forML w name localImageUrl)) = Some localImageUrl
  /\ final_url (handleImageUpload forML w name localImageUrl)
     = Some (if forML then localImageUrl
             else match fst (uploadImageToGitHub w name) with
                  | Return url => url
                  | Throw _ => localImageUrl
                  end)
  /\ List.length (filter snd (shown (handleImageUpload forML w name localImageUrl)))
     = (if forML then 0
        else match fst (uploadImageToGitHub w name) with
             | Return _ => 0
             | Throw _ => 2
             end)%nat.
Proof.
  unfold handleImageUpload, final_url, uploadImageToGitHub.
  destruct forML; [repeat split|].
  destruct (try_upload w name) as [url|m]; cbn [fst snd selected shown hd_error map last];
    repeat split.
Qed.

End UploadFacts.
